(** * The video assembly pipeline of pres_gen_new

    A shallow embedding of [video_processor.py] (the pipeline
    [process_video_with_presentation] and the six wrappers around the external
    tools), of the task wrapper of [celery_worker.py] ([create_video_task],
    [cleanup_files]), and of what [main.py] does to files on its own (its
    [cleanup_files], and the paths under which it stores the uploads it hands
    to the task).

    The Python code is effectful: it reads and deletes files, spawns
    [ffmpeg], logs, and raises.  It is embedded in a state-and-exception
    monad over an explicit [world] (the files that exist, and the
    chronological trace of the effects performed).  What the outside world
    decides (the timeline read from the JSON file, the page counts, the exit
    status of each command, whether [os.remove] raises) is an oracle, the
    record [env], so every theorem holds for every behaviour of the tools.

    Outside the model: a failure to open or parse the timeline or the
    document, a failure of the rasterizer, a failure to write a page image or
    the manifest, and timestamps that are not integers.

    The world tells files apart by the text of their path, and of the
    folders [os.makedirs] makes it records the last.  A statement that says
    of a path that it is kept, or that it is gone, is therefore about
    relative paths in normal form ([plain]), which name the same file only
    when they are the same text (links apart); and where it matters the
    folders above the one to be made are there ([ancestors]), so that
    [os.makedirs] makes no other folder and finds no file in its way, and no
    path the run writes to is a folder. *)

From Stdlib Require Import Ascii.
From stdpp Require Import gmap strings list pretty.

Local Open Scope string_scope.
Local Open Scope list_scope.

(** ** Paths: [os.path.join] and [os.path.dirname] (posixpath) *)

Module posixpath.

Definition sep : ascii := "/"%char.

Definition is_sep (c : ascii) : bool := bool_decide (c = sep).

(** [b.startswith('/')] *)
Definition startswith_sep (b : string) : bool :=
  match b with
  | String c _ => is_sep c
  | EmptyString => false
  end.

(** [a.endswith('/')] *)
Fixpoint endswith_sep (a : string) : bool :=
  match a with
  | EmptyString => false
  | String c EmptyString => is_sep c
  | String _ a' => endswith_sep a'
  end.

(** [os.path.join(a, b)] with one component [b]. *)
Definition join (a b : string) : string :=
  if startswith_sep b then b
  else if bool_decide (a = "") || endswith_sep a then a +:+ b
  else a +:+ "/" +:+ b.

(** [p[:p.rfind('/') + 1]]: everything up to and including the last
    separator, empty when there is none. *)
Fixpoint head_of (p : string) : string :=
  match p with
  | EmptyString => ""
  | String c p' =>
      match head_of p' with
      | EmptyString => if is_sep c then String c "" else ""
      | h => String c h
      end
  end.

(** [head == '/' * len(head)] *)
Fixpoint all_sep (h : string) : bool :=
  match h with
  | EmptyString => true
  | String c h' => is_sep c && all_sep h'
  end.

(** [head.rstrip('/')] *)
Fixpoint rstrip_sep (h : string) : string :=
  match h with
  | EmptyString => ""
  | String c h' =>
      match rstrip_sep h' with
      | EmptyString => if is_sep c then "" else String c ""
      | r => String c r
      end
  end.

(** [os.path.dirname(p)] *)
Definition dirname (p : string) : string :=
  let head := head_of p in
  if negb (bool_decide (head = "")) && negb (all_sep head)
  then rstrip_sep head
  else head.

End posixpath.

(** ** Data *)

(** One element of the timeline's ["slides"] array.  The pipeline reads the
    keys [start] and [end] with [slide_data['start']], which raises
    [KeyError] when the key is missing, hence the options; [title] is only
    read for an informational log line.  Timestamps are integers, as
    [models.Slide] declares them. *)
Record slide_data := {
  title : option string;
  start : option Z;
  end_ : option Z
}.

(** The exceptions the modelled code can raise. *)
Inductive exn :=
| ValueError (msg : string)
| KeyError (key : string)
| IndexError
| CalledProcessError (returncode : Z) (cmd : list string)
| OSError (strerror : string)
| FileNotFoundError (path : string)
| FileExistsError (path : string).

(** [isinstance(e, OSError)] : the two file errors are subclasses. *)
Definition is_OSError (e : exn) : bool :=
  match e with
  | OSError _ | FileNotFoundError _ | FileExistsError _ => true
  | _ => false
  end.

(** What a path holds. *)
Inductive content :=
| Text (s : string)
| Binary
| Directory.

(** The effects, in the order they happen.  Informational log lines
    ([logging.info]) are not recorded.  The two messages about a failed
    removal are kept as the two values they interpolate. *)
Inductive event :=
| LogError (msg : string)
| LogWarning (f_path : string) (e : exn)
| PrintedRemoveError (path : string) (e : exn)
| PrintedTaskFailed (e : exn)
| UpdateState (state : string)
| Makedirs (path : string)
| SavePage (image_path : string)
| WriteText (path : string) (text : string)
| Run (cmd : list string) (returncode : Z)
| Remove (path : string).

Record world := {
  fs : gmap string content;
  trace : list event
}.

(** The part of an execution the code does not decide. *)
Record env := {
  (** [json.load(f)["slides"]] *)
  slides_json : list slide_data;
  (** [len(PdfReader(presentation_path).pages)] *)
  pdf_pages : nat;
  (** [len(convert_from_path(pdf_path))] *)
  rendered_pages : nat;
  (** exit status of a spawned command *)
  ffmpeg : world -> list string -> Z;
  (** whether a command that fails leaves its output file behind *)
  ffmpeg_partial : world -> list string -> bool;
  (** [Some strerror] when [os.remove] of an existing file raises *)
  remove_raises : world -> string -> option string
}.

(** ** The monad: state [St], exceptions [exn]; the state survives a raise *)

Definition ST (St A : Type) : Type := St -> (exn + A) * St.

Definition ret {St A} (a : A) : ST St A := fun s => (inr a, s).

Definition bind {St A B} (m : ST St A) (k : A -> ST St B) : ST St B :=
  fun s =>
    match m s with
    | (inr a, s') => k a s'
    | (inl e, s') => (inl e, s')
    end.

Definition raise {St A} (e : exn) : ST St A := fun s => (inl e, s).

Notation "x <- m ;; k" := (bind m (fun x => k))
  (at level 100, m at next level, right associativity).
Notation "m ;;; k" := (bind m (fun _ => k))
  (at level 100, right associativity).

(** [try: body  except Exception as e: handler(e)] *)
Definition try_except {St A} (body : ST St A) (handler : exn -> ST St A) : ST St A :=
  fun s =>
    match body s with
    | (inr a, s') => (inr a, s')
    | (inl e, s') => handler e s'
    end.

(** [try: body  finally: final]; an exception of [final] replaces the
    outcome of [body]. *)
Definition try_finally {St A} (body : ST St A) (final : ST St unit) : ST St A :=
  fun s =>
    match body s with
    | (r, s') =>
        match final s' with
        | (inr _, s'') => (r, s'')
        | (inl e, s'') => (inl e, s'')
        end
    end.

(** [for x in l: f(x)] *)
Fixpoint for_each {St A} (l : list A) (f : A -> ST St unit) : ST St unit :=
  match l with
  | [] => ret tt
  | x :: l' => f x ;;; for_each l' f
  end.

(** [for i, x in enumerate(l): f(i, x)], counting from [i]. *)
Fixpoint for_enumerate {St A} (i : nat) (l : list A) (f : nat -> A -> ST St unit)
  : ST St unit :=
  match l with
  | [] => ret tt
  | x :: l' => f i x ;;; for_enumerate (S i) l' f
  end.

(** ** Primitive effects on the world *)

Definition emit (e : event) : ST world unit :=
  fun w => (inr tt, {| fs := fs w; trace := trace w ++ [e] |}).

(** [os.path.exists(p)] *)
Definition path_exists (p : string) : ST world bool :=
  fun w => (inr (bool_decide (is_Some (fs w !! p))), w).

(** [os.makedirs(path, exist_ok=...)]; only the leaf directory is recorded. *)
Definition makedirs (path : string) (exist_ok : bool) : ST world unit :=
  fun w =>
    if bool_decide (path = "") then (inl (FileNotFoundError path), w)
    else
      match fs w !! path with
      | Some Directory =>
          if exist_ok then (inr tt, w) else (inl (FileExistsError path), w)
      | Some _ => (inl (FileExistsError path), w)
      | None =>
          (inr tt, {| fs := <[path := Directory]> (fs w);
                      trace := trace w ++ [Makedirs path] |})
      end.

(** [slide.save(image_path, 'PNG')] *)
Definition save_page (image_path : string) : ST world unit :=
  fun w => (inr tt, {| fs := <[image_path := Binary]> (fs w);
                       trace := trace w ++ [SavePage image_path] |}).

(** [with open(path, 'w') as f: f.write(text)] *)
Definition write_text (path text : string) : ST world unit :=
  fun w => (inr tt, {| fs := <[path := Text text]> (fs w);
                       trace := trace w ++ [WriteText path text] |}).

(** [subprocess.run(cmd, check=True)].  The tool writes the file named by
    the last argument; a zero exit status means the file is there. *)
Definition subprocess_run (E : env) (cmd : list string) : ST world unit :=
  fun w =>
    let rc := ffmpeg E w cmd in
    let written := bool_decide (rc = 0%Z) || ffmpeg_partial E w cmd in
    let fs' :=
      match last cmd with
      | Some out => if written then <[out := Binary]> (fs w) else fs w
      | None => fs w
      end in
    let w' := {| fs := fs'; trace := trace w ++ [Run cmd rc] |} in
    if bool_decide (rc = 0%Z) then (inr tt, w')
    else (inl (CalledProcessError rc cmd), w').

(** [os.remove(path)] *)
Definition os_remove (E : env) (path : string) : ST world unit :=
  fun w =>
    match fs w !! path with
    | None => (inl (FileNotFoundError path), w)
    | Some Directory => (inl (OSError "Is a directory"), w)
    | Some _ =>
        match remove_raises E w path with
        | Some strerror => (inl (OSError strerror), w)
        | None => (inr tt, {| fs := delete path (fs w);
                              trace := trace w ++ [Remove path] |})
        end
    end.

(** ** video_processor.py *)

(** [f'{n:02d}'] *)
Definition fmt02d (n : nat) : string :=
  if bool_decide (n < 10) then "0" +:+ pretty n else pretty n.

(** [os.path.join(output_folder, f'slide_{i+1:02d}.png')] *)
Definition image_path (output_folder : string) (i : nat) : string :=
  posixpath.join output_folder ("slide_" +:+ fmt02d (i + 1) +:+ ".png").

(** [for i, slide in enumerate(slides)]: save page [i], remember its path. *)
Fixpoint save_slides (output_folder : string) (pages : list nat)
    (image_paths : list string) : ST world (list string) :=
  match pages with
  | [] => ret image_paths
  | i :: pages' =>
      save_page (image_path output_folder i) ;;;
      save_slides output_folder pages' (image_paths ++ [image_path output_folder i])
  end.

Definition convert_pdf_to_images (E : env) (pdf_path output_folder : string)
  : ST world (list string) :=
  present <- path_exists output_folder ;;
  (if negb present then makedirs output_folder false else ret tt) ;;;
  save_slides output_folder (seq 0 (rendered_pages E)) [].

Definition cut_video_cmd (input_video_path : string) (start_ end' : Z)
    (output_video_path video_codec audio_codec : string) : list string :=
  ["ffmpeg"; "-ss"; pretty start_; "-to"; pretty end'; "-i"; input_video_path;
   "-hide_banner"; "-c:v"; video_codec; "-c:a"; audio_codec; "-y";
   output_video_path].

Definition cut_video (E : env) (input_video_path : string) (start_ end' : Z)
    (output_video_path : string) : ST world unit :=
  subprocess_run E
    (cut_video_cmd input_video_path start_ end' output_video_path "libx264" "aac").

Definition slide_to_video_cmd (slide_img_path : string) (duration : Z)
    (output_video_path : string) : list string :=
  ["ffmpeg"; "-loop"; "1"; "-i"; slide_img_path; "-hide_banner";
   "-t"; pretty duration; "-vf"; "scale=1080:1080"; "-c:v"; "libx264"; "-y";
   output_video_path].

Definition slide_to_video (E : env) (slide_img_path : string) (duration : Z)
    (output_video_path : string) : ST world unit :=
  subprocess_run E (slide_to_video_cmd slide_img_path duration output_video_path).

Definition resize_video_cmd (input_video_path output_video_path : string)
  : list string :=
  ["ffmpeg"; "-i"; input_video_path; "-hide_banner"; "-vf"; "scale=840:1080";
   "-c:v"; "libx264"; "-y"; output_video_path].

Definition resize_video (E : env) (input_video_path output_video_path : string)
  : ST world unit :=
  subprocess_run E (resize_video_cmd input_video_path output_video_path).

Definition combine_videos_cmd
    (slide_video_path speaker_video_path output_video_path : string)
  : list string :=
  ["ffmpeg"; "-i"; slide_video_path; "-i"; speaker_video_path; "-hide_banner";
   "-filter_complex"; "[0:v][1:v]hstack=inputs=2[v]"; "-map"; "[v]";
   "-map"; "1:a?"; "-c:v"; "libx264"; "-c:a"; "aac"; "-y"; output_video_path].

Definition combine_videos (E : env)
    (slide_video_path speaker_video_path output_video_path : string)
  : ST world unit :=
  subprocess_run E
    (combine_videos_cmd slide_video_path speaker_video_path output_video_path).

(** The manifest of [concat_videos]: its fixed path, one line per clip. *)
Definition inputs_txt_path : string := "inputs.txt".

Definition manifest_line (v : string) : string :=
  "file '" +:+ v +:+ "'" +:+ String "010"%char "".

Fixpoint manifest_text (video_list : list string) : string :=
  match video_list with
  | [] => ""
  | v :: video_list' => manifest_line v +:+ manifest_text video_list'
  end.

Definition concat_videos_cmd (output_video_path : string) : list string :=
  ["ffmpeg"; "-f"; "concat"; "-safe"; "0"; "-i"; "inputs.txt"; "-hide_banner";
   "-c"; "copy"; "-y"; output_video_path].

Definition concat_videos (E : env) (video_list : list string)
    (output_video_path : string) : ST world unit :=
  write_text "inputs.txt" (manifest_text video_list) ;;;
  subprocess_run E (concat_videos_cmd output_video_path).

(** *** The frame of [process_video_with_presentation] *)

(** The world together with the two lists the function appends to. *)
Record frame := {
  frame_world : world;
  cycle_temp_files : list string;
  video_fragments : list string
}.

Definition lift {A} (m : ST world A) : ST frame A :=
  fun f =>
    match m (frame_world f) with
    | (r, w') => (r, {| frame_world := w';
                        cycle_temp_files := cycle_temp_files f;
                        video_fragments := video_fragments f |})
    end.

(** [cycle_temp_files.append(p)] *)
Definition append_temp (p : string) : ST frame unit :=
  fun f => (inr tt, {| frame_world := frame_world f;
                       cycle_temp_files := cycle_temp_files f ++ [p];
                       video_fragments := video_fragments f |}).

(** [video_fragments.append(p)] *)
Definition append_fragment (p : string) : ST frame unit :=
  fun f => (inr tt, {| frame_world := frame_world f;
                       cycle_temp_files := cycle_temp_files f;
                       video_fragments := video_fragments f ++ [p] |}).

(** [video_fragments = []; cycle_temp_files = list(slide_image_paths)] *)
Definition init_lists (slide_image_paths : list string) : ST frame unit :=
  fun f => (inr tt, {| frame_world := frame_world f;
                       cycle_temp_files := slide_image_paths;
                       video_fragments := [] |}).

(** [d[key]] on a key that may be missing, [l[i]] on a list. *)
Definition getitem {St} (key : string) (v : option Z) : ST St Z :=
  match v with
  | Some x => ret x
  | None => raise (KeyError key)
  end.

Definition index {St} (l : list string) (i : nat) : ST St string :=
  match l !! i with
  | Some x => ret x
  | None => raise IndexError
  end.

(** The four clips of segment [i]. *)
Definition speaker_cut (temp_folder : string) (i : nat) : string :=
  posixpath.join temp_folder ("speaker_" +:+ fmt02d i +:+ ".mp4").

Definition slide_vid (temp_folder : string) (i : nat) : string :=
  posixpath.join temp_folder ("slide_" +:+ fmt02d i +:+ ".mp4").

Definition speaker_resized (temp_folder : string) (i : nat) : string :=
  posixpath.join temp_folder ("speaker_" +:+ fmt02d i +:+ "_resized.mp4").

Definition combined (temp_folder : string) (i : nat) : string :=
  posixpath.join temp_folder ("combined_" +:+ fmt02d i +:+ ".mp4").

(** The body of [for i, slide_data in enumerate(slides_data_list)]. *)
Definition loop_body (E : env) (video_path temp_folder : string)
    (slide_image_paths : list string) (i : nat) (sd : slide_data)
  : ST frame unit :=
  start_ <- getitem "start" (start sd) ;;
  end' <- getitem "end" (end_ sd) ;;
  let duration := (end' - start_)%Z in
  slide_img_path <- index slide_image_paths i ;;
  lift (cut_video E video_path start_ end' (speaker_cut temp_folder i)) ;;;
  append_temp (speaker_cut temp_folder i) ;;;
  lift (slide_to_video E slide_img_path duration (slide_vid temp_folder i)) ;;;
  append_temp (slide_vid temp_folder i) ;;;
  lift (resize_video E (speaker_cut temp_folder i) (speaker_resized temp_folder i)) ;;;
  append_temp (speaker_resized temp_folder i) ;;;
  lift (combine_videos E (slide_vid temp_folder i) (speaker_resized temp_folder i)
          (combined temp_folder i)) ;;;
  append_fragment (combined temp_folder i) ;;;
  append_temp (combined temp_folder i).

Definition segment_loop (E : env) (video_path temp_folder : string)
    (slide_image_paths : list string) : ST frame unit :=
  for_enumerate 0 (slides_json E)
    (loop_body E video_path temp_folder slide_image_paths).

(** The [try] block: the loop, then the concatenation. *)
Definition try_block (E : env) (video_path output_path : string)
    (slide_image_paths : list string) : ST frame unit :=
  segment_loop E video_path (posixpath.dirname output_path) slide_image_paths ;;;
  (fun f => lift (concat_videos E (video_fragments f) output_path) f).

(** [if os.path.exists(f_path): try: os.remove(f_path) except OSError ...] *)
Definition remove_temp (E : env) (f_path : string) : ST world unit :=
  present <- path_exists f_path ;;
  if present then
    try_except (os_remove E f_path)
      (fun e => if is_OSError e then emit (LogWarning f_path e) else raise e)
  else ret tt.

(** The [finally] block. *)
Definition finally_block (E : env) : ST frame unit :=
  present <- lift (path_exists inputs_txt_path) ;;
  (if present then append_temp inputs_txt_path else ret tt) ;;;
  (fun f => lift (for_each (cycle_temp_files f) (remove_temp E)) f).

Definition error_message (n_json n_pdf : nat) : string :=
  "Количество слайдов не совпадает! В JSON: " +:+ pretty n_json
  +:+ ", в PDF: " +:+ pretty n_pdf.

(** Everything before the [try]: the count check, the folder, the page
    images, the two lists. *)
Definition setup (E : env) (presentation_path output_path : string)
  : ST frame (list string) :=
  let slides_data_list := slides_json E in
  if bool_decide (length slides_data_list ≠ pdf_pages E) then
    lift (emit (LogError (error_message (length slides_data_list) (pdf_pages E)))) ;;;
    raise (ValueError (error_message (length slides_data_list) (pdf_pages E)))
  else
    let temp_folder := posixpath.dirname output_path in
    lift (makedirs temp_folder true) ;;;
    slide_image_paths <-
      lift (convert_pdf_to_images E presentation_path temp_folder) ;;
    init_lists slide_image_paths ;;;
    ret slide_image_paths.

(** The function on its frame. *)
Definition process_video_frame (E : env)
    (json_path presentation_path video_path output_path : string)
  : ST frame unit :=
  slide_image_paths <- setup E presentation_path output_path ;;
  try_finally (try_block E video_path output_path slide_image_paths)
              (finally_block E).

Definition new_frame (w : world) : frame :=
  {| frame_world := w; cycle_temp_files := []; video_fragments := [] |}.

Definition process_video_with_presentation (E : env)
    (json_path presentation_path video_path output_path : string)
  : ST world unit :=
  fun w =>
    match process_video_frame E json_path presentation_path video_path
            output_path (new_frame w) with
    | (r, f) => (r, frame_world f)
    end.

(** ** celery_worker.py *)

Definition UPLOADS_DIR : string := "uploads".

Definition cleanup_files (E : env) (paths : list string) : ST world unit :=
  for_each paths (fun path =>
    present <- path_exists path ;;
    if present then
      try_except (os_remove E path)
        (fun e => if is_OSError e then emit (PrintedRemoveError path e)
                  else raise e)
    else ret tt).

Record task_result := {
  status : string;
  result_path : string;
  result_filename : string
}.

(** [request_id] is [self.request.id]. *)
Definition create_video_task (E : env) (request_id : string)
    (json_path pres_path video_path : string) : ST world task_result :=
  let output_filename := "processed_video_" +:+ request_id +:+ ".mp4" in
  let output_path := posixpath.join UPLOADS_DIR output_filename in
  let temp_files_to_clean := [json_path; pres_path; video_path; output_path] in
  try_finally
    (try_except
       (emit (UpdateState "PROGRESS") ;;;
        process_video_with_presentation E json_path pres_path video_path
          output_path ;;;
        ret {| status := "SUCCESS"; result_path := output_path;
               result_filename := output_filename |})
       (fun e =>
          emit (PrintedTaskFailed e) ;;;
          cleanup_files E temp_files_to_clean ;;;
          raise e))
    (cleanup_files E [json_path; pres_path; video_path]).

(** ** Vocabulary of the statements *)

(** One transcoding step as the loop performs it: the command it spawns, the
    file the command writes, and whether that file is also recorded as the
    segment's fragment. *)
Record phase := {
  phase_cmd : list string;
  phase_out : string;
  phase_frag : bool
}.

(** [subprocess.run(cmd)], then the appends that follow it in the loop. *)
Definition run_phase (E : env) (ph : phase) : ST frame unit :=
  lift (subprocess_run E (phase_cmd ph)) ;;;
  (if phase_frag ph then append_fragment (phase_out ph) else ret tt) ;;;
  append_temp (phase_out ph).

Definition run_phases (E : env) (phs : list phase) : ST frame unit :=
  for_each phs (run_phase E).

(** The four steps of segment [i], in the order of the loop body. *)
Definition segment_phases (video_path temp_folder slide_img_path : string)
    (i : nat) (start_ end' : Z) : list phase :=
  [ {| phase_cmd := cut_video_cmd video_path start_ end'
                      (speaker_cut temp_folder i) "libx264" "aac";
       phase_out := speaker_cut temp_folder i; phase_frag := false |};
    {| phase_cmd := slide_to_video_cmd slide_img_path (end' - start_)
                      (slide_vid temp_folder i);
       phase_out := slide_vid temp_folder i; phase_frag := false |};
    {| phase_cmd := resize_video_cmd (speaker_cut temp_folder i)
                      (speaker_resized temp_folder i);
       phase_out := speaker_resized temp_folder i; phase_frag := false |};
    {| phase_cmd := combine_videos_cmd (slide_vid temp_folder i)
                      (speaker_resized temp_folder i) (combined temp_folder i);
       phase_out := combined temp_folder i; phase_frag := true |} ].

(** The reads at the top of the loop body, then the first [j] steps. *)
Definition loop_body_upto (j : nat) (E : env) (video_path temp_folder : string)
    (slide_image_paths : list string) (i : nat) (sd : slide_data)
  : ST frame unit :=
  start_ <- getitem "start" (start sd) ;;
  end' <- getitem "end" (end_ sd) ;;
  slide_img_path <- index slide_image_paths i ;;
  run_phases E
    (take j (segment_phases video_path temp_folder slide_img_path i start_ end')).

(** The point of the loop where segments [0..k-1] are done and [j] steps of
    segment [k] are done. *)
Definition loop_point (k j : nat) (E : env) (video_path temp_folder : string)
    (slide_image_paths : list string) : ST frame unit :=
  for_enumerate 0 (take k (slides_json E))
    (loop_body E video_path temp_folder slide_image_paths) ;;;
  match slides_json E !! k with
  | Some sd => loop_body_upto j E video_path temp_folder slide_image_paths k sd
  | None => ret tt
  end.

(** The steps of segment [i] for the data the loop reads (the defaults
    stand for values whose absence makes the loop raise before the step). *)
Definition phases_of (video_path temp_folder : string)
    (slide_image_paths : list string) (i : nat) (sd : slide_data) : list phase :=
  segment_phases video_path temp_folder (default "" (slide_image_paths !! i)) i
    (default 0%Z (start sd)) (default 0%Z (end_ sd)).

Fixpoint loop_phases (video_path temp_folder : string)
    (slide_image_paths : list string) (i : nat) (l : list slide_data)
  : list phase :=
  match l with
  | [] => []
  | sd :: l' =>
      phases_of video_path temp_folder slide_image_paths i sd
      ++ loop_phases video_path temp_folder slide_image_paths (S i) l'
  end.

Definition ok_run (ph : phase) : event := Run (phase_cmd ph) 0.

Definition frag_of (ph : phase) : option string :=
  if phase_frag ph then Some (phase_out ph) else None.

(** The file an effect produces when it completes. *)
Definition produced_by (e : event) : option string :=
  match e with
  | SavePage p => Some p
  | Run cmd rc => if bool_decide (rc = 0%Z) then last cmd else None
  | _ => None
  end.

Definition produced (t : list event) : list string := omap produced_by t.

(** What an exception adds to the trace when a spawned command raised it. *)
Definition failed_run (e : exn) : list event :=
  match e with
  | CalledProcessError rc cmd => [Run cmd rc]
  | _ => []
  end.

Definition failed_events {A} (r : exn + A) : list event :=
  match r with
  | inl e => failed_run e
  | inr _ => []
  end.

(** [f'] is [f] after the first [m] of the steps [phs] completed and the
    run went on to the outcome [r]. *)
Definition advanced {A} (phs : list phase) (m : nat) (r : exn + A)
    (f f' : frame) : Prop :=
  m <= length phs
  /\ cycle_temp_files f' = cycle_temp_files f ++ (phase_out <$> take m phs)
  /\ video_fragments f' = video_fragments f ++ omap frag_of (take m phs)
  /\ trace (frame_world f')
     = trace (frame_world f) ++ (ok_run <$> take m phs) ++ failed_events r.

(** How a run of the loop over [l] (counting from [i]) that completed [m]
    of its steps [phs] can end. *)
Definition loop_outcome {A} (phs : list phase) (m : nat) (r : exn + A)
    (slide_image_paths : list string) (i : nat) (l : list slide_data) : Prop :=
  match r with
  | inr _ =>
      m = length phs
      /\ forall k sd, l !! k = Some sd ->
           is_Some (start sd) /\ is_Some (end_ sd)
           /\ is_Some (slide_image_paths !! (i + k))
  | inl (CalledProcessError rc cmd) =>
      rc ≠ 0%Z /\ exists ph, phs !! m = Some ph /\ phase_cmd ph = cmd
  | inl (KeyError _) =>
      exists sd, sd ∈ l /\ (start sd = None \/ end_ sd = None)
  | inl IndexError =>
      exists k, k < length l /\ slide_image_paths !! (i + k) = None
  | inl _ => False
  end.

(** The files removed, in order. *)
Definition removed (t : list event) : list string :=
  omap (fun ev => match ev with Remove p => Some p | _ => None end) t.

(** The reads at the top of the loop body have succeeded for every segment
    whose first step comes before position [bound]. *)
Definition data_read (slide_image_paths : list string) (i : nat)
    (l : list slide_data) (bound : nat) : Prop :=
  forall k sd, l !! k = Some sd -> 4 * k < bound ->
    is_Some (start sd) /\ is_Some (end_ sd)
    /\ is_Some (slide_image_paths !! (i + k)).

(** The position up to which steps were spawned: the [m] completed ones,
    and the failing one when a command raised. *)
Definition spawned_upto {A} (r : exn + A) (m : nat) : nat :=
  match r with
  | inl (CalledProcessError _ _) => S m
  | _ => m
  end.

(** The removal of one file, reported through [report] when it raises:
    the common shape of [remove_temp] and of the body of [cleanup_files]. *)
Definition guarded_remove (E : env) (report : string -> exn -> event)
    (path : string) : ST world unit :=
  present <- path_exists path ;;
  if present then
    try_except (os_remove E path)
      (fun e => if is_OSError e then emit (report path e) else raise e)
  else ret tt.

(** The effects of a removal loop over [l]: a file of [l] removed, or the
    failure to remove one reported. *)
Definition removal_of (report : string -> exn -> event) (l : list string)
    (ev : event) : Prop :=
  exists p, p ∈ l /\ (ev = Remove p \/ exists e, ev = report p e).

(** The commands spawned, with their exit statuses, in order. *)
Definition spawned (t : list event) : list (list string * Z) :=
  omap (fun ev => match ev with Run cmd rc => Some (cmd, rc) | _ => None end) t.

(** The text files written, in order. *)
Definition written (t : list event) : list (string * string) :=
  omap (fun ev => match ev with WriteText p s => Some (p, s) | _ => None end) t.

(** [w'] is [w] after a removal loop over [l]: files outside [l] are
    untouched, no file appears, and a file of [l] is gone unless the failure
    to remove it was reported. *)
Definition swept (report : string -> exn -> event) (l : list string)
    (w w' : world) : Prop :=
  (forall q, q ∉ l -> fs w' !! q = fs w !! q)
  /\ (forall q, fs w' !! q = fs w !! q \/ fs w' !! q = None)
  /\ (forall p, p ∈ l -> fs w' !! p = None \/ exists e, report p e ∈ trace w')
  /\ exists evs, trace w' = trace w ++ evs /\ Forall (removal_of report l) evs.

(** The command of a step ends with the file the step records. *)
Definition well_formed (ph : phase) : Prop :=
  last (phase_cmd ph) = Some (phase_out ph).

(** What [setup] leaves behind when it returns and when it raises. *)
Definition setup_outcome (E : env) (output_path : string)
    (r : exn + list string) (f f' : frame) : Prop :=
  match r with
  | inr imgs =>
      length (slides_json E) = pdf_pages E
      /\ posixpath.dirname output_path ≠ ""
      /\ imgs = (image_path (posixpath.dirname output_path)
                  <$> seq 0 (rendered_pages E))
      /\ cycle_temp_files f' = imgs
      /\ video_fragments f' = []
      /\ exists pre, trace (frame_world f')
                     = trace (frame_world f) ++ pre ++ (SavePage <$> imgs)
           /\ (pre = [] \/ pre = [Makedirs (posixpath.dirname output_path)])
  | inl e =>
      cycle_temp_files f' = cycle_temp_files f
      /\ fs (frame_world f') = fs (frame_world f)
      /\ ((length (slides_json E) ≠ pdf_pages E
           /\ e = ValueError (error_message (length (slides_json E)) (pdf_pages E))
           /\ trace (frame_world f')
              = trace (frame_world f)
                ++ [LogError (error_message (length (slides_json E))
                                (pdf_pages E))])
          \/ (length (slides_json E) = pdf_pages E
              /\ is_OSError e = true
              /\ trace (frame_world f') = trace (frame_world f)))
  end.

(** The page images and the steps of a job. *)
Definition job_images (E : env) (output_path : string) : list string :=
  image_path (posixpath.dirname output_path) <$> seq 0 (rendered_pages E).

Definition job_phases (E : env) (video_path output_path : string) : list phase :=
  loop_phases video_path (posixpath.dirname output_path)
    (job_images E output_path) 0 (slides_json E).

(** The three ways a run of [process_video_frame] from [f0] ends in [f]
    with outcome [r]: before the [try]; in the loop, after [m] steps; or
    after the loop, with the concatenation spawned.  [w3] is the world on
    entry to the [finally] block. *)
Inductive run_shape (E : env) (video_path output_path : string) (f0 : frame)
    (r : exn + unit) (f : frame) : Prop :=
| Setup_failed (e : exn) :
    r = inl e ->
    setup_outcome E output_path (inl e) f0 f ->
    run_shape E video_path output_path f0 r f
| Loop_failed (e : exn) (pre : list event) (m : nat) (w3 : world) :
    r = inl e ->
    length (slides_json E) = pdf_pages E ->
    posixpath.dirname output_path ≠ "" ->
    pre = [] \/ pre = [Makedirs (posixpath.dirname output_path)] ->
    m <= length (job_phases E video_path output_path) ->
    loop_outcome (job_phases E video_path output_path) m r
      (job_images E output_path) 0 (slides_json E) ->
    trace w3
    = trace (frame_world f0) ++ pre ++ (SavePage <$> job_images E output_path)
      ++ (ok_run <$> take m (job_phases E video_path output_path))
      ++ failed_events r ->
    cycle_temp_files f
    = job_images E output_path
      ++ (phase_out <$> take m (job_phases E video_path output_path))
      ++ (if bool_decide (is_Some (fs w3 !! inputs_txt_path))
          then [inputs_txt_path] else []) ->
    swept LogWarning (cycle_temp_files f) w3 (frame_world f) ->
    data_read (job_images E output_path) 0 (slides_json E) (spawned_upto r m) ->
    run_shape E video_path output_path f0 r f
| Concat_reached (pre : list event) (rc : Z) (w3 : world) :
    length (slides_json E) = pdf_pages E ->
    posixpath.dirname output_path ≠ "" ->
    pre = [] \/ pre = [Makedirs (posixpath.dirname output_path)] ->
    loop_outcome (job_phases E video_path output_path)
      (length (job_phases E video_path output_path)) (inr tt : exn + unit)
      (job_images E output_path) 0 (slides_json E) ->
    trace w3
    = trace (frame_world f0) ++ pre ++ (SavePage <$> job_images E output_path)
      ++ (ok_run <$> job_phases E video_path output_path)
      ++ [WriteText inputs_txt_path
            (manifest_text (combined (posixpath.dirname output_path)
                              <$> seq 0 (length (slides_json E))));
          Run (concat_videos_cmd output_path) rc] ->
    cycle_temp_files f
    = job_images E output_path
      ++ (phase_out <$> job_phases E video_path output_path)
      ++ [inputs_txt_path] ->
    swept LogWarning (cycle_temp_files f) w3 (frame_world f) ->
    (r = inr tt /\ rc = 0%Z /\ fs w3 !! output_path = Some Binary)
    \/ (r = inl (CalledProcessError rc (concat_videos_cmd output_path))
        /\ rc ≠ 0%Z) ->
    run_shape E video_path output_path f0 r f.

Definition start_world (files : gmap string content) : world :=
  {| fs := files; trace := [] |}.

(** A task id without a path separator (Celery's ids are UUIDs). *)
Fixpoint sep_free (s : string) : bool :=
  match s with
  | EmptyString => true
  | String c s' => negb (posixpath.is_sep c) && sep_free s'
  end.

(** The components of a path: the texts between its separators. *)
Fixpoint components (p : string) : list string :=
  match p with
  | EmptyString => [""]
  | String c p' =>
      if posixpath.is_sep c then "" :: components p'
      else match components p' with
           | x :: l => String c x :: l
           | [] => [String c ""]
           end
  end.

(** A relative path in normal form: no component is empty, [.] or [..].
    Links apart, two such paths name the same file exactly when they are the
    same text. *)
Definition plain (p : string) : bool :=
  forallb (fun c => negb (String.eqb c "" || String.eqb c "."
                          || String.eqb c ".."))
    (components p).

(** ** Example jobs *)

Definition segment (s e : Z) : slide_data :=
  {| title := Some "slide"; start := Some s; end_ := Some e |}.

(** The timeline of the specification's scenario. *)
Definition three_segments : list slide_data :=
  [segment 0 5; segment 5 12; segment 12 20].

(** Tools whose commands fail exactly on [fails] (with exit status 1) and
    whose removals raise exactly on [stuck]. *)
Definition tools (slides : list slide_data) (pages : nat)
    (fails : list string -> bool) (stuck : string -> bool) : env :=
  {| slides_json := slides;
     pdf_pages := pages;
     rendered_pages := pages;
     ffmpeg := fun _ cmd => if fails cmd then 1%Z else 0%Z;
     ffmpeg_partial := fun _ _ => false;
     remove_raises := fun _ p => if stuck p then Some "Permission denied" else None |}.

Definition never {A} (_ : A) : bool := false.

Definition is_path (p q : string) : bool := bool_decide (p = q).

(** The scenario with working tools, and its frame on entry to the loop. *)
Definition demo_env : env := tools three_segments 3 never never.

Definition demo_entry : frame :=
  snd (setup demo_env "uploads/deck.pdf" "uploads/out.mp4"
         (new_frame (start_world ∅))).

Definition demo_images : list string :=
  ["uploads/slide_01.png"; "uploads/slide_02.png"; "uploads/slide_03.png"].

(** Two segments whose end does not exceed their start. *)
Definition backwards_env : env := tools [segment 5 3; segment 4 4] 2 never never.

Definition backwards_world : world :=
  snd (process_video_with_presentation backwards_env "uploads/t.json"
         "uploads/deck.pdf" "uploads/talk.mp4" "uploads/out.mp4" (start_world ∅)).

(** The scenario's final world and final frame. *)
Definition demo_world : world :=
  snd (process_video_with_presentation demo_env "uploads/t.json"
         "uploads/deck.pdf" "uploads/talk.mp4" "uploads/out.mp4" (start_world ∅)).

Definition demo_frame : frame :=
  snd (process_video_frame demo_env "uploads/t.json" "uploads/deck.pdf"
         "uploads/talk.mp4" "uploads/out.mp4" (new_frame (start_world ∅))).

(** Another job in the same folder: other timestamps, other narration, other
    output name, and files already there. *)
Definition other_env : env :=
  tools [segment 1 2; segment 7 9; segment 3 30] 3 never never.

Definition other_frame : frame :=
  snd (process_video_frame other_env "uploads/u.json" "uploads/other.pdf"
         "uploads/voice.mp4" "uploads/result.mp4"
         (new_frame (start_world {[ "uploads/slide_00.mp4" := Binary ]}))).

(** A removal that raises, an output named like an intermediate, and a job
    in another folder. *)
Definition stuck_frame : frame :=
  snd (process_video_frame
         (tools three_segments 3 never (is_path "uploads/speaker_00.mp4"))
         "uploads/t.json" "uploads/deck.pdf" "uploads/talk.mp4"
         "uploads/out.mp4" (new_frame (start_world ∅))).

Definition clash_run : (exn + unit) * frame :=
  process_video_frame (tools [segment 0 5] 1 never never)
    "uploads/t.json" "uploads/deck.pdf" "uploads/talk.mp4"
    "uploads/combined_00.mp4" (new_frame (start_world ∅)).

Definition elsewhere_world : world :=
  snd (process_video_with_presentation demo_env "jobs/b/t.json"
         "jobs/b/deck.pdf" "jobs/b/talk.mp4" "jobs/b/out.mp4" (start_world ∅)).

(** The resize of segment 1 fails, and one clip cannot be removed. *)
Definition failing_env : env :=
  tools three_segments 3
    (fun cmd => bool_decide (cmd = resize_video_cmd "uploads/speaker_01.mp4"
                                     "uploads/speaker_01_resized.mp4"))
    (is_path "uploads/slide_00.mp4").

Definition failing_frame : frame :=
  snd (process_video_frame failing_env "uploads/t.json" "uploads/deck.pdf"
         "uploads/talk.mp4" "uploads/out.mp4" (new_frame (start_world ∅))).

(** Two environments whose tools behave alike, removals apart. *)
Definition same_tools (E E' : env) : Prop :=
  slides_json E = slides_json E'
  /\ pdf_pages E = pdf_pages E'
  /\ rendered_pages E = rendered_pages E'
  /\ ffmpeg E = ffmpeg E'
  /\ ffmpeg_partial E = ffmpeg_partial E'.

(** The output path of the task with id [request_id]. *)
Definition task_output (request_id : string) : string :=
  posixpath.join UPLOADS_DIR ("processed_video_" +:+ request_id +:+ ".mp4").

(** The scenario where no file can be removed. *)
Definition all_stuck_env : env := tools three_segments 3 never (fun _ => true).

(** The task on the scenario: the three uploads are there, and so is an
    older file at the output path. *)
Definition uploads : gmap string content :=
  {[ "uploads/t.json" := Text "{}";
     "uploads/deck.pdf" := Binary;
     "uploads/talk.mp4" := Binary;
     "uploads/processed_video_7f3a.mp4" := Binary ]}.

Definition task_ok_world : world :=
  snd (create_video_task demo_env "7f3a" "uploads/t.json" "uploads/deck.pdf"
         "uploads/talk.mp4" (start_world uploads)).

(** The resize of segment 1 fails; removals work, or none does. *)
Definition task_failed_world : world :=
  snd (create_video_task failing_env "7f3a" "uploads/t.json" "uploads/deck.pdf"
         "uploads/talk.mp4" (start_world uploads)).

Definition failing_stuck_env : env :=
  tools three_segments 3
    (fun cmd => bool_decide (cmd = resize_video_cmd "uploads/speaker_01.mp4"
                                     "uploads/speaker_01_resized.mp4"))
    (fun _ => true).

Definition task_failed_stuck : (exn + task_result) * world :=
  create_video_task failing_stuck_env "7f3a" "uploads/t.json"
    "uploads/deck.pdf" "uploads/talk.mp4" (start_world uploads).

(** The task succeeds, but: no file can be removed; or the narration was
    uploaded under the name of the output; or the id has a separator in it. *)
Definition task_ok_stuck : (exn + task_result) * world :=
  create_video_task all_stuck_env "7f3a" "uploads/t.json" "uploads/deck.pdf"
    "uploads/talk.mp4" (start_world uploads).

Definition task_ok_aliased : (exn + task_result) * world :=
  create_video_task demo_env "7f3a" "uploads/t.json" "uploads/deck.pdf"
    "uploads/processed_video_7f3a.mp4" (start_world uploads).

Definition task_ok_nested : (exn + task_result) * world :=
  create_video_task (tools [segment 0 5] 1 never never) "x/combined_00"
    "uploads/t.json" "uploads/deck.pdf" "uploads/talk.mp4"
    (start_world uploads).

(** ** main.py *)

Module main.

(** [main.py] has its own [UPLOADS_DIR] and its own [cleanup_files]. *)
Definition UPLOADS_DIR : string := "uploads".

(** [cleanup_files] of [main.py]: [os.remove] is not guarded. *)
Definition cleanup_files (E : env) (paths : list string) : ST world unit :=
  for_each paths (fun path =>
    present <- path_exists path ;;
    if present then os_remove E path else ret tt).

(** Where [generate_video_endpoint] stores an upload:
    [os.path.join(UPLOADS_DIR, f"{task_id}_{file.filename}")], with
    [task_id = str(uuid.uuid4())]. *)
Definition upload_path (task_id filename : string) : string :=
  posixpath.join UPLOADS_DIR (task_id +:+ "_" +:+ filename).

End main.

(** ** Vocabulary of the further properties *)

(** The four clips of segment [i], in the order the loop produces them. *)
Definition segment_files (temp_folder : string) (i : nat) : list string :=
  [speaker_cut temp_folder i; slide_vid temp_folder i;
   speaker_resized temp_folder i; combined temp_folder i].

(** The paths the pipeline derives in its folder. *)
Definition planned (temp_folder q : string) : Prop :=
  exists i, q ∈ image_path temp_folder i :: segment_files temp_folder i.

(** The path an effect creates, writes or removes. *)
Definition touched (ev : event) : option string :=
  match ev with
  | Makedirs p | SavePage p | Remove p => Some p
  | WriteText p _ => Some p
  | Run cmd _ => last cmd
  | _ => None
  end.

(** [w'] comes after [w]: the trace has grown, and a path that none of the
    new effects touched holds what it held. *)
Definition follows (w w' : world) : Prop :=
  exists evs, trace w' = trace w ++ evs
    /\ forall q, q ∉ omap touched evs -> fs w' !! q = fs w !! q.

(** No path of [w] is missing in [w']. *)
Definition grows (w w' : world) : Prop :=
  forall q, is_Some (fs w !! q) -> is_Some (fs w' !! q).

(** When the last thing that happened in [w] is a command, the file the
    command names last is there. *)
Definition output_left (w : world) : Prop :=
  forall t cmd rc p,
    trace w = t ++ [Run cmd rc] -> last cmd = Some p -> fs w !! p = Some Binary.

(** Nothing has happened since [w], or [w'] is such a world. *)
Definition leaves_output (w w' : world) : Prop := w' = w \/ output_left w'.

(** Every step of [m] is in the relation [R]. *)
Definition keeps {St A} (R : relation world) (proj : St -> world)
    (m : ST St A) : Prop :=
  forall s r s', m s = (r, s') -> R (proj s) (proj s').

(** [m] never raises [CalledProcessError]. *)
Definition no_failed_command {St A} (m : ST St A) : Prop :=
  forall s rc cmd s', m s ≠ (inl (CalledProcessError rc cmd), s').

(** How the reads at the top of the loop body fail for a segment. *)
Definition read_error (imgs : list string) (i : nat) (sd : slide_data)
    (e : exn) : Prop :=
  (e = KeyError "start" /\ start sd = None)
  \/ (e = KeyError "end" /\ is_Some (start sd) /\ end_ sd = None)
  \/ (e = IndexError /\ is_Some (start sd) /\ is_Some (end_ sd)
      /\ imgs !! i = None).

(** A decimal digit, and a text of decimal digits, as [f'{i:02d}'] is. *)
Definition is_digit (c : ascii) : bool :=
  bool_decide (48 <= nat_of_ascii c <= 57).

Fixpoint digits (s : string) : bool :=
  match s with
  | EmptyString => true
  | String c s' => is_digit c && digits s'
  end.

(** A path without a line break. *)
Fixpoint newline_free (s : string) : bool :=
  match s with
  | EmptyString => true
  | String c s' => negb (bool_decide (c = "010"%char)) && newline_free s'
  end.

(** A lower-case hexadecimal digit, as in the text of a UUID. *)
Definition hex_digit (c : ascii) : bool :=
  bool_decide (48 <= nat_of_ascii c <= 57)
  || bool_decide (97 <= nat_of_ascii c <= 102).

(** The text starts with two hexadecimal digits, as [str(uuid.uuid4())]
    does. *)
Definition starts_like_uuid (s : string) : bool :=
  match s with
  | String a (String b _) => hex_digit a && hex_digit b
  | _ => false
  end.

(** The folders above [p]: [dirname p], its [dirname], and so on.  They are
    what [os.makedirs(p)] makes, from the top, when they are missing. *)
Fixpoint ancestors_upto (n : nat) (p : string) : list string :=
  match n with
  | 0 => []
  | S n' =>
      let d := posixpath.dirname p in
      if bool_decide (d = "" \/ d = p) then [] else d :: ancestors_upto n' d
  end.

Definition ancestors (p : string) : list string :=
  ancestors_upto (String.length p) p.

(** No path holds a folder in [w'] that did not in [w], and no warning about
    a removal is in the log of [w'] that was not in the log of [w]. *)
Definition quiet (w w' : world) : Prop :=
  (forall p, fs w' !! p = Some Directory -> fs w !! p = Some Directory)
  /\ (forall p e, LogWarning p e ∈ trace w' -> LogWarning p e ∈ trace w).

(** The intermediates of a job: the page images, the four clips of every
    segment, the manifest. *)
Definition job_temps (E : env) (output_path : string) : list string :=
  job_images E output_path
  ++ flat_map (segment_files (posixpath.dirname output_path))
       (seq 0 (length (slides_json E)))
  ++ [inputs_txt_path].

(** ** Further example jobs *)

(** The scenario started among the uploads, with a file nobody asked for. *)
Definition uploads_and_more : gmap string content :=
  <["uploads/keep.me" := Binary]> uploads.

Definition kept_world : world :=
  snd (process_video_with_presentation demo_env "uploads/t.json"
         "uploads/deck.pdf" "uploads/talk.mp4" "uploads/out.mp4"
         (start_world uploads_and_more)).

Definition task_kept_world : world :=
  snd (create_video_task demo_env "7f3a" "uploads/t.json" "uploads/deck.pdf"
         "uploads/talk.mp4" (start_world uploads_and_more)).

(** The resize of segment 1 fails and [ffmpeg] leaves what it wrote. *)
Definition leaky_env : env :=
  {| slides_json := three_segments;
     pdf_pages := 3;
     rendered_pages := 3;
     ffmpeg := fun _ cmd =>
       if bool_decide (cmd = resize_video_cmd "uploads/speaker_01.mp4"
                               "uploads/speaker_01_resized.mp4")
       then 1%Z else 0%Z;
     ffmpeg_partial := fun _ _ => true;
     remove_raises := fun _ _ => None |}.

Definition leaky_frame : frame :=
  snd (process_video_frame leaky_env "uploads/t.json" "uploads/deck.pdf"
         "uploads/talk.mp4" "uploads/out.mp4" (new_frame (start_world ∅))).

(** The manifest of an older job is still there when the scenario fails. *)
Definition stale_world : world :=
  start_world {[ "inputs.txt" := Text "file 'old/combined_00.mp4'" ]}.

Definition stale_frame : frame :=
  snd (process_video_frame failing_env "uploads/t.json" "uploads/deck.pdf"
         "uploads/talk.mp4" "uploads/out.mp4" (new_frame stale_world)).

(** No segment, no page. *)
Definition empty_env : env := tools [] 0 never never.

Definition empty_world : world :=
  snd (process_video_with_presentation empty_env "uploads/t.json"
         "uploads/deck.pdf" "uploads/talk.mp4" "uploads/out.mp4" (start_world ∅)).

(** The second segment has no [end]. *)
Definition open_ended : slide_data :=
  {| title := Some "slide"; start := Some 5%Z; end_ := None |}.

Definition open_ended_env : env :=
  tools [segment 0 5; open_ended; segment 12 20] 3 never never.

Definition open_ended_frame : frame :=
  snd (process_video_frame open_ended_env "uploads/t.json" "uploads/deck.pdf"
         "uploads/talk.mp4" "uploads/out.mp4" (new_frame (start_world ∅))).

(** The rasterizer yields two images for three segments. *)
Definition short_env : env :=
  {| slides_json := three_segments;
     pdf_pages := 3;
     rendered_pages := 2;
     ffmpeg := fun _ _ => 0%Z;
     ffmpeg_partial := fun _ _ => false;
     remove_raises := fun _ _ => None |}.

Definition short_frame : frame :=
  snd (process_video_frame short_env "uploads/t.json" "uploads/deck.pdf"
         "uploads/talk.mp4" "uploads/out.mp4" (new_frame (start_world ∅))).

(** The page images of the scenario, rasterized into the default folder. *)
Definition input_world : world :=
  snd (convert_pdf_to_images demo_env "deck.pdf" "input" (start_world ∅)).

(** Two pages for three segments, at the level of the task. *)
Definition mismatch_env : env := tools three_segments 2 never never.

Definition task_mismatch_world : world :=
  snd (create_video_task mismatch_env "7f3a" "uploads/t.json"
         "uploads/deck.pdf" "uploads/talk.mp4" (start_world uploads)).

(** Three files to remove, the second of which cannot be. *)
Definition three_files : gmap string content :=
  {[ "a" := Binary; "b" := Binary; "c" := Binary ]}.

Definition b_stuck_env : env := tools [] 0 never (is_path "b").

Definition b_stuck_world : world :=
  snd (main.cleanup_files b_stuck_env ["a"; "b"; "c"] (start_world three_files)).

(** The uploads of a request, as [main.py] stores them and hands them to
    the task, and the world after the pipeline has run on them. *)
Definition request_files : gmap string content :=
  {[ "uploads/7c9e6679_t.json" := Text "{}";
     "uploads/7c9e6679_d.pdf" := Binary;
     "uploads/7c9e6679_talk.mp4" := Binary ]}.

Definition request_world : world :=
  snd (process_video_with_presentation demo_env
         (main.upload_path "7c9e6679" "t.json")
         (main.upload_path "7c9e6679" "d.pdf")
         (main.upload_path "7c9e6679" "talk.mp4") (task_output "7f3a")
         (start_world request_files)).

(** * Facts *)

(** ** The monad *)

Lemma bind_inv {St A B} (m : ST St A) (k : A -> ST St B) s r s' :
  bind m k s = (r, s') ->
  (exists e, m s = (inl e, s') /\ r = inl e)
  \/ (exists a s1, m s = (inr a, s1) /\ k a s1 = (r, s')).
Proof.
  unfold bind. destruct (m s) as [[e|a] s1]; intros H.
  - left. exists e. by simplify_eq.
  - right. by exists a, s1.
Qed.

Lemma lift_inv {A} (m : ST world A) f r f' :
  lift m f = (r, f') ->
  m (frame_world f) = (r, frame_world f')
  /\ cycle_temp_files f' = cycle_temp_files f
  /\ video_fragments f' = video_fragments f.
Proof.
  unfold lift. destruct (m (frame_world f)) as [r1 w1]. intros H.
  by simplify_eq.
Qed.

(** ** Spawning a command *)

Lemma subprocess_run_inv E cmd w r w' :
  subprocess_run E cmd w = (r, w') ->
  exists rc, trace w' = trace w ++ [Run cmd rc]
    /\ ((r = inr tt /\ rc = 0%Z) \/ (r = inl (CalledProcessError rc cmd) /\ rc ≠ 0%Z)).
Proof.
  unfold subprocess_run. intros H. exists (ffmpeg E w cmd).
  case_bool_decide; simplify_eq; simpl; eauto.
Qed.

Lemma run_phase_inv E ph f r f' :
  run_phase E ph f = (r, f') ->
  (r = inr tt
   /\ trace (frame_world f') = trace (frame_world f) ++ [ok_run ph]
   /\ cycle_temp_files f' = cycle_temp_files f ++ [phase_out ph]
   /\ video_fragments f' = video_fragments f ++ option_list (frag_of ph))
  \/ (exists rc, r = inl (CalledProcessError rc (phase_cmd ph)) /\ rc ≠ 0%Z
      /\ trace (frame_world f') = trace (frame_world f) ++ [Run (phase_cmd ph) rc]
      /\ cycle_temp_files f' = cycle_temp_files f
      /\ video_fragments f' = video_fragments f).
Proof.
  unfold run_phase. intros H. apply bind_inv in H.
  destruct H as [(e & H & ->)|([] & f1 & H & K)];
    apply lift_inv in H; destruct H as (H & Hc & Hv);
    apply subprocess_run_inv in H; destruct H as (rc & Ht & [[? ?]|[? ?]]);
    simplify_eq.
  - right. exists rc. eauto.
  - left. unfold ok_run, frag_of.
    destruct (phase_frag ph); unfold bind, append_fragment, append_temp, ret in K;
      simplify_eq; simpl; rewrite ?Hc, ?Hv, ?Ht, ?app_nil_r; done.
Qed.

(** ** The loop body is its reads followed by its four steps *)

Lemma loop_body_eq E video_path temp_folder imgs i sd f :
  loop_body E video_path temp_folder imgs i sd f
  = loop_body_upto 4 E video_path temp_folder imgs i sd f.
Proof.
  unfold loop_body, loop_body_upto, getitem, index.
  destruct (start sd) as [s|], (end_ sd) as [e|]; try reflexivity.
  destruct (imgs !! i) as [img|]; try reflexivity.
  cbv [run_phases for_each run_phase cut_video slide_to_video resize_video
       combine_videos bind lift append_temp append_fragment ret raise take
       segment_phases phase_cmd phase_out phase_frag].
  repeat
    (match goal with
     | |- context [subprocess_run ?E' ?c ?w] =>
         destruct (subprocess_run E' c w) as [[?|[]] ?]
     end; cbn [frame_world cycle_temp_files video_fragments]; try reflexivity).
Qed.

(** ** Progress of a run of steps *)

Lemma advanced_nil {A} phs (r : exn + A) f :
  failed_events r = [] -> advanced phs 0 r f f.
Proof.
  unfold advanced. intros ->. rewrite take_0. simpl. rewrite !app_nil_r.
  split; [lia|done].
Qed.

Lemma advanced_cons {A} ph phs m (r : exn + A) f f1 f2 :
  advanced [ph] 1 (inr tt) f f1 ->
  advanced phs m r f1 f2 ->
  advanced (ph :: phs) (S m) r f f2.
Proof.
  unfold advanced; simpl.
  intros (_ & Hc & Hv & Ht) (Hm & Hc' & Hv' & Ht').
  rewrite Hc', Hv', Ht', Hc, Hv, Ht.
  split; [lia|]. rewrite <- !app_assoc. simpl.
  destruct (frag_of ph); simpl; rewrite ?app_nil_r; done.
Qed.

Lemma advanced_app {A} phs1 phs2 m (r : exn + A) f f1 f2 :
  advanced phs1 (length phs1) (inr tt) f f1 ->
  advanced phs2 m r f1 f2 ->
  advanced (phs1 ++ phs2) (length phs1 + m) r f f2.
Proof.
  unfold advanced; simpl.
  intros (_ & Hc & Hv & Ht) (Hm & Hc' & Hv' & Ht').
  rewrite Hc', Hv', Ht', Hc, Hv, Ht, !app_nil_r, length_app.
  rewrite firstn_all, take_app_add.
  split; [lia|]. rewrite omap_app, !fmap_app, <- !app_assoc. done.
Qed.

Lemma advanced_weaken {A} phs1 phs2 m (r : exn + A) f f' :
  advanced phs1 m r f f' -> advanced (phs1 ++ phs2) m r f f'.
Proof.
  unfold advanced. intros (Hm & Hc & Hv & Ht).
  rewrite length_app, take_app_le by done. split; [lia|done].
Qed.

Lemma run_phases_inv E phs f r f' :
  run_phases E phs f = (r, f') ->
  exists m, advanced phs m r f f'
    /\ match r with
       | inr _ => m = length phs
       | inl e => exists ph rc, phs !! m = Some ph /\ rc ≠ 0%Z
                    /\ e = CalledProcessError rc (phase_cmd ph)
       end.
Proof.
  revert f. induction phs as [|ph phs IH]; intros f H.
  - unfold run_phases in H. simpl in H. unfold ret in H. simplify_eq.
    exists 0. split; [by apply advanced_nil|done].
  - unfold run_phases in H. simpl in H. apply bind_inv in H.
    destruct H as [(e & H & ->)|([] & f1 & H & K)];
      apply run_phase_inv in H;
      destruct H as [(? & Ht & Hc & Hv)|(rc & ? & Hrc & Ht & Hc & Hv)];
      simplify_eq.
    + exists 0. split; [|by exists ph, rc].
      unfold advanced. rewrite take_0. simpl.
      rewrite Hc, Hv, Ht, !app_nil_r. split; [lia|done].
    + apply IH in K. destruct K as (m & Hadv & Hout).
      exists (S m). split.
      * eapply advanced_cons; [|exact Hadv].
        unfold advanced; simpl. rewrite Hc, Hv, Ht; simpl.
        split; [lia|]. destruct (frag_of ph); done.
      * destruct r as [e|[]]; [exact Hout|by rewrite Hout].
Qed.

(** ** Progress of the loop body and of the loop *)

#[local] Arguments phases_of : simpl never.

Lemma phases_of_length video_path temp_folder imgs i sd :
  length (phases_of video_path temp_folder imgs i sd) = 4.
Proof. reflexivity. Qed.

Lemma loop_phases_length video_path temp_folder imgs i l :
  length (loop_phases video_path temp_folder imgs i l) = 4 * length l.
Proof.
  revert i. induction l as [|sd l IH]; intros i; simpl; [done|].
  rewrite IH. lia.
Qed.

Lemma loop_body_upto_inv j E video_path temp_folder imgs i sd f r f' :
  loop_body_upto j E video_path temp_folder imgs i sd f = (r, f') ->
  exists m,
    advanced (take j (phases_of video_path temp_folder imgs i sd)) m r f f'
    /\ loop_outcome (take j (phases_of video_path temp_folder imgs i sd)) m r
         imgs i [sd]
    /\ data_read imgs i [sd] (spawned_upto r m).
Proof.
  unfold loop_body_upto, phases_of, getitem, index. intros H.
  destruct (start sd) as [s|] eqn:Hs; cycle 1.
  { unfold bind, raise in H. simplify_eq. exists 0.
    split; [by apply advanced_nil|]. split.
    - exists sd. split; [by constructor|by left].
    - intros k sd' _ Hk. simpl in Hk. lia. }
  destruct (end_ sd) as [e|] eqn:He; cycle 1.
  { unfold bind, raise, ret in H. simplify_eq. exists 0.
    split; [by apply advanced_nil|]. split.
    - exists sd. split; [by constructor|by right].
    - intros k sd' _ Hk. simpl in Hk. lia. }
  destruct (imgs !! i) as [img|] eqn:Hi; cycle 1.
  { unfold bind, raise, ret in H. simplify_eq. exists 0.
    split; [by apply advanced_nil|]. split.
    - exists 0. simpl. rewrite Nat.add_0_r. split; [lia|done].
    - intros k sd' _ Hk. simpl in Hk. lia. }
  unfold bind, ret in H. simpl in H.
  apply run_phases_inv in H. destruct H as (m & Hadv & Hout).
  assert (Hread : forall bound, data_read imgs i [sd] bound).
  { intros bound [|k] sd' Hk _; simplify_eq/=.
    rewrite Nat.add_0_r, Hs, He, Hi. eauto. }
  exists m. split; [exact Hadv|]. split; [|apply Hread].
  destruct r as [e0|[]]; simpl.
  - destruct Hout as (ph & rc & Hph & Hrc & ->). eauto.
  - split; [exact Hout|]. intros k sd' Hk.
    apply (Hread 1 k sd' Hk). apply lookup_lt_Some in Hk. simpl in Hk. lia.
Qed.

Lemma loop_body_inv E video_path temp_folder imgs i sd f r f' :
  loop_body E video_path temp_folder imgs i sd f = (r, f') ->
  exists m,
    advanced (phases_of video_path temp_folder imgs i sd) m r f f'
    /\ loop_outcome (phases_of video_path temp_folder imgs i sd) m r imgs i [sd]
    /\ data_read imgs i [sd] (spawned_upto r m).
Proof.
  rewrite loop_body_eq. intros H. apply loop_body_upto_inv in H.
  by rewrite firstn_all2 in H by (rewrite phases_of_length; lia).
Qed.

Lemma spawned_upto_add {A} (r : exn + A) n m :
  spawned_upto r (n + m) = n + spawned_upto r m.
Proof. destruct r as [[]|]; simpl; lia. Qed.

Lemma for_enumerate_inv E video_path temp_folder imgs i l f r f' :
  for_enumerate i l (loop_body E video_path temp_folder imgs) f = (r, f') ->
  exists m,
    advanced (loop_phases video_path temp_folder imgs i l) m r f f'
    /\ loop_outcome (loop_phases video_path temp_folder imgs i l) m r imgs i l
    /\ data_read imgs i l (spawned_upto r m).
Proof.
  revert i f. induction l as [|sd l IH]; intros i f H; simpl in H.
  - unfold ret in H. simplify_eq. exists 0.
    split; [by apply advanced_nil|]. split; [|by intros k sd' Hk].
    split; [done|]. intros k sd' Hk. done.
  - apply bind_inv in H. destruct H as [(e & H & ->)|([] & f1 & H & K)];
      apply loop_body_inv in H; destruct H as (m & Hadv & Hout & Hread).
    + exists m. split; [by apply advanced_weaken|].
      assert (Hm : spawned_upto (inl e : exn + unit) m <= 4).
      { destruct Hadv as (Hm & _). rewrite phases_of_length in Hm.
        destruct e; simpl; try done.
        destruct Hout as (_ & ph & Hph%lookup_lt_Some & _).
        by rewrite phases_of_length in Hph. }
      split.
      * unfold loop_outcome in *. destruct e; try done.
        -- destruct Hout as (sd' & Hin & Hmiss). exists sd'.
           split; [|done]. apply list_elem_of_singleton in Hin. subst. left.
        -- destruct Hout as (k & Hk & Hnone). exists k.
           split; [simpl in *; lia|done].
        -- destruct Hout as (Hrc & ph & Hph & Hcmd). split; [done|].
           exists ph. split; [|done]. cbn [loop_phases].
           by apply lookup_app_l_Some.
      * intros [|k] sd' Hk Hlt; [|lia]. by apply (Hread 0 sd').
    + apply IH in K. destruct K as (m' & Hadv' & Hout' & Hread').
      destruct Hout as (-> & Hdata).
      exists (length (phases_of video_path temp_folder imgs i sd) + m').
      split; [by eapply advanced_app|]. split.
      * unfold loop_outcome in *. destruct r as [e|[]].
        -- destruct e; try done.
           ++ destruct Hout' as (sd' & Hin & Hmiss). exists sd'.
              split; [by right|done].
           ++ destruct Hout' as (k & Hk & Hnone). exists (S k).
              split; [simpl; lia|]. by rewrite <- Nat.add_succ_comm.
        -- destruct Hout' as (-> & Hdata'). split.
           { cbn [loop_phases]. rewrite length_app. done. }
           intros [|k] sd' Hk; simpl in Hk.
           ++ apply (Hdata 0 sd'). by simplify_eq.
           ++ rewrite <- Nat.add_succ_comm. by apply Hdata'.
      * rewrite spawned_upto_add, phases_of_length.
        intros [|k] sd' Hk Hlt; simpl in Hk.
        -- apply (Hdata 0 sd'). by simplify_eq.
        -- rewrite <- Nat.add_succ_comm. apply Hread'; [done|lia].
Qed.

(** ** Removal loops *)

Section sweep.
Context (E : env) (report : string -> exn -> event).

Lemma guarded_remove_inv p w r w' :
  guarded_remove E report p w = (r, w') ->
  r = inr tt
  /\ ((fs w !! p = None /\ w' = w)
      \/ (fs w' = delete p (fs w) /\ trace w' = trace w ++ [Remove p])
      \/ (exists e, fs w' = fs w /\ trace w' = trace w ++ [report p e])).
Proof.
  unfold guarded_remove, bind, path_exists, try_except, os_remove, emit,
    raise, ret. cbv beta.
  destruct (fs w !! p) as [c|] eqn:Hp; cycle 1.
  { rewrite bool_decide_eq_false_2 by (by intros [? ?]).
    intros H. simplify_eq. eauto. }
  rewrite bool_decide_eq_true_2 by eauto. cbv beta iota. rewrite Hp.
  destruct c; try destruct (remove_raises E w p);
    simpl; intros H; simplify_eq; simpl; eauto 10.
Qed.

Lemma sweep_inv l w r w' :
  for_each l (guarded_remove E report) w = (r, w') ->
  r = inr tt /\ swept report l w w'.
Proof.
  unfold swept.
  revert w. induction l as [|x l IH]; intros w H; simpl in H.
  - unfold ret in H. simplify_eq. repeat split; eauto.
    + intros p Hp. by apply not_elem_of_nil in Hp.
    + exists []. by rewrite app_nil_r.
  - apply bind_inv in H. destruct H as [(e & H & ->)|([] & w1 & H & K)];
      apply guarded_remove_inv in H; destruct H as (? & Hx); [done|].
    apply IH in K. destruct K as (-> & Hout & Hdel & Hin & evs & Ht & Hev).
    split; [done|].
    assert (Hfs1 : forall q, fs w1 !! q = fs w !! q \/ fs w1 !! q = None).
    { intros q. destruct Hx as [[_ ->] | [[-> _] | (e & -> & _)]]; eauto.
      destruct (decide (x = q)) as [-> | Hne].
      - right. apply lookup_delete_eq.
      - left. by apply lookup_delete_ne. }
    assert (Ht1 : exists evs1, trace w1 = trace w ++ evs1
                               /\ Forall (removal_of report (x :: l)) evs1).
    { destruct Hx as [[_ ->] | [[_ ->] | (e & _ & ->)]].
      - exists []. by rewrite app_nil_r.
      - exists [Remove x]. split; [done|]. constructor; [|done].
        exists x. split; [by left|by left].
      - exists [report x e]. split; [done|]. constructor; [|done].
        exists x. split; [by left|right; by exists e]. }
    destruct Ht1 as (evs1 & Ht1 & Hev1).
    repeat split.
    + intros q Hq. apply not_elem_of_cons in Hq. destruct Hq as [Hne Hq].
      rewrite Hout by done.
      destruct Hx as [[_ ->] | [[-> _] | (e & -> & _)]]; try done.
      apply lookup_delete_ne. congruence.
    + intros q. destruct (Hdel q) as [-> | ->]; eauto.
    + intros p Hp. apply elem_of_cons in Hp. destruct Hp as [-> | Hp]; [|eauto].
      destruct Hx as [[Hnone ->] | [[Hfs _] | (e & _ & Hte)]].
      * left. destruct (Hdel x) as [-> | ->]; done.
      * left. destruct (Hdel x) as [-> | ->]; [|done].
        rewrite Hfs. apply lookup_delete_eq.
      * right. exists e. rewrite Ht, Hte.
        apply elem_of_app. left. apply elem_of_app. right. by constructor.
    + exists (evs1 ++ evs). rewrite Ht, Ht1, app_assoc. split; [done|].
      apply Forall_app. split; [done|].
      eapply Forall_impl; [exact Hev|]. intros ev (p & Hp & Hev').
      exists p. split; [by right|done].
Qed.

End sweep.

(** ** Before the loop *)

Lemma save_slides_eq output_folder pages image_paths w :
  save_slides output_folder pages image_paths w
  = (inr (image_paths ++ (image_path output_folder <$> pages)),
     {| fs := foldl (fun m p => <[p := Binary]> m) (fs w)
                (image_path output_folder <$> pages);
        trace := trace w ++ (SavePage <$> (image_path output_folder <$> pages)) |}).
Proof.
  revert image_paths w. induction pages as [|i pages IH]; intros image_paths w.
  - simpl. unfold ret. rewrite !app_nil_r. by destruct w.
  - simpl. unfold bind, save_page. rewrite IH. simpl.
    by rewrite <- !app_assoc.
Qed.

Lemma setup_inv E presentation_path output_path f r f' :
  setup E presentation_path output_path f = (r, f') ->
  setup_outcome E output_path r f f'.
Proof.
  unfold setup, setup_outcome. case_bool_decide as Hlen.
  - unfold bind, lift, emit, raise. simpl. intros H. simplify_eq. simpl.
    repeat split; try done. left. done.
  - unfold bind, lift, makedirs, convert_pdf_to_images, bind, path_exists,
      init_lists, ret.
    case_bool_decide as Hdir; simpl.
    { intros H. simplify_eq. simpl. repeat split; try done. by right. }
    destruct (fs (frame_world f) !! posixpath.dirname output_path)
      as [[]|] eqn:Hfs; simpl;
      try (intros H; simplify_eq; simpl; repeat split; try done; by right).
    + rewrite Hfs. rewrite bool_decide_eq_true_2 by eauto. simpl.
      rewrite save_slides_eq. simpl. intros H. simplify_eq. simpl.
      repeat split; try done. exists []. split; [done|by left].
    + rewrite lookup_insert_eq. rewrite bool_decide_eq_true_2 by eauto. simpl.
      rewrite save_slides_eq. simpl. intros H. simplify_eq. simpl.
      repeat split; try done. exists [Makedirs (posixpath.dirname output_path)].
      rewrite <- app_assoc. split; [done|by right].
Qed.

(** ** The concatenation *)

Lemma concat_videos_inv E video_list output_path w r w' :
  concat_videos E video_list output_path w = (r, w') ->
  exists rc,
    trace w' = trace w ++ [WriteText inputs_txt_path (manifest_text video_list);
                           Run (concat_videos_cmd output_path) rc]
    /\ is_Some (fs w' !! inputs_txt_path)
    /\ ((r = inr tt /\ rc = 0%Z /\ fs w' !! output_path = Some Binary)
        \/ (r = inl (CalledProcessError rc (concat_videos_cmd output_path))
            /\ rc ≠ 0%Z)).
Proof.
  unfold concat_videos, bind, write_text, subprocess_run. simpl.
  intros H. eexists.
  assert (Hin : forall b : bool,
             is_Some ((if b
                       then <[output_path := Binary]>
                              (<["inputs.txt" := Text (manifest_text video_list)]>
                                 (fs w))
                       else <["inputs.txt" := Text (manifest_text video_list)]>
                              (fs w)) !! inputs_txt_path)).
  { intros []; unfold inputs_txt_path;
      [destruct (decide (output_path = "inputs.txt")) as [-> | Hne];
       [rewrite lookup_insert_eq | rewrite lookup_insert_ne by done]|];
      rewrite ?lookup_insert_eq; eauto. }
  case_bool_decide as Hrc; simplify_eq; simpl.
  - rewrite <- app_assoc. split; [done|]. split; [apply (Hin true)|].
    left. rewrite Hrc. repeat split; try done. apply lookup_insert_eq.
  - rewrite <- app_assoc. split; [done|]. split; [apply Hin|]. right. done.
Qed.

(** ** Reading a trace *)

Lemma spawned_app t1 t2 : spawned (t1 ++ t2) = spawned t1 ++ spawned t2.
Proof. apply omap_app. Qed.

Lemma written_app t1 t2 : written (t1 ++ t2) = written t1 ++ written t2.
Proof. apply omap_app. Qed.

Lemma produced_app t1 t2 : produced (t1 ++ t2) = produced t1 ++ produced t2.
Proof. apply omap_app. Qed.

Lemma omap_removal {B} (g : event -> option B) report l evs :
  (forall p, g (Remove p) = None) ->
  (forall p e, g (report p e) = None) ->
  Forall (removal_of report l) evs ->
  omap g evs = [].
Proof.
  intros Hrm Hrep. induction 1 as [|ev evs (p & _ & [-> | (e & ->)]) _ IH];
    simpl; rewrite ?Hrm, ?Hrep; done.
Qed.

Lemma omap_save_page {B} (g : event -> option B) (l : list string) :
  (forall p, g (SavePage p) = None) -> omap g (SavePage <$> l) = [].
Proof. intros Hg. induction l as [|p l IH]; simpl; rewrite ?Hg; done. Qed.

Lemma produced_save_page l : produced (SavePage <$> l) = l.
Proof. induction l as [|p l IH]; simpl; [done|]. by f_equal. Qed.

Lemma spawned_ok_run phs :
  spawned (ok_run <$> phs) = (fun ph => (phase_cmd ph, 0%Z)) <$> phs.
Proof. induction phs as [|ph phs IH]; simpl; [done|]. by f_equal. Qed.

Lemma written_ok_run phs : written (ok_run <$> phs) = [].
Proof. induction phs as [|ph phs IH]; simpl; done. Qed.

Lemma produced_ok_run phs :
  Forall well_formed phs -> produced (ok_run <$> phs) = phase_out <$> phs.
Proof.
  induction 1 as [|ph phs Hph _ IH]; simpl; [done|].
  unfold well_formed in Hph. rewrite Hph. simpl. by f_equal.
Qed.

Lemma written_failed {A} (r : exn + A) : written (failed_events r) = [].
Proof. by destruct r as [[]|]. Qed.

Lemma loop_phases_wf video_path temp_folder imgs i l :
  Forall well_formed (loop_phases video_path temp_folder imgs i l).
Proof.
  revert i. induction l as [|sd l IH]; intros i; simpl; [done|].
  repeat (constructor; [reflexivity|]). apply IH.
Qed.

Lemma loop_phases_out video_path temp_folder imgs i l :
  phase_out <$> loop_phases video_path temp_folder imgs i l
  = flat_map (fun k => [speaker_cut temp_folder k; slide_vid temp_folder k;
                        speaker_resized temp_folder k; combined temp_folder k])
      (seq i (length l)).
Proof.
  revert i. induction l as [|sd l IH]; intros i; simpl; [done|].
  by rewrite IH.
Qed.

Lemma loop_phases_frag video_path temp_folder imgs i l :
  omap frag_of (loop_phases video_path temp_folder imgs i l)
  = combined temp_folder <$> seq i (length l).
Proof.
  revert i. induction l as [|sd l IH]; intros i; simpl; [done|].
  by rewrite IH.
Qed.

Lemma loop_phases_lookup video_path temp_folder imgs i l k j sd :
  l !! k = Some sd -> j < 4 ->
  loop_phases video_path temp_folder imgs i l !! (4 * k + j)
  = phases_of video_path temp_folder imgs (i + k) sd !! j.
Proof.
  revert i k. induction l as [|sd' l IH]; intros i k Hk Hj; [done|].
  destruct k as [|k]; simpl in Hk.
  - simplify_eq. cbn [loop_phases]. rewrite Nat.add_0_r.
    rewrite lookup_app_l by (rewrite phases_of_length; lia). done.
  - cbn [loop_phases]. rewrite lookup_app_r by (rewrite phases_of_length; lia).
    rewrite phases_of_length.
    replace (4 * S k + j - 4) with (4 * k + j) by lia.
    rewrite (IH (S i) k) by done. by rewrite Nat.add_succ_comm.
Qed.

(** ** The [try] block and the [finally] block *)

Lemma try_block_inv E video_path output_path imgs f1 r f3 :
  try_block E video_path output_path imgs f1 = (r, f3) ->
  let phs := loop_phases video_path (posixpath.dirname output_path) imgs 0
               (slides_json E) in
  (exists m e, r = inl e /\ advanced phs m r f1 f3
               /\ loop_outcome phs m r imgs 0 (slides_json E)
               /\ data_read imgs 0 (slides_json E) (spawned_upto r m))
  \/ (exists f2 rc,
        advanced phs (length phs) (inr tt : exn + unit) f1 f2
        /\ loop_outcome phs (length phs) (inr tt : exn + unit) imgs 0
             (slides_json E)
        /\ cycle_temp_files f3 = cycle_temp_files f2
        /\ trace (frame_world f3)
           = trace (frame_world f2)
             ++ [WriteText inputs_txt_path (manifest_text (video_fragments f2));
                 Run (concat_videos_cmd output_path) rc]
        /\ is_Some (fs (frame_world f3) !! inputs_txt_path)
        /\ ((r = inr tt /\ rc = 0%Z
             /\ fs (frame_world f3) !! output_path = Some Binary)
            \/ (r = inl (CalledProcessError rc (concat_videos_cmd output_path))
                /\ rc ≠ 0%Z))).
Proof.
  intros H. cbv zeta. unfold try_block, segment_loop in H.
  apply bind_inv in H. destruct H as [(e & H & ->)|([] & f2 & H & K)];
    apply for_enumerate_inv in H; destruct H as (m & Hadv & Hout & Hread).
  - left. by exists m, e.
  - right. apply lift_inv in K. destruct K as (K & Hc & _).
    apply concat_videos_inv in K. destruct K as (rc & Ht & Hin & Hr).
    exists f2, rc. destruct Hout as [-> Hdata]. done.
Qed.

Lemma finally_block_inv E f r f' :
  finally_block E f = (r, f') ->
  r = inr tt
  /\ cycle_temp_files f'
     = cycle_temp_files f
       ++ (if bool_decide (is_Some (fs (frame_world f) !! inputs_txt_path))
           then [inputs_txt_path] else [])
  /\ swept LogWarning (cycle_temp_files f') (frame_world f) (frame_world f').
Proof.
  unfold finally_block. intros H.
  apply bind_inv in H. destruct H as [(e & H & ->)|(present & f1 & H & K)];
    apply lift_inv in H; destruct H as (H & Hc1 & Hv1);
    unfold path_exists in H; [done | injection H as <- Hw1].
  apply bind_inv in K. destruct K as [(e & K & ->)|([] & f2 & K & L)].
  { destruct (bool_decide _); unfold append_temp, ret in K; simplify_eq. }
  assert (Hf2 : frame_world f2 = frame_world f
                /\ cycle_temp_files f2
                   = cycle_temp_files f
                     ++ (if bool_decide
                              (is_Some (fs (frame_world f) !! inputs_txt_path))
                         then [inputs_txt_path] else [])).
  { destruct (bool_decide _); unfold append_temp, ret in K; simplify_eq;
      simpl; rewrite ?app_nil_r, ?Hc1, <- ?Hw1; done. }
  destruct Hf2 as [Hw2 Hc2].
  apply lift_inv in L. destruct L as (L & Hc3 & _).
  change (remove_temp E) with (guarded_remove E LogWarning) in L.
  apply sweep_inv in L. destruct L as [-> L].
  rewrite Hc3, <- Hc2, <- Hw2. done.
Qed.

(** ** The whole function *)

Lemma process_video_frame_inv E json_path presentation_path video_path
    output_path f0 r f :
  video_fragments f0 = [] ->
  process_video_frame E json_path presentation_path video_path output_path f0
  = (r, f) ->
  run_shape E video_path output_path f0 r f.
Proof.
  unfold process_video_frame. intros Hv0 H.
  apply bind_inv in H. destruct H as [(e & H & ->)|(imgs & f1 & H & K)];
    apply setup_inv in H.
  { by eapply Setup_failed. }
  destruct H as (Hlen & Hdir & -> & Hc1 & Hv1 & pre & Ht1 & Hpre).
  fold (job_images E output_path) in *.
  unfold try_finally in K.
  destruct (try_block _ _ _ _ f1) as [r3 f3] eqn:Htry.
  destruct (finally_block E f3) as [rf f4] eqn:Hfin.
  apply finally_block_inv in Hfin. destruct Hfin as (-> & Hc4 & Hsw).
  simplify_eq.
  apply try_block_inv in Htry. cbv zeta in Htry.
  fold (job_phases E video_path output_path) in Htry.
  destruct Htry as [(m & e & -> & Hadv & Hout & Hread)
                   |(f2 & rc & Hadv & Hout & Hc3 & Ht3 & Hin & Hr)].
  - destruct Hadv as (Hm & Hc & Hv & Ht).
    eapply (Loop_failed _ _ _ _ _ _ e pre m (frame_world f3)); try done.
    + rewrite Ht, Ht1. by rewrite <- !app_assoc.
    + rewrite Hc4, Hc, Hc1. by rewrite <- !app_assoc.
  - destruct Hadv as (Hm & Hc & Hv & Ht).
    rewrite firstn_all in Hc, Hv, Ht. simpl in Ht. rewrite app_nil_r in Ht.
    eapply (Concat_reached _ _ _ _ _ _ pre rc (frame_world f3)); try done.
    + rewrite Ht3, Ht, Ht1, Hv, Hv1. simpl.
      unfold job_phases at 2. rewrite loop_phases_frag.
      by rewrite <- !app_assoc.
    + rewrite Hc4, Hc3, Hc, Hc1.
      rewrite bool_decide_eq_true_2 by done. by rewrite <- !app_assoc.
Qed.

(** * Properties of the pipeline and of the task *)

(** C2.  When the number of timeline segments differs from the page count,
    the run raises [ValueError] with a message naming both counts, and all
    it has done is log that message: the file system is unchanged, no folder
    was created, no page was saved, no command was spawned. *)
Theorem C2_count_mismatch_fails_first E json_path presentation_path video_path
    output_path w :
  length (slides_json E) ≠ pdf_pages E ->
  process_video_with_presentation E json_path presentation_path video_path
    output_path w
  = (inl (ValueError
            ("Количество слайдов не совпадает! В JSON: "
             +:+ pretty (length (slides_json E))
             +:+ ", в PDF: " +:+ pretty (pdf_pages E))),
     {| fs := fs w;
        trace := trace w
                 ++ [LogError
                       ("Количество слайдов не совпадает! В JSON: "
                        +:+ pretty (length (slides_json E))
                        +:+ ", в PDF: " +:+ pretty (pdf_pages E))] |}).
Proof.
  intros Hne.
  unfold process_video_with_presentation, process_video_frame, setup.
  rewrite bool_decide_eq_true_2 by done.
  reflexivity.
Qed.

Lemma C2_witness :
  process_video_with_presentation (tools three_segments 2 never never)
    "uploads/t.json" "uploads/d.pdf" "uploads/n.mp4" "uploads/out.mp4"
    (start_world ∅)
  = (inl (ValueError "Количество слайдов не совпадает! В JSON: 3, в PDF: 2"),
     {| fs := ∅;
        trace := [LogError
                    "Количество слайдов не совпадает! В JSON: 3, в PDF: 2"] |}).
Proof.
  apply (C2_count_mismatch_fails_first (tools three_segments 2 never never)).
  simpl. lia.
Defined.

(** ** The accumulator tracks what has been produced *)

Lemma produced_failed {A} (r : exn + A) :
  (forall rc cmd, r = inl (CalledProcessError rc cmd) -> rc ≠ 0%Z) ->
  produced (failed_events r) = [].
Proof.
  destruct r as [[]|]; try done. intros Hrc. simpl.
  rewrite bool_decide_eq_false_2; [done|]. by eapply Hrc.
Qed.

Lemma advanced_tracks {A} phs m (r : exn + A) f f' :
  advanced phs m r f f' ->
  Forall well_formed phs ->
  (forall rc cmd, r = inl (CalledProcessError rc cmd) -> rc ≠ 0%Z) ->
  cycle_temp_files f = produced (trace (frame_world f)) ->
  cycle_temp_files f' = produced (trace (frame_world f')).
Proof.
  intros (_ & Hc & _ & Ht) Hwf Hrc Hinv.
  rewrite Hc, Ht, !produced_app, produced_failed, app_nil_r by done.
  rewrite produced_ok_run by (by apply Forall_take). by rewrite Hinv.
Qed.

Lemma loop_outcome_nonzero {A} phs m (r : exn + A) imgs i l :
  loop_outcome phs m r imgs i l ->
  forall rc cmd, r = inl (CalledProcessError rc cmd) -> rc ≠ 0%Z.
Proof. intros Hout rc cmd ->. by destruct Hout. Qed.

Lemma loop_point_inv k j E video_path temp_folder imgs f r f' :
  loop_point k j E video_path temp_folder imgs f = (r, f') ->
  exists phs m,
    advanced phs m r f f' /\ Forall well_formed phs
    /\ forall rc cmd, r = inl (CalledProcessError rc cmd) -> rc ≠ 0%Z.
Proof.
  unfold loop_point. intros H.
  apply bind_inv in H. destruct H as [(e & H & ->)|([] & f1 & H & K)];
    apply for_enumerate_inv in H; destruct H as (m & Hadv & Hout & _).
  - eexists _, m. split; [exact Hadv|]. split; [apply loop_phases_wf|].
    by eapply loop_outcome_nonzero.
  - destruct Hout as [-> _].
    destruct (slides_json E !! k) as [sd|].
    + apply loop_body_upto_inv in K. destruct K as (m' & Hadv' & Hout' & _).
      eexists _, _. split; [by eapply advanced_app|].
      split; [|by eapply loop_outcome_nonzero].
      apply Forall_app. split; [apply loop_phases_wf|].
      apply Forall_take. apply (loop_phases_wf _ _ _ k [sd]).
    + unfold ret in K. simplify_eq.
      eexists _, _. split; [exact Hadv|]. split; [apply loop_phases_wf|done].
Qed.

(** C9.  On entry to the loop the accumulator holds exactly the page images
    that were rasterized; at every point of the loop (after [j] steps of
    segment [k], whether the run got there or raised on the way) and when the
    loop is left, the accumulator is exactly the list of the files whose
    producing operation has completed, in the order they were produced: the
    output of a step is appended as soon as the step returns, before the next
    step is spawned. *)
Theorem C9_accumulator_tracks_produced E presentation_path video_path
    output_path files imgs f0 :
  setup E presentation_path output_path (new_frame (start_world files))
  = (inr imgs, f0) ->
  (cycle_temp_files f0 = imgs /\ produced (trace (frame_world f0)) = imgs)
  /\ (forall k j r f,
        loop_point k j E video_path (posixpath.dirname output_path) imgs f0
        = (r, f) ->
        cycle_temp_files f = produced (trace (frame_world f))
        /\ forall p, p ∈ produced (trace (frame_world f)) ->
                     p ∈ cycle_temp_files f)
  /\ (forall r f,
        segment_loop E video_path (posixpath.dirname output_path) imgs f0
        = (r, f) ->
        cycle_temp_files f = produced (trace (frame_world f))
        /\ forall p, p ∈ produced (trace (frame_world f)) ->
                     p ∈ cycle_temp_files f).
Proof.
  intros Hsetup. apply setup_inv in Hsetup.
  destruct Hsetup as (_ & _ & Himgs & Hc & _ & pre & Ht & Hpre).
  assert (Hinit : cycle_temp_files f0 = produced (trace (frame_world f0))).
  { rewrite Hc, Ht. simpl. rewrite produced_app, produced_save_page.
    by destruct Hpre as [-> | ->]. }
  split; [split; [done|by rewrite <- Hinit]|]. split.
  - intros k j r f H. apply loop_point_inv in H.
    destruct H as (phs & m & Hadv & Hwf & Hrc).
    assert (Heq : cycle_temp_files f = produced (trace (frame_world f)))
      by (by eapply advanced_tracks).
    split; [done|]. by rewrite Heq.
  - intros r f H. apply for_enumerate_inv in H.
    destruct H as (m & Hadv & Hout & _).
    assert (Heq : cycle_temp_files f = produced (trace (frame_world f))).
    { eapply advanced_tracks; [exact Hadv|apply loop_phases_wf| |done].
      by eapply loop_outcome_nonzero. }
    split; [done|]. by rewrite Heq.
Qed.

Lemma C9_witness :
  setup demo_env "uploads/deck.pdf" "uploads/out.mp4" (new_frame (start_world ∅))
  = (inr demo_images, demo_entry)
  /\ (cycle_temp_files demo_entry = demo_images
      /\ produced (trace (frame_world demo_entry)) = demo_images)
  /\ (forall k j r f,
        loop_point k j demo_env "uploads/talk.mp4"
          (posixpath.dirname "uploads/out.mp4") demo_images demo_entry
        = (r, f) ->
        cycle_temp_files f = produced (trace (frame_world f))
        /\ forall p, p ∈ produced (trace (frame_world f)) ->
                     p ∈ cycle_temp_files f)
  /\ (forall r f,
        segment_loop demo_env "uploads/talk.mp4"
          (posixpath.dirname "uploads/out.mp4") demo_images demo_entry
        = (r, f) ->
        cycle_temp_files f = produced (trace (frame_world f))
        /\ forall p, p ∈ produced (trace (frame_world f)) ->
                     p ∈ cycle_temp_files f).
Proof.
  assert (H : setup demo_env "uploads/deck.pdf" "uploads/out.mp4"
                (new_frame (start_world ∅)) = (inr demo_images, demo_entry))
    by (vm_compute; reflexivity).
  split; [exact H|].
  exact (C9_accumulator_tracks_produced demo_env "uploads/deck.pdf"
           "uploads/talk.mp4" "uploads/out.mp4" ∅ demo_images demo_entry H).
Defined.

(** ** Successful runs *)

Lemma omap_pre {B} (g : event -> option B) pre d :
  pre = [] \/ pre = [Makedirs d] -> g (Makedirs d) = None -> omap g pre = [].
Proof. intros [-> | ->] Hg; simpl; rewrite ?Hg; done. Qed.

Lemma job_images_lookup E output_path i :
  is_Some (job_images E output_path !! i) ->
  job_images E output_path !! i
  = Some (image_path (posixpath.dirname output_path) i).
Proof.
  unfold job_images. intros Hi. apply lookup_lt_is_Some in Hi.
  rewrite length_fmap, length_seq in Hi.
  rewrite list_lookup_fmap, lookup_seq_lt by done. done.
Qed.

Lemma spawned_quiet pre d l evs report :
  pre = [] \/ pre = [Makedirs d] ->
  (forall p e, spawned [report p e] = []) ->
  Forall (removal_of report l) evs ->
  spawned pre = [] /\ spawned evs = [].
Proof.
  intros Hpre Hrep Hev. split; [by eapply omap_pre|].
  eapply omap_removal; [done| |exact Hev].
  intros p e. specialize (Hrep p e). simpl in Hrep.
  by destruct (report p e).
Qed.

Lemma written_quiet pre d l evs report :
  pre = [] \/ pre = [Makedirs d] ->
  (forall p e, written [report p e] = []) ->
  Forall (removal_of report l) evs ->
  written pre = [] /\ written evs = [].
Proof.
  intros Hpre Hrep Hev. split; [by eapply omap_pre|].
  eapply omap_removal; [done| |exact Hev].
  intros p e. specialize (Hrep p e). simpl in Hrep.
  by destruct (report p e).
Qed.

Lemma spawned_save_page l : spawned (SavePage <$> l) = [].
Proof. by apply omap_save_page. Qed.

Lemma written_save_page l : written (SavePage <$> l) = [].
Proof. by apply omap_save_page. Qed.

(** What a run that returns has spawned and written, and the data it read. *)
Lemma success_inv E json_path presentation_path video_path output_path w r f :
  process_video_frame E json_path presentation_path video_path output_path
    (new_frame w) = (r, f) ->
  r = inr tt ->
  spawned (trace (frame_world f))
  = spawned (trace w)
    ++ ((fun ph => (phase_cmd ph, 0%Z)) <$> job_phases E video_path output_path)
    ++ [(concat_videos_cmd output_path, 0%Z)]
  /\ written (trace (frame_world f))
     = written (trace w)
       ++ [(inputs_txt_path,
            manifest_text (combined (posixpath.dirname output_path)
                             <$> seq 0 (length (slides_json E))))]
  /\ cycle_temp_files f
     = job_images E output_path
       ++ (phase_out <$> job_phases E video_path output_path)
       ++ [inputs_txt_path]
  /\ (forall i sd, slides_json E !! i = Some sd ->
        exists s e,
          start sd = Some s /\ end_ sd = Some e
          /\ phases_of video_path (posixpath.dirname output_path)
               (job_images E output_path) i sd
             = segment_phases video_path (posixpath.dirname output_path)
                 (image_path (posixpath.dirname output_path) i) i s e).
Proof.
  intros H ->. apply process_video_frame_inv in H; [|done].
  destruct H as [e ? _|e pre m w3 ? _ _ _ _ _ _ _ _
                |pre rc w3 _ _ Hpre Hout Ht Hc Hsw Hr]; try done.
  destruct Hr as [(_ & -> & _)|(? & _)]; [|done].
  destruct Hsw as (_ & _ & _ & evs & Htf & Hev).
  simpl in Ht.
  repeat split.
  - destruct (spawned_quiet _ _ _ _ LogWarning Hpre ltac:(done) Hev)
      as [Hq1 Hq2].
    rewrite Htf, Ht, !spawned_app, Hq1, Hq2, spawned_save_page, spawned_ok_run.
    by rewrite app_nil_r.
  - destruct (written_quiet _ _ _ _ LogWarning Hpre ltac:(done) Hev)
      as [Hq1 Hq2].
    rewrite Htf, Ht, !written_app, Hq1, Hq2, written_save_page, written_ok_run.
    by rewrite app_nil_r.
  - done.
  - intros i sd Hi. destruct Hout as [_ Hdata].
    destruct (Hdata i sd Hi) as ([s Hs] & [e He] & Himg).
    exists s, e. repeat split; try done.
    unfold phases_of. simpl in Himg.
    rewrite (job_images_lookup _ _ _ Himg), Hs, He. done.
Qed.

Lemma success_command E json_path presentation_path video_path output_path w f
    i j sd ph :
  trace w = [] ->
  process_video_frame E json_path presentation_path video_path output_path
    (new_frame w) = (inr tt, f) ->
  slides_json E !! i = Some sd ->
  phases_of video_path (posixpath.dirname output_path)
    (job_images E output_path) i sd !! j = Some ph ->
  spawned (trace (frame_world f)) !! (4 * i + j) = Some (phase_cmd ph, 0%Z).
Proof.
  intros Hw H Hi Hj.
  destruct (success_inv _ _ _ _ _ _ _ _ H eq_refl) as (Hsp & _).
  rewrite Hw in Hsp. simpl in Hsp.
  assert (Hj4 : j < 4).
  { apply lookup_lt_Some in Hj. by rewrite phases_of_length in Hj. }
  rewrite Hsp. apply lookup_app_l_Some. rewrite list_lookup_fmap.
  unfold job_phases. rewrite (loop_phases_lookup _ _ _ _ _ _ _ sd) by done.
  simpl. by rewrite Hj.
Qed.

(** The four commands of a segment in a run that returns. *)
Lemma success_segment E json_path presentation_path video_path output_path w f
    i sd s e :
  trace w = [] ->
  process_video_frame E json_path presentation_path video_path output_path
    (new_frame w) = (inr tt, f) ->
  slides_json E !! i = Some sd ->
  start sd = Some s -> end_ sd = Some e ->
  spawned (trace (frame_world f)) !! (4 * i)
  = Some (cut_video_cmd video_path s e
            (speaker_cut (posixpath.dirname output_path) i) "libx264" "aac",
          0%Z)
  /\ spawned (trace (frame_world f)) !! (4 * i + 1)
     = Some (slide_to_video_cmd (image_path (posixpath.dirname output_path) i)
               (e - s) (slide_vid (posixpath.dirname output_path) i), 0%Z)
  /\ spawned (trace (frame_world f)) !! (4 * i + 2)
     = Some (resize_video_cmd (speaker_cut (posixpath.dirname output_path) i)
               (speaker_resized (posixpath.dirname output_path) i), 0%Z)
  /\ spawned (trace (frame_world f)) !! (4 * i + 3)
     = Some (combine_videos_cmd (slide_vid (posixpath.dirname output_path) i)
               (speaker_resized (posixpath.dirname output_path) i)
               (combined (posixpath.dirname output_path) i), 0%Z).
Proof.
  intros Hw H Hi Hs He.
  destruct (success_inv _ _ _ _ _ _ _ _ H eq_refl) as (_ & _ & _ & Hd).
  destruct (Hd i sd Hi) as (s' & e' & Hs' & He' & Hph).
  assert (s' = s) as -> by congruence. assert (e' = e) as -> by congruence.
  pose proof (fun j ph => success_command _ _ _ _ _ _ _ i j sd ph Hw H Hi) as Hc.
  rewrite Hph in Hc.
  pose proof (Hc 0 _ eq_refl) as H0. rewrite Nat.add_0_r in H0.
  pose proof (Hc 1 _ eq_refl) as H1.
  pose proof (Hc 2 _ eq_refl) as H2.
  pose proof (Hc 3 _ eq_refl) as H3.
  done.
Qed.

Lemma process_video_inv E json_path presentation_path video_path output_path
    w r w' :
  process_video_with_presentation E json_path presentation_path video_path
    output_path w = (r, w') ->
  exists f,
    process_video_frame E json_path presentation_path video_path output_path
      (new_frame w) = (r, f)
    /\ frame_world f = w'.
Proof.
  unfold process_video_with_presentation.
  destruct (process_video_frame _ _ _ _ _ _) as [r1 f1]. intros H.
  exists f1. by simplify_eq.
Qed.

(** ** Any run: the command at a position of a segment *)

Lemma data_read_mono imgs i l b b' :
  data_read imgs i l b -> b' <= b -> data_read imgs i l b'.
Proof. intros H Hle k sd Hk Hlt. apply (H k sd Hk). lia. Qed.

Lemma data_read_segment E video_path output_path bound i sd :
  data_read (job_images E output_path) 0 (slides_json E) bound ->
  slides_json E !! i = Some sd -> 4 * i < bound ->
  exists s e,
    start sd = Some s /\ end_ sd = Some e
    /\ phases_of video_path (posixpath.dirname output_path)
         (job_images E output_path) i sd
       = segment_phases video_path (posixpath.dirname output_path)
           (image_path (posixpath.dirname output_path) i) i s e.
Proof.
  intros Hread Hi Hlt. destruct (Hread i sd Hi Hlt) as ([s Hs] & [e He] & Himg).
  exists s, e. split; [done|]. split; [done|].
  unfold phases_of. simpl in Himg.
  by rewrite (job_images_lookup _ _ _ Himg), Hs, He.
Qed.

(** Whatever was spawned at a position of the loop is the command of the
    step at that position, and the segment of that step had been read. *)
Lemma run_spawned_lookup E video_path output_path f0 r f n cmd rc :
  spawned (trace (frame_world f0)) = [] ->
  run_shape E video_path output_path f0 r f ->
  n < 4 * length (slides_json E) ->
  spawned (trace (frame_world f)) !! n = Some (cmd, rc) ->
  exists ph,
    job_phases E video_path output_path !! n = Some ph
    /\ phase_cmd ph = cmd
    /\ data_read (job_images E output_path) 0 (slides_json E) (S n).
Proof.
  intros H0 [e _ Hset|e pre m w3 Hr _ _ Hpre Hm Hout Ht _ Hsw Hread
            |pre rc' w3 _ _ Hpre Hout Ht _ Hsw _] Hn Hlook.
  - destruct Hset as (_ & _ & [(_ & _ & Ht)|(_ & _ & Ht)]);
      rewrite Ht, ?spawned_app, H0 in Hlook; done.
  - subst r. destruct Hsw as (_ & _ & _ & evs & Htf & Hev).
    destruct (spawned_quiet _ _ _ _ LogWarning Hpre ltac:(done) Hev)
      as [Hq1 Hq2].
    rewrite Htf, Ht, !spawned_app, H0, Hq1, Hq2, spawned_save_page,
      spawned_ok_run, app_nil_r in Hlook. simpl in Hlook.
    destruct (decide (n < m)) as [Hlt|Hge].
    + rewrite lookup_app_l in Hlook
        by (rewrite length_fmap, length_take; lia).
      rewrite list_lookup_fmap, lookup_take_lt in Hlook by done.
      destruct (job_phases E video_path output_path !! n) as [ph|] eqn:Hph;
        [|done].
      simpl in Hlook. simplify_eq. exists ph. split; [done|]. split; [done|].
      eapply data_read_mono; [exact Hread|]. destruct e; simpl; lia.
    + rewrite lookup_app_r in Hlook
        by (rewrite length_fmap, length_take; lia).
      rewrite length_fmap, length_take, Nat.min_l in Hlook by done.
      destruct e; try done. simpl in Hlook.
      destruct (n - m) as [|d] eqn:Hd; [|done]. simpl in Hlook. simplify_eq.
      assert (n = m) as -> by lia.
      destruct Hout as (_ & ph & Hph & Hpc). exists ph. done.
  - destruct Hsw as (_ & _ & _ & evs & Htf & Hev).
    destruct (spawned_quiet _ _ _ _ LogWarning Hpre ltac:(done) Hev)
      as [Hq1 Hq2].
    rewrite Htf, Ht, !spawned_app, H0, Hq1, Hq2, spawned_save_page,
      spawned_ok_run, app_nil_r in Hlook. simpl in Hlook.
    assert (Hlen : length (job_phases E video_path output_path)
                   = 4 * length (slides_json E))
      by apply loop_phases_length.
    rewrite lookup_app_l in Hlook by (rewrite length_fmap; lia).
    rewrite list_lookup_fmap in Hlook.
    destruct (job_phases E video_path output_path !! n) as [ph|] eqn:Hph;
      [|done].
    simpl in Hlook. simplify_eq. exists ph. split; [done|]. split; [done|].
    destruct Hout as [_ Hdata]. intros k sd Hk _. by apply Hdata.
Qed.

(** The same for the command at step [j] of segment [i]. *)
Lemma run_spawned_segment E json_path presentation_path video_path output_path
    w r f i j sd cmd rc :
  spawned (trace w) = [] ->
  process_video_frame E json_path presentation_path video_path output_path
    (new_frame w) = (r, f) ->
  slides_json E !! i = Some sd -> j < 4 ->
  spawned (trace (frame_world f)) !! (4 * i + j) = Some (cmd, rc) ->
  exists s e,
    start sd = Some s /\ end_ sd = Some e
    /\ phase_cmd
         <$> segment_phases video_path (posixpath.dirname output_path)
               (image_path (posixpath.dirname output_path) i) i s e !! j
       = Some cmd.
Proof.
  intros H0 H Hi Hj Hlook. apply process_video_frame_inv in H; [|done].
  assert (Hn : 4 * i + j < 4 * length (slides_json E)).
  { apply lookup_lt_Some in Hi. lia. }
  destruct (run_spawned_lookup _ _ _ (new_frame w) _ _ _ _ _ H0 H Hn Hlook)
    as (ph & Hph & Hpc & Hread).
  destruct (data_read_segment E video_path output_path _ i sd Hread Hi
              ltac:(lia)) as (s & e & Hs & He & Heq).
  exists s, e. split; [done|]. split; [done|].
  unfold job_phases in Hph.
  rewrite (loop_phases_lookup _ _ _ _ _ _ _ sd) in Hph by done.
  simpl in Hph. rewrite Heq in Hph. by rewrite Hph, <- Hpc.
Qed.

(** C5.  The commands of segment [i] are spawned in this order, at
    positions [4i .. 4i+3] of the list of spawned commands: the trim of the
    narration with [-ss start -to end]; the still clip of page image [i+1]
    with [-t (end - start)]; the resize of the trimmed clip; and the
    horizontal stack whose first input is the slide clip and whose second
    input is the resized narration, with the audio mapped from the second
    input only and optionally ([1:a?]).  In any run, whatever was spawned at
    one of these positions is that command; in a run that returns, all four
    were spawned and exited with status 0. *)
Theorem C5_segment_commands E json_path presentation_path video_path
    output_path files r w' :
  process_video_with_presentation E json_path presentation_path video_path
    output_path (start_world files) = (r, w') ->
  forall i sd, slides_json E !! i = Some sd ->
    (r = inr tt ->
     forall j, j < 4 ->
       exists cmd, spawned (trace w') !! (4 * i + j) = Some (cmd, 0%Z))
    /\ (forall j cmd rc,
          j < 4 ->
          spawned (trace w') !! (4 * i + j) = Some (cmd, rc) ->
          exists s e,
            start sd = Some s /\ end_ sd = Some e
            /\ [ ["ffmpeg"; "-ss"; pretty s; "-to"; pretty e; "-i"; video_path;
                  "-hide_banner"; "-c:v"; "libx264"; "-c:a"; "aac"; "-y";
                  speaker_cut (posixpath.dirname output_path) i];
                 ["ffmpeg"; "-loop"; "1"; "-i";
                  image_path (posixpath.dirname output_path) i;
                  "-hide_banner"; "-t"; pretty (e - s)%Z; "-vf";
                  "scale=1080:1080"; "-c:v"; "libx264"; "-y";
                  slide_vid (posixpath.dirname output_path) i];
                 ["ffmpeg"; "-i";
                  speaker_cut (posixpath.dirname output_path) i;
                  "-hide_banner"; "-vf"; "scale=840:1080"; "-c:v"; "libx264";
                  "-y"; speaker_resized (posixpath.dirname output_path) i];
                 ["ffmpeg"; "-i"; slide_vid (posixpath.dirname output_path) i;
                  "-i"; speaker_resized (posixpath.dirname output_path) i;
                  "-hide_banner"; "-filter_complex";
                  "[0:v][1:v]hstack=inputs=2[v]"; "-map"; "[v]";
                  "-map"; "1:a?"; "-c:v"; "libx264"; "-c:a"; "aac"; "-y";
                  combined (posixpath.dirname output_path) i] ] !! j
               = Some cmd).
Proof.
  intros H i sd Hi. apply process_video_inv in H. destruct H as (f & H & <-).
  split.
  - intros -> j Hj.
    destruct (success_inv _ _ _ _ _ (start_world files) _ _ H eq_refl)
      as (_ & _ & _ & Hd).
    destruct (Hd i sd Hi) as (s & e & Hs & He & _).
    destruct (success_segment _ _ _ _ _ (start_world files) _ _ _ _ _ eq_refl H
                Hi Hs He) as (H0 & H1 & H2 & H3).
    destruct j as [|[|[|[|j]]]]; [| | | |lia]; rewrite ?Nat.add_0_r; eauto.
  - intros j cmd rc Hj Hlook.
    destruct (run_spawned_segment _ _ _ _ _ (start_world files) _ _ _ _ _ _ _
                eq_refl H Hi Hj Hlook) as (s & e & Hs & He & Hc).
    exists s, e. split; [done|]. split; [done|].
    destruct j as [|[|[|[|j]]]]; [| | | |lia]; exact Hc.
Qed.

Lemma C5_witness :
  process_video_with_presentation demo_env "uploads/t.json" "uploads/deck.pdf"
    "uploads/talk.mp4" "uploads/out.mp4" (start_world ∅) = (inr tt, demo_world)
  /\ (forall j, j < 4 ->
        exists cmd, spawned (trace demo_world) !! (4 * 1 + j) = Some (cmd, 0%Z))
  /\ exists s e,
      Some 5%Z = Some s /\ Some 12%Z = Some e
      /\ [ ["ffmpeg"; "-ss"; pretty s; "-to"; pretty e; "-i";
            "uploads/talk.mp4"; "-hide_banner"; "-c:v"; "libx264";
            "-c:a"; "aac"; "-y"; "uploads/speaker_01.mp4"];
           ["ffmpeg"; "-loop"; "1"; "-i"; "uploads/slide_02.png";
            "-hide_banner"; "-t"; pretty (e - s)%Z; "-vf";
            "scale=1080:1080"; "-c:v"; "libx264"; "-y";
            "uploads/slide_01.mp4"];
           ["ffmpeg"; "-i"; "uploads/speaker_01.mp4"; "-hide_banner";
            "-vf"; "scale=840:1080"; "-c:v"; "libx264"; "-y";
            "uploads/speaker_01_resized.mp4"];
           ["ffmpeg"; "-i"; "uploads/slide_01.mp4"; "-i";
            "uploads/speaker_01_resized.mp4"; "-hide_banner";
            "-filter_complex"; "[0:v][1:v]hstack=inputs=2[v]"; "-map";
            "[v]"; "-map"; "1:a?"; "-c:v"; "libx264"; "-c:a"; "aac";
            "-y"; "uploads/combined_01.mp4"] ] !! 3
         = Some ["ffmpeg"; "-i"; "uploads/slide_01.mp4"; "-i";
                 "uploads/speaker_01_resized.mp4"; "-hide_banner";
                 "-filter_complex"; "[0:v][1:v]hstack=inputs=2[v]"; "-map";
                 "[v]"; "-map"; "1:a?"; "-c:v"; "libx264"; "-c:a"; "aac";
                 "-y"; "uploads/combined_01.mp4"].
Proof.
  assert (H : process_video_with_presentation demo_env "uploads/t.json"
                "uploads/deck.pdf" "uploads/talk.mp4" "uploads/out.mp4"
                (start_world ∅) = (inr tt, demo_world))
    by (vm_compute; reflexivity).
  split; [exact H|].
  destruct (C5_segment_commands demo_env _ _ _ _ _ _ _ H 1 (segment 5 12)
              eq_refl) as [Hall Hat].
  split; [exact (Hall eq_refl)|].
  refine (Hat 3 _ 0%Z _ _); [lia|]. vm_compute. reflexivity.
Defined.

(** C10.  When the counts agree the run never raises [ValueError], whatever
    the timestamps; when moreover every segment has its [start] and [end] and
    every segment has its page image, the run returns, or a spawned command
    failed, or the folder could not be made: the pipeline itself rejects
    nothing.  For a segment whose end does not exceed its start, whatever is
    spawned at the position of its trim is the trim with its [start] and
    [end] as given, and whatever is spawned at the position of its still clip
    is the still clip with the duration [end - start], zero or negative, as
    given; in a run that returns both were spawned and exited with status 0. *)
Theorem C10_only_the_counts_are_validated E json_path presentation_path
    video_path output_path files r w' :
  process_video_with_presentation E json_path presentation_path video_path
    output_path (start_world files) = (r, w') ->
  length (slides_json E) = pdf_pages E ->
  (forall msg, r ≠ inl (ValueError msg))
  /\ ((forall sd, sd ∈ slides_json E -> is_Some (start sd) /\ is_Some (end_ sd)) ->
      length (slides_json E) <= rendered_pages E ->
      r = inr tt
      \/ (exists rc cmd, r = inl (CalledProcessError rc cmd))
      \/ (exists e, r = inl e /\ is_OSError e = true))
  /\ (forall i sd s e,
        slides_json E !! i = Some sd ->
        start sd = Some s -> end_ sd = Some e -> (e <= s)%Z ->
        (forall cmd rc,
           spawned (trace w') !! (4 * i) = Some (cmd, rc) ->
           cmd = ["ffmpeg"; "-ss"; pretty s; "-to"; pretty e; "-i"; video_path;
                  "-hide_banner"; "-c:v"; "libx264"; "-c:a"; "aac"; "-y";
                  speaker_cut (posixpath.dirname output_path) i])
        /\ (forall cmd rc,
              spawned (trace w') !! (4 * i + 1) = Some (cmd, rc) ->
              cmd = ["ffmpeg"; "-loop"; "1"; "-i";
                     image_path (posixpath.dirname output_path) i;
                     "-hide_banner"; "-t"; pretty (e - s)%Z; "-vf";
                     "scale=1080:1080"; "-c:v"; "libx264"; "-y";
                     slide_vid (posixpath.dirname output_path) i])
        /\ (r = inr tt ->
            exists cut still,
              spawned (trace w') !! (4 * i) = Some (cut, 0%Z)
              /\ spawned (trace w') !! (4 * i + 1) = Some (still, 0%Z))).
Proof.
  intros H Hlen. apply process_video_inv in H. destruct H as (f & H & <-).
  pose proof H as Hshape. apply process_video_frame_inv in Hshape; [|done].
  split; [|split].
  - intros msg ->.
    destruct Hshape as [e He Hset|e pre m w3 He _ _ _ _ Hout _ _ _ _
                       |pre rc w3 _ _ _ _ _ _ _ Hr].
    + simplify_eq. destruct Hset as (_ & _ & [(Hne & _)|(_ & Hos & _)]); done.
    + simplify_eq. done.
    + destruct Hr as [(? & _)|(? & _)]; done.
  - intros Hkeys Hpages.
    destruct Hshape as [e He Hset|e pre m w3 He _ _ _ _ Hout _ _ _ _
                       |pre rc w3 _ _ _ _ _ _ _ Hr].
    + right. right. exists e. split; [done|].
      by destruct Hset as (_ & _ & [(Hne & _)|(_ & Hos & _)]).
    + subst r. destruct e; try done.
      * destruct Hout as (sd & Hin & [Hmiss|Hmiss]);
          destruct (Hkeys sd Hin) as [[? ?] [? ?]]; congruence.
      * destruct Hout as (k & Hk & Hnone). exfalso.
        apply lookup_ge_None in Hnone. unfold job_images in Hnone.
        rewrite length_fmap, length_seq in Hnone. simpl in Hnone. lia.
      * right. left. eauto.
    + destruct Hr as [(-> & _)|(-> & _)]; [by left|right; left; eauto].
  - intros i sd s e Hi Hs He _. split; [|split].
    + intros cmd rc Hlook. rewrite <- (Nat.add_0_r (4 * i)) in Hlook.
      assert (Hj : 0 < 4) by lia.
      destruct (run_spawned_segment _ _ _ _ _ (start_world files) _ _ i 0 _ _ _
                  eq_refl H Hi Hj Hlook) as (s' & e' & Hs' & He' & Hc).
      simplify_eq. simpl in Hc. by simplify_eq.
    + intros cmd rc Hlook.
      assert (Hj : 1 < 4) by lia.
      destruct (run_spawned_segment _ _ _ _ _ (start_world files) _ _ i 1 _ _ _
                  eq_refl H Hi Hj Hlook) as (s' & e' & Hs' & He' & Hc).
      simplify_eq. simpl in Hc. by simplify_eq.
    + intros ->.
      destruct (success_segment _ _ _ _ _ (start_world files) _ _ _ _ _ eq_refl
                  H Hi Hs He) as (Hcut & Hstill & _).
      eauto.
Qed.

Lemma C10_witness :
  process_video_with_presentation backwards_env "uploads/t.json"
    "uploads/deck.pdf" "uploads/talk.mp4" "uploads/out.mp4" (start_world ∅)
  = (inr tt, backwards_world)
  /\ (forall msg, inr tt ≠ (inl (ValueError msg) : exn + unit))
  /\ (forall cmd rc,
        spawned (trace backwards_world) !! (4 * 0 + 1) = Some (cmd, rc) ->
        cmd = ["ffmpeg"; "-loop"; "1"; "-i"; "uploads/slide_01.png";
               "-hide_banner"; "-t"; "-2"; "-vf"; "scale=1080:1080"; "-c:v";
               "libx264"; "-y"; "uploads/slide_00.mp4"])
  /\ exists cut still,
      spawned (trace backwards_world) !! (4 * 0) = Some (cut, 0%Z)
      /\ spawned (trace backwards_world) !! (4 * 0 + 1) = Some (still, 0%Z).
Proof.
  assert (H : process_video_with_presentation backwards_env "uploads/t.json"
                "uploads/deck.pdf" "uploads/talk.mp4" "uploads/out.mp4"
                (start_world ∅) = (inr tt, backwards_world))
    by (vm_compute; reflexivity).
  split; [exact H|].
  destruct (C10_only_the_counts_are_validated backwards_env _ _ _ _ _ _ _ H
              eq_refl) as (Hno & _ & Hcmd).
  split; [exact Hno|].
  destruct (Hcmd 0 (segment 5 3) 5%Z 3%Z eq_refl eq_refl eq_refl
              ltac:(vm_compute; discriminate)) as (_ & Hstill & Hboth).
  split; [exact Hstill|exact (Hboth eq_refl)].
Defined.

(** ** Names *)

Lemma fmt02d_width i : i < 100 -> String.length (fmt02d i) = 2.
Proof.
  intros Hi.
  assert (Hall : forallb (fun k => Nat.eqb (String.length (fmt02d k)) 2) (seq 0 100)
                 = true) by (vm_compute; reflexivity).
  rewrite forallb_forall in Hall. apply Nat.eqb_eq, Hall, in_seq. lia.
Qed.

(** C6.  The paths a run tracks depend on nothing but the working directory,
    the number of pages and the number of segments: two runs that return, in
    the same working directory and with as many pages and segments, track the
    same paths, whatever the timestamps, the narration, the name of the output
    and the files already present; these paths are the page images
    [slide_NN.png] numbered from 1, the four clips of each segment numbered
    from 0, and the manifest, where [NN] is the index padded with a zero to
    two digits. *)
Theorem C6_artifact_paths_deterministic
    E1 json_path1 presentation_path1 video_path1 output_path1 w1 f1
    E2 json_path2 presentation_path2 video_path2 output_path2 w2 f2 :
  posixpath.dirname output_path1 = posixpath.dirname output_path2 ->
  length (slides_json E1) = length (slides_json E2) ->
  rendered_pages E1 = rendered_pages E2 ->
  process_video_frame E1 json_path1 presentation_path1 video_path1 output_path1
    (new_frame (start_world w1)) = (inr tt, f1) ->
  process_video_frame E2 json_path2 presentation_path2 video_path2 output_path2
    (new_frame (start_world w2)) = (inr tt, f2) ->
  cycle_temp_files f1 = cycle_temp_files f2
  /\ cycle_temp_files f1
     = ((fun i => posixpath.join (posixpath.dirname output_path1)
                    ("slide_" +:+ fmt02d (i + 1) +:+ ".png"))
          <$> seq 0 (rendered_pages E1))
       ++ flat_map
            (fun i =>
               [posixpath.join (posixpath.dirname output_path1)
                  ("speaker_" +:+ fmt02d i +:+ ".mp4");
                posixpath.join (posixpath.dirname output_path1)
                  ("slide_" +:+ fmt02d i +:+ ".mp4");
                posixpath.join (posixpath.dirname output_path1)
                  ("speaker_" +:+ fmt02d i +:+ "_resized.mp4");
                posixpath.join (posixpath.dirname output_path1)
                  ("combined_" +:+ fmt02d i +:+ ".mp4")])
            (seq 0 (length (slides_json E1)))
       ++ ["inputs.txt"]
  /\ (forall i, i < 10 -> fmt02d i = "0" +:+ pretty i)
  /\ (forall i, 10 <= i -> fmt02d i = pretty i)
  /\ (forall i, i < 100 -> String.length (fmt02d i) = 2).
Proof.
  intros Hdir Hlen Hpages H1 H2.
  destruct (success_inv _ _ _ _ _ (start_world w1) _ _ H1 eq_refl)
    as (_ & _ & Hc1 & _).
  destruct (success_inv _ _ _ _ _ (start_world w2) _ _ H2 eq_refl)
    as (_ & _ & Hc2 & _).
  unfold job_phases, job_images in Hc1, Hc2.
  rewrite loop_phases_out in Hc1, Hc2.
  rewrite <- Hdir, <- Hlen, <- Hpages in Hc2.
  split; [by rewrite Hc1, Hc2|]. split; [exact Hc1|].
  split; [|split; [|exact fmt02d_width]].
  - intros i Hi. unfold fmt02d. by rewrite bool_decide_eq_true_2.
  - intros i Hi. unfold fmt02d. rewrite bool_decide_eq_false_2; [done|lia].
Qed.

Lemma C6_witness :
  (posixpath.dirname "uploads/out.mp4" = posixpath.dirname "uploads/result.mp4"
   /\ process_video_frame demo_env "uploads/t.json" "uploads/deck.pdf"
        "uploads/talk.mp4" "uploads/out.mp4" (new_frame (start_world ∅))
      = (inr tt, demo_frame)
   /\ process_video_frame other_env "uploads/u.json" "uploads/other.pdf"
        "uploads/voice.mp4" "uploads/result.mp4"
        (new_frame (start_world {[ "uploads/slide_00.mp4" := Binary ]}))
      = (inr tt, other_frame))
  /\ cycle_temp_files demo_frame = cycle_temp_files other_frame.
Proof.
  assert (H1 : process_video_frame demo_env "uploads/t.json" "uploads/deck.pdf"
                 "uploads/talk.mp4" "uploads/out.mp4"
                 (new_frame (start_world ∅)) = (inr tt, demo_frame))
    by (vm_compute; reflexivity).
  assert (H2 : process_video_frame other_env "uploads/u.json"
                 "uploads/other.pdf" "uploads/voice.mp4" "uploads/result.mp4"
                 (new_frame (start_world {[ "uploads/slide_00.mp4" := Binary ]}))
               = (inr tt, other_frame))
    by (vm_compute; reflexivity).
  assert (Hd : posixpath.dirname "uploads/out.mp4"
               = posixpath.dirname "uploads/result.mp4") by reflexivity.
  split; [split; [exact Hd|split; [exact H1|exact H2]]|].
  exact (proj1 (C6_artifact_paths_deterministic
                  demo_env "uploads/t.json" "uploads/deck.pdf"
                  "uploads/talk.mp4" "uploads/out.mp4" ∅ demo_frame
                  other_env "uploads/u.json" "uploads/other.pdf"
                  "uploads/voice.mp4" "uploads/result.mp4"
                  {[ "uploads/slide_00.mp4" := Binary ]} other_frame
                  Hd eq_refl eq_refl H1 H2)).
Defined.

(** ** The manifest *)

Lemma append_length (a b : string) :
  String.length (a +:+ b) = String.length a + String.length b.
Proof. induction a as [|c a IH]; simpl; [done|]. by rewrite IH. Qed.

Lemma append_inv_tail (a b s : string) : a +:+ s = b +:+ s -> a = b.
Proof.
  revert b. induction a as [|c a IH]; intros [|d b] H; simpl in H.
  - done.
  - apply (f_equal String.length) in H.
    rewrite !append_length in H. simpl in H. lia.
  - apply (f_equal String.length) in H.
    rewrite !append_length in H. simpl in H. lia.
  - injection H as -> H. f_equal. by apply IH.
Qed.

Lemma manifest_line_inj v1 v2 : manifest_line v1 = manifest_line v2 -> v1 = v2.
Proof.
  unfold manifest_line. intros H. apply String.app_inj in H.
  by apply append_inv_tail in H.
Qed.

(** What a run has written and spawned when it wrote anything. *)
Lemma run_written E video_path output_path f0 r f :
  run_shape E video_path output_path f0 r f ->
  (written (trace (frame_world f)) = written (trace (frame_world f0))
   /\ r ≠ inr tt)
  \/ (written (trace (frame_world f))
      = written (trace (frame_world f0))
        ++ [(inputs_txt_path,
             manifest_text (combined (posixpath.dirname output_path)
                              <$> seq 0 (length (slides_json E))))]
      /\ posixpath.dirname output_path ≠ ""
      /\ exists rc,
          spawned (trace (frame_world f))
          = spawned (trace (frame_world f0))
            ++ ((fun ph => (phase_cmd ph, 0%Z))
                  <$> job_phases E video_path output_path)
            ++ [(concat_videos_cmd output_path, rc)]
          /\ (r = inr tt <-> rc = 0%Z)).
Proof.
  intros [e -> Hset|e pre m w3 Hr _ _ Hpre _ _ Ht _ Hsw
         |pre rc w3 _ Hdir Hpre _ Ht _ Hsw Hr].
  - left. split; [|done].
    destruct Hset as (_ & _ & [(_ & _ & ->)|(_ & _ & ->)]); [|done].
    rewrite written_app. simpl. by rewrite app_nil_r.
  - left. split; [|by rewrite Hr].
    destruct Hsw as (_ & _ & _ & evs & -> & Hev).
    destruct (written_quiet _ _ _ _ LogWarning Hpre ltac:(done) Hev)
      as [Hq1 Hq2].
    rewrite Ht.
    rewrite !written_app, Hq1, Hq2, written_save_page, written_ok_run.
    rewrite written_failed. by rewrite !app_nil_r.
  - right. destruct Hsw as (_ & _ & _ & evs & -> & Hev).
    destruct (written_quiet _ _ _ _ LogWarning Hpre ltac:(done) Hev)
      as [Hq1 Hq2].
    destruct (spawned_quiet _ _ _ _ LogWarning Hpre ltac:(done) Hev)
      as [Hs1 Hs2].
    rewrite Ht. split; [|split; [done|exists rc; split]].
    + rewrite !written_app, Hq1, Hq2, written_save_page, written_ok_run.
      by rewrite app_nil_r.
    + rewrite !spawned_app, Hs1, Hs2, spawned_save_page, spawned_ok_run.
      by rewrite app_nil_r.
    + destruct Hr as [(-> & -> & _)|(-> & Hrc)]; split; done.
Qed.

(** C4, as stated, fails: the manifest of the scenario, whose working
    directory is [uploads], is not in that directory; and a job working in
    [jobs/b] writes its manifest to the very same path. *)
Lemma C4_counterexample :
  ~ (forall p txt, (p, txt) ∈ written (trace demo_world) ->
                   posixpath.dirname p = posixpath.dirname "uploads/out.mp4")
  /\ fst <$> written (trace demo_world) = fst <$> written (trace elsewhere_world).
Proof.
  split; [|vm_compute; reflexivity].
  intros H.
  specialize (H "inputs.txt"
                (manifest_text ["uploads/combined_00.mp4";
                                "uploads/combined_01.mp4";
                                "uploads/combined_02.mp4"])).
  assert (Hw : written (trace demo_world)
               = [("inputs.txt",
                   manifest_text ["uploads/combined_00.mp4";
                                  "uploads/combined_01.mp4";
                                  "uploads/combined_02.mp4"])])
    by (vm_compute; reflexivity).
  rewrite Hw in H. specialize (H ltac:(by constructor)).
  vm_compute in H. discriminate H.
Qed.

(** C4, amended.  A run writes at most one text file.  When it does, all the
    commands of all the segments have exited with status 0, in order; the file
    is the manifest, at the fixed relative path [inputs.txt] (a path without
    a directory, while the working directory is a named one); its text is one
    line [file '<path>'] per composed fragment, in segment order, a line
    determining its path; and the command spawned next joins with [-c copy].
    A run that returns has written the manifest. *)
Theorem C4_manifest_drives_concatenation E json_path presentation_path
    video_path output_path files r f :
  process_video_frame E json_path presentation_path video_path output_path
    (new_frame (start_world files)) = (r, f) ->
  (r = inr tt -> written (trace (frame_world f)) ≠ [])
  /\ (forall p txt,
        (p, txt) ∈ written (trace (frame_world f)) ->
        written (trace (frame_world f)) = [(p, txt)]
        /\ p = "inputs.txt"
        /\ posixpath.dirname p = ""
        /\ posixpath.dirname output_path ≠ ""
        /\ txt = manifest_text (combined (posixpath.dirname output_path)
                                  <$> seq 0 (length (slides_json E)))
        /\ exists rc,
            spawned (trace (frame_world f))
            = ((fun ph => (phase_cmd ph, 0%Z))
                 <$> job_phases E video_path output_path)
              ++ [(["ffmpeg"; "-f"; "concat"; "-safe"; "0"; "-i"; "inputs.txt";
                    "-hide_banner"; "-c"; "copy"; "-y"; output_path], rc)])
  /\ (forall v video_list,
        manifest_text (v :: video_list)
        = ("file '" +:+ v +:+ "'" +:+ String "010"%char "")
          +:+ manifest_text video_list)
  /\ (forall v1 v2, manifest_line v1 = manifest_line v2 -> v1 = v2).
Proof.
  intros H. apply process_video_frame_inv in H; [|done].
  pose proof (run_written _ _ _ (new_frame (start_world files)) _ _ H) as Hw.
  simpl in Hw.
  split; [|split; [|split; [done|exact manifest_line_inj]]].
  - intros -> Hnil. destruct Hw as [[_ Hr]|(Hw & _)]; [done|].
    by rewrite Hw in Hnil.
  - intros p txt Hin.
    destruct Hw as [[Hw _]|(Hw & Hdir & rc & Hsp & _)].
    { rewrite Hw in Hin. by apply not_elem_of_nil in Hin. }
    rewrite Hw in Hin. apply list_elem_of_singleton in Hin. simplify_eq.
    repeat split; try done. by exists rc.
Qed.

Lemma C4_witness :
  process_video_frame demo_env "uploads/t.json" "uploads/deck.pdf"
    "uploads/talk.mp4" "uploads/out.mp4" (new_frame (start_world ∅))
  = (inr tt, demo_frame)
  /\ written (trace (frame_world demo_frame)) ≠ []
  /\ written (trace (frame_world demo_frame))
     = [("inputs.txt",
         manifest_text ["uploads/combined_00.mp4"; "uploads/combined_01.mp4";
                        "uploads/combined_02.mp4"])].
Proof.
  assert (H : process_video_frame demo_env "uploads/t.json" "uploads/deck.pdf"
                "uploads/talk.mp4" "uploads/out.mp4"
                (new_frame (start_world ∅)) = (inr tt, demo_frame))
    by (vm_compute; reflexivity).
  split; [exact H|].
  destruct (C4_manifest_drives_concatenation demo_env _ _ _ _ _ _ _ H)
    as (Hsome & Hall & _).
  split; [exact (Hsome eq_refl)|].
  refine (proj1 (Hall "inputs.txt" _ _)).
  vm_compute. by constructor.
Defined.

(** ** The cleanup of the pipeline *)

Lemma dirname_inputs_txt : posixpath.dirname inputs_txt_path = "".
Proof. reflexivity. Qed.

Lemma produced_quiet pre d l evs report :
  pre = [] \/ pre = [Makedirs d] ->
  (forall p e, produced [report p e] = []) ->
  Forall (removal_of report l) evs ->
  produced pre = [] /\ produced evs = [].
Proof.
  intros Hpre Hrep Hev. split; [by eapply omap_pre|].
  eapply omap_removal; [done| |exact Hev].
  intros p e. specialize (Hrep p e). simpl in Hrep.
  by destruct (produced_by (report p e)).
Qed.

(** The paths a run tracks are planned paths or the manifest. *)
Lemma tracked_planned E video_path output_path f0 r f p :
  cycle_temp_files f0 = [] ->
  run_shape E video_path output_path f0 r f ->
  p ∈ cycle_temp_files f ->
  posixpath.dirname output_path ≠ ""
  /\ (p = inputs_txt_path
      \/ exists i,
          p ∈ [image_path (posixpath.dirname output_path) i;
               speaker_cut (posixpath.dirname output_path) i;
               slide_vid (posixpath.dirname output_path) i;
               speaker_resized (posixpath.dirname output_path) i;
               combined (posixpath.dirname output_path) i]).
Proof.
  intros H0 Hshape Hp.
  assert (Hgen : posixpath.dirname output_path ≠ ""
                 /\ exists m b,
                     cycle_temp_files f
                     = job_images E output_path
                       ++ (phase_out <$> take m (job_phases E video_path
                                                   output_path))
                       ++ (if b : bool then [inputs_txt_path] else [])).
  { destruct Hshape as [e _ Hset|e pre m w3 _ _ Hdir _ _ _ _ Hc _
                       |pre rc w3 _ Hdir _ _ _ Hc _ _].
    - destruct Hset as (Hc & _). rewrite Hc, H0 in Hp.
      by apply not_elem_of_nil in Hp.
    - split; [done|]. by eexists m, _.
    - split; [done|].
      exists (length (job_phases E video_path output_path)), true.
      by rewrite firstn_all. }
  destruct Hgen as (Hdir & m & b & Hc). split; [done|].
  rewrite Hc in Hp. apply elem_of_app in Hp as [Hp|Hp].
  - right. unfold job_images in Hp. apply list_elem_of_fmap in Hp.
    destruct Hp as (i & -> & _). exists i. by left.
  - apply elem_of_app in Hp as [Hp|Hp].
    + right. apply list_elem_of_fmap in Hp. destruct Hp as (ph & -> & Hph).
      apply (subseteq_take m) in Hph.
      assert (Hin : phase_out ph
                    ∈ phase_out <$> job_phases E video_path output_path)
        by (apply list_elem_of_fmap; eauto).
      unfold job_phases in Hin. rewrite loop_phases_out in Hin.
      apply list_elem_of_In, in_flat_map in Hin.
      destruct Hin as (i & _ & Hin). apply list_elem_of_In in Hin.
      exists i. by right.
    + left. destruct b; [by apply list_elem_of_singleton in Hp|].
      by apply not_elem_of_nil in Hp.
Qed.

(** Every file a run has produced, except the output of the concatenation,
    is tracked when the run ends. *)
Lemma produced_tracked E video_path output_path f0 r f p :
  trace (frame_world f0) = [] ->
  run_shape E video_path output_path f0 r f ->
  p ∈ produced (trace (frame_world f)) ->
  p ≠ output_path ->
  p ∈ cycle_temp_files f.
Proof.
  intros H0 [e _ Hset|e pre m w3 Hr _ _ Hpre _ Hout Ht Hc Hsw
            |pre rc w3 _ _ Hpre _ Ht Hc Hsw Hr] Hp Hne.
  - destruct Hset as (_ & _ & [(_ & _ & Ht)|(_ & _ & Ht)]);
      rewrite Ht, H0 in Hp; by apply not_elem_of_nil in Hp.
  - destruct Hsw as (_ & _ & _ & evs & Htf & Hev).
    destruct (produced_quiet _ _ _ _ LogWarning Hpre ltac:(done) Hev)
      as [Hq1 Hq2].
    rewrite Htf, Ht, H0 in Hp. simpl in Hp.
    rewrite !produced_app, Hq1, Hq2, produced_save_page in Hp.
    rewrite produced_ok_run in Hp by (apply Forall_take, loop_phases_wf).
    rewrite produced_failed in Hp by (by eapply loop_outcome_nonzero).
    rewrite !app_nil_r in Hp. simpl in Hp. rewrite Hc.
    apply elem_of_app in Hp as [Hp|Hp]; apply elem_of_app; [by left|].
    right. apply elem_of_app. by left.
  - destruct Hsw as (_ & _ & _ & evs & Htf & Hev).
    destruct (produced_quiet _ _ _ _ LogWarning Hpre ltac:(done) Hev)
      as [Hq1 Hq2].
    rewrite Htf, Ht, H0 in Hp. simpl in Hp.
    rewrite !produced_app, Hq1, Hq2, produced_save_page in Hp.
    rewrite produced_ok_run in Hp by apply loop_phases_wf.
    rewrite !app_nil_r in Hp. simpl in Hp. rewrite Hc.
    apply elem_of_app in Hp as [Hp|Hp]; [apply elem_of_app; by left|].
    apply elem_of_app in Hp as [Hp|Hp].
    { apply elem_of_app. right. apply elem_of_app. by left. }
    destruct (bool_decide (rc = 0%Z)); simpl in Hp;
      [|by apply not_elem_of_nil in Hp].
    apply list_elem_of_singleton in Hp. done.
Qed.

(** Whatever is tracked when the run ends is gone, or a warning says so. *)
Lemma tracked_swept E video_path output_path f0 r f p :
  cycle_temp_files f0 = [] ->
  run_shape E video_path output_path f0 r f ->
  p ∈ cycle_temp_files f ->
  fs (frame_world f) !! p = None
  \/ exists e, LogWarning p e ∈ trace (frame_world f).
Proof.
  intros H0 [e _ Hset|e pre m w3 _ _ _ _ _ _ _ _ Hsw
            |pre rc w3 _ _ _ _ _ _ Hsw _] Hp.
  - destruct Hset as (Hc & _). rewrite Hc, H0 in Hp.
    by apply not_elem_of_nil in Hp.
  - destruct Hsw as (_ & _ & Hgone & _). by apply Hgone.
  - destruct Hsw as (_ & _ & Hgone & _). by apply Hgone.
Qed.



(** The planned paths of a job that works in [uploads]. *)
Lemma planned_in_uploads i p :
  p ∈ [image_path "uploads" i; speaker_cut "uploads" i; slide_vid "uploads" i;
       speaker_resized "uploads" i; combined "uploads" i] ->
  exists rest, p = "uploads/s" +:+ rest \/ p = "uploads/c" +:+ rest.
Proof.
  intros H.
  repeat (apply elem_of_cons in H as [-> | H]);
    [..|by apply not_elem_of_nil in H];
    eexists; [left|left|left|left|right]; reflexivity.
Qed.


(** ** The task *)

Lemma cleanup_files_inv E paths w r w' :
  cleanup_files E paths w = (r, w') ->
  r = inr tt /\ swept PrintedRemoveError paths w w'.
Proof.
  unfold cleanup_files. intros H.
  by apply (sweep_inv E PrintedRemoveError) in H.
Qed.

(** How the task ends: the pipeline returned, or it raised. *)
Lemma create_video_task_inv E request_id json_path pres_path video_path w r w' :
  create_video_task E request_id json_path pres_path video_path w = (r, w') ->
  exists rp w1,
    process_video_with_presentation E json_path pres_path video_path
      (task_output request_id)
      {| fs := fs w; trace := trace w ++ [UpdateState "PROGRESS"] |}
    = (rp, w1)
    /\ ((rp = inr tt
         /\ r = inr {| status := "SUCCESS";
                       result_path := task_output request_id;
                       result_filename :=
                         "processed_video_" +:+ request_id +:+ ".mp4" |}
         /\ swept PrintedRemoveError [json_path; pres_path; video_path] w1 w')
        \/ (exists e w2,
              rp = inl e /\ r = inl e
              /\ swept PrintedRemoveError
                   [json_path; pres_path; video_path; task_output request_id]
                   {| fs := fs w1; trace := trace w1 ++ [PrintedTaskFailed e] |}
                   w2
              /\ swept PrintedRemoveError [json_path; pres_path; video_path]
                   w2 w')).
Proof.
  unfold create_video_task. fold (task_output request_id).
  unfold try_finally, try_except, bind, emit, ret, raise. cbv beta.
  destruct (process_video_with_presentation _ _ _ _ _ _) as [[e|[]] w1] eqn:Hp.
  - destruct (cleanup_files E [_; _; _; _] _) as [r2 w2] eqn:Hc2.
    apply cleanup_files_inv in Hc2. destruct Hc2 as [-> Hsw2].
    destruct (cleanup_files E [_; _; _] w2) as [r3 w3] eqn:Hc3.
    apply cleanup_files_inv in Hc3. destruct Hc3 as [-> Hsw3].
    intros H. simplify_eq. exists (inl e), w1. split; [done|].
    right. by exists e, w2.
  - destruct (cleanup_files E [_; _; _] w1) as [r3 w3] eqn:Hc3.
    apply cleanup_files_inv in Hc3. destruct Hc3 as [-> Hsw3].
    intros H. simplify_eq. exists (inr tt), w1. split; [done|].
    left. done.
Qed.

Lemma process_outcome_same E E' json_path presentation_path video_path
    output_path w :
  same_tools E E' ->
  fst (process_video_with_presentation E json_path presentation_path
         video_path output_path w)
  = fst (process_video_with_presentation E' json_path presentation_path
           video_path output_path w).
Proof.
  destruct E as [sl pp rp ff fp rr], E' as [sl' pp' rp' ff' fp' rr'].
  unfold same_tools. simpl. intros (<- & <- & <- & <- & <-).
  unfold process_video_with_presentation, process_video_frame, bind.
  change (setup {| slides_json := sl; pdf_pages := pp; rendered_pages := rp;
                   ffmpeg := ff; ffmpeg_partial := fp; remove_raises := rr' |})
    with (setup {| slides_json := sl; pdf_pages := pp; rendered_pages := rp;
                   ffmpeg := ff; ffmpeg_partial := fp; remove_raises := rr |}).
  destruct (setup _ _ _ _) as [[e|imgs] f1]; [done|].
  unfold try_finally.
  change (try_block {| slides_json := sl; pdf_pages := pp; rendered_pages := rp;
                       ffmpeg := ff; ffmpeg_partial := fp;
                       remove_raises := rr' |})
    with (try_block {| slides_json := sl; pdf_pages := pp; rendered_pages := rp;
                       ffmpeg := ff; ffmpeg_partial := fp;
                       remove_raises := rr |}).
  destruct (try_block _ _ _ _ f1) as [r3 f3].
  destruct (finally_block _ f3) as [rf f4] eqn:Hf.
  destruct (finally_block {| remove_raises := rr' |} f3) as [rf' f4'] eqn:Hf'.
  apply finally_block_inv in Hf, Hf'.
  destruct Hf as (-> & _), Hf' as (-> & _). done.
Qed.

(** C8.  The outcome of the pipeline and the outcome of the task are the
    same whatever [os.remove] does: two environments that differ at most in
    which removals raise give the same result, a return or the same
    exception.  The two removal loops never raise, and a file they leave in
    place has its failure reported (a warning in the log of the pipeline, a
    printed line in the task). *)
Theorem C8_removal_failures_do_not_change_the_outcome E E' request_id json_path
    pres_path video_path output_path w :
  same_tools E E' ->
  fst (process_video_with_presentation E json_path pres_path video_path
         output_path w)
  = fst (process_video_with_presentation E' json_path pres_path video_path
           output_path w)
  /\ fst (create_video_task E request_id json_path pres_path video_path w)
     = fst (create_video_task E' request_id json_path pres_path video_path w)
  /\ (forall f r f', finally_block E f = (r, f') ->
        r = inr tt
        /\ forall p, p ∈ cycle_temp_files f' ->
             fs (frame_world f') !! p = None
             \/ exists e, LogWarning p e ∈ trace (frame_world f'))
  /\ (forall paths w0 r w', cleanup_files E paths w0 = (r, w') ->
        r = inr tt
        /\ forall p, p ∈ paths ->
             fs w' !! p = None \/ exists e, PrintedRemoveError p e ∈ trace w').
Proof.
  intros Hsame. split; [by apply process_outcome_same|]. split; [|split].
  - destruct (create_video_task E _ _ _ _ w) as [r1 w1] eqn:H1.
    destruct (create_video_task E' _ _ _ _ w) as [r2 w2] eqn:H2.
    apply create_video_task_inv in H1, H2.
    destruct H1 as (rp1 & u1 & Hp1 & Hr1), H2 as (rp2 & u2 & Hp2 & Hr2).
    pose proof (process_outcome_same E E' json_path pres_path video_path
                  (task_output request_id)
                  {| fs := fs w; trace := trace w ++ [UpdateState "PROGRESS"] |}
                  Hsame) as Heq.
    rewrite Hp1, Hp2 in Heq. simpl in Heq. subst rp2. simpl.
    destruct Hr1 as [(-> & -> & _)|(e1 & ? & -> & -> & _)],
             Hr2 as [(? & -> & _)|(e2 & ? & ? & -> & _)]; simplify_eq; done.
  - intros f r f' H. apply finally_block_inv in H.
    destruct H as (-> & _ & _ & _ & Hgone & _). done.
  - intros paths w0 r w' H. apply cleanup_files_inv in H.
    destruct H as (-> & _ & _ & Hgone & _). done.
Qed.

Lemma C8_witness :
  same_tools demo_env all_stuck_env
  /\ fst (process_video_with_presentation demo_env "uploads/t.json"
            "uploads/deck.pdf" "uploads/talk.mp4" "uploads/out.mp4"
            (start_world ∅))
     = fst (process_video_with_presentation all_stuck_env "uploads/t.json"
              "uploads/deck.pdf" "uploads/talk.mp4" "uploads/out.mp4"
              (start_world ∅))
  /\ fst (create_video_task demo_env "7f3a" "uploads/t.json" "uploads/deck.pdf"
            "uploads/talk.mp4" (start_world ∅))
     = fst (create_video_task all_stuck_env "7f3a" "uploads/t.json"
              "uploads/deck.pdf" "uploads/talk.mp4" (start_world ∅)).
Proof.
  assert (H : same_tools demo_env all_stuck_env) by (repeat split).
  split; [exact H|].
  destruct (C8_removal_failures_do_not_change_the_outcome demo_env
              all_stuck_env "7f3a" "uploads/t.json" "uploads/deck.pdf"
              "uploads/talk.mp4" "uploads/out.mp4" (start_world ∅) H)
    as (Hp & Ht & _).
  split; [exact Hp|exact Ht].
Defined.

(** ** The output path of the task *)

Lemma task_output_eq request_id :
  task_output request_id = "uploads/processed_video_" +:+ request_id +:+ ".mp4".
Proof. reflexivity. Qed.

Lemma head_of_sep_free s : sep_free s = true -> posixpath.head_of s = "".
Proof.
  induction s as [|c s IH]; simpl; [done|].
  intros [Hc Hs]%andb_true_iff. rewrite IH by done.
  by destruct (posixpath.is_sep c).
Qed.

Lemma sep_free_app a b :
  sep_free a = true -> sep_free b = true -> sep_free (a +:+ b) = true.
Proof.
  induction a as [|c a IH]; simpl; [done|].
  intros [Hc Ha]%andb_true_iff Hb. rewrite Hc. simpl. by apply IH.
Qed.

Lemma head_of_app_sep a b :
  sep_free b = true ->
  posixpath.head_of (a +:+ String "/" b) = a +:+ "/".
Proof.
  intros Hb. induction a as [|c a IH]; simpl.
  - by rewrite head_of_sep_free.
  - rewrite IH. by destruct a.
Qed.

Lemma task_output_dirname request_id :
  sep_free request_id = true ->
  posixpath.dirname (task_output request_id) = "uploads".
Proof.
  intros Hid. rewrite task_output_eq. unfold posixpath.dirname.
  change ("uploads/processed_video_" +:+ request_id +:+ ".mp4")
    with ("uploads"
          +:+ String "/" ("processed_video_" +:+ request_id +:+ ".mp4")).
  rewrite head_of_app_sep; [reflexivity|].
  apply (sep_free_app "processed_video_"); [reflexivity|].
  by apply sep_free_app.
Qed.

Lemma task_output_not_planned request_id i :
  task_output request_id
  ∉ [image_path "uploads" i; speaker_cut "uploads" i; slide_vid "uploads" i;
     speaker_resized "uploads" i; combined "uploads" i].
Proof.
  intros Hin. apply planned_in_uploads in Hin.
  rewrite task_output_eq in Hin.
  destruct Hin as (rest & [Hin|Hin]); discriminate Hin.
Qed.

(** ** After the pipeline: what the removals of the task preserve *)

Lemma swept_still_gone {ev : string -> exn -> event} report l w w' p :
  swept report l w w' ->
  fs w !! p = None \/ (exists e, ev p e ∈ trace w) ->
  fs w' !! p = None \/ (exists e, ev p e ∈ trace w').
Proof.
  intros (_ & Hdel & _ & evs & Ht & _) [Hgone|(e & He)].
  - left. destruct (Hdel p) as [Hp|Hp]; congruence.
  - right. exists e. rewrite Ht. apply elem_of_app. by left.
Qed.

Lemma swept_printed_quiet l w w' :
  swept PrintedRemoveError l w w' ->
  spawned (trace w') = spawned (trace w)
  /\ written (trace w') = written (trace w).
Proof.
  intros (_ & _ & _ & evs & Ht & Hev).
  destruct (spawned_quiet [] "" _ _ PrintedRemoveError ltac:(by left)
              ltac:(done) Hev) as [_ Hq1].
  destruct (written_quiet [] "" _ _ PrintedRemoveError ltac:(by left)
              ltac:(done) Hev) as [_ Hq2].
  by rewrite Ht, spawned_app, written_app, Hq1, Hq2, !app_nil_r.
Qed.

Lemma removed_app t1 t2 : removed (t1 ++ t2) = removed t1 ++ removed t2.
Proof. apply omap_app. Qed.

Lemma removed_listed report l evs p :
  (forall q e, removed [report q e] = []) ->
  Forall (removal_of report l) evs ->
  p ∈ removed evs -> p ∈ l.
Proof.
  intros Hrep. induction 1 as [|ev evs (q & Hq & [-> | (e & ->)]) _ IH].
  - intros Hin. by apply not_elem_of_nil in Hin.
  - simpl. intros [-> | Hin]%elem_of_cons; [done|by apply IH].
  - change (removed (report q e :: evs))
      with (removed ([report q e] ++ evs)).
    rewrite removed_app, Hrep. apply IH.
Qed.

Lemma swept_removed report l w w' p :
  (forall q e, removed [report q e] = []) ->
  swept report l w w' ->
  p ∈ removed (trace w') -> p ∈ removed (trace w) \/ p ∈ l.
Proof.
  intros Hrep (_ & _ & _ & evs & Ht & Hev) Hin.
  rewrite Ht, removed_app in Hin.
  apply elem_of_app in Hin as [Hin|Hin]; [by left|].
  right. by eapply removed_listed.
Qed.

(** A run in which the command of a segment failed. *)
Lemma failure_inv E json_path presentation_path video_path output_path w rc
    cmd f :
  process_video_frame E json_path presentation_path video_path output_path
    (new_frame w) = (inl (CalledProcessError rc cmd), f) ->
  cmd ≠ concat_videos_cmd output_path ->
  exists m ph,
    job_phases E video_path output_path !! m = Some ph
    /\ phase_cmd ph = cmd /\ rc ≠ 0%Z
    /\ spawned (trace (frame_world f))
       = spawned (trace w)
         ++ ((fun ph => (phase_cmd ph, 0%Z))
               <$> take m (job_phases E video_path output_path))
         ++ [(cmd, rc)]
    /\ written (trace (frame_world f)) = written (trace w)
    /\ forall p,
         p ∈ job_images E output_path
             ++ (phase_out <$> take m (job_phases E video_path output_path)) ->
         fs (frame_world f) !! p = None
         \/ exists e, LogWarning p e ∈ trace (frame_world f).
Proof.
  intros H Hcmd. apply process_video_frame_inv in H; [|done].
  destruct H as [e He Hset|e pre m w3 He _ _ Hpre _ Hout Ht Hc Hsw
                |pre rc' w3 _ _ _ _ _ _ _ Hr].
  - simplify_eq. by destruct Hset as (_ & _ & [(_ & ? & _)|(_ & ? & _)]).
  - simplify_eq. destruct Hout as (Hrc & ph & Hph & Hpc).
    exists m, ph. repeat split; try done.
    + destruct Hsw as (_ & _ & _ & evs & -> & Hev).
      destruct (spawned_quiet _ _ _ _ LogWarning Hpre ltac:(done) Hev)
        as [Hq1 Hq2].
      rewrite Ht. simpl.
      rewrite !spawned_app, Hq1, Hq2, spawned_save_page, spawned_ok_run.
      simpl. by rewrite app_nil_r.
    + destruct Hsw as (_ & _ & _ & evs & -> & Hev).
      destruct (written_quiet _ _ _ _ LogWarning Hpre ltac:(done) Hev)
        as [Hq1 Hq2].
      rewrite Ht. simpl.
      rewrite !written_app, Hq1, Hq2, written_save_page, written_ok_run.
      simpl. by rewrite !app_nil_r.
    + intros p Hp. destruct Hsw as (_ & _ & Hgone & _). apply Hgone.
      rewrite Hc, app_assoc. apply elem_of_app. by left.
  - destruct Hr as [(? & _)|(? & _)]; simplify_eq.
Qed.

(** C3, as stated, fails: with removals that raise, the task whose resize of
    segment 1 failed ends with the clips of segment 0 still there, and with
    the file at the output path still there. *)
Lemma C3_counterexample :
  fst task_failed_stuck
  = inl (CalledProcessError 1
           (resize_video_cmd "uploads/speaker_01.mp4"
              "uploads/speaker_01_resized.mp4"))
  /\ ~ (forall p, p ∈ [speaker_cut "uploads" 0; slide_vid "uploads" 0;
                       speaker_resized "uploads" 0; combined "uploads" 0] ->
                  fs (snd task_failed_stuck) !! p = None)
  /\ fs (snd task_failed_stuck) !! task_output "7f3a" ≠ None.
Proof.
  split; [vm_compute; reflexivity|]. split.
  - intros H. specialize (H (combined "uploads" 0) ltac:(repeat constructor)).
    vm_compute in H. discriminate H.
  - vm_compute. discriminate.
Qed.

(** C3, amended.  When the task fails with the [CalledProcessError] of a
    command other than the concatenation, that command is step [j] of some
    segment [k]; the commands spawned are exactly the steps before it, all
    with status 0, then the failing command with its non-zero status, once:
    nothing is spawned after it, the manifest is not written, the
    concatenation is not spawned.  The exception the task raises carries the
    failing command and its status.  When the task ends, every page image and
    every clip produced before the failure is gone unless [os.remove] raised
    for it, which the log records; and so is whatever is at the output path,
    unless [os.remove] raised for it, which a printed line records. *)
Theorem C3_segment_failure_aborts_and_cleans E request_id json_path pres_path
    video_path files rc cmd w' :
  create_video_task E request_id json_path pres_path video_path
    (start_world files) = (inl (CalledProcessError rc cmd), w') ->
  cmd ≠ concat_videos_cmd (task_output request_id) ->
  exists k j sd s e,
    j < 4 /\ slides_json E !! k = Some sd
    /\ start sd = Some s /\ end_ sd = Some e
    /\ phase_cmd
         <$> segment_phases video_path
               (posixpath.dirname (task_output request_id))
               (image_path (posixpath.dirname (task_output request_id)) k)
               k s e !! j
       = Some cmd
    /\ rc ≠ 0%Z
    /\ spawned (trace w')
       = ((fun ph => (phase_cmd ph, 0%Z))
            <$> take (4 * k + j)
                  (job_phases E video_path (task_output request_id)))
         ++ [(cmd, rc)]
    /\ written (trace w') = []
    /\ PrintedTaskFailed (CalledProcessError rc cmd) ∈ trace w'
    /\ (forall p,
          p ∈ job_images E (task_output request_id)
              ++ (phase_out
                    <$> take (4 * k + j)
                          (job_phases E video_path (task_output request_id))) ->
          fs w' !! p = None \/ exists e, LogWarning p e ∈ trace w')
    /\ (fs w' !! task_output request_id = None
        \/ exists e, PrintedRemoveError (task_output request_id) e ∈ trace w').
Proof.
  intros H Hcmd. apply create_video_task_inv in H.
  destruct H as (rp & w1 & Hp & [(_ & ? & _)|(e & w2 & -> & He & Hsw2 & Hsw3)]);
    [done|].
  simplify_eq. apply process_video_inv in Hp. destruct Hp as (f & Hp & <-).
  pose proof Hp as Hrun. apply failure_inv in Hp; [|done].
  destruct Hp as (m & ph & Hph & Hpc & Hrc & Hsp & Hwr & Hgone).
  simpl in Hsp, Hwr.
  assert (Hm : m < 4 * length (slides_json E)).
  { apply lookup_lt_Some in Hph. unfold job_phases in Hph.
    by rewrite loop_phases_length in Hph. }
  pose proof (Nat.div_mod_eq m 4) as Hdiv.
  assert (Hj : m `mod` 4 < 4) by (apply Nat.mod_upper_bound; lia).
  assert (Hk : m `div` 4 < length (slides_json E)).
  { apply Nat.Div0.div_lt_upper_bound. lia. }
  apply lookup_lt_is_Some in Hk. destruct Hk as [sd Hsd].
  assert (Hat : spawned (trace (frame_world f)) !! (4 * (m `div` 4) + m `mod` 4)
                = Some (cmd, rc)).
  { rewrite <- Hdiv, Hsp. apply list_lookup_middle.
    rewrite length_fmap, length_take. apply lookup_lt_Some in Hph. lia. }
  destruct (run_spawned_segment _ _ _ _ _
              {| fs := fs (start_world files);
                 trace := trace (start_world files)
                          ++ [UpdateState "PROGRESS"] |}
              _ _ _ _ _ _ _ eq_refl Hrun Hsd Hj Hat)
    as (s & t & Hstart & Hend & Hstep).
  exists (m `div` 4), (m `mod` 4), sd, s, t. rewrite <- Hdiv.
  split; [done|]. split; [done|]. split; [done|]. split; [done|].
  split; [done|]. split; [done|].
  destruct (swept_printed_quiet _ _ _ Hsw2) as [Hs2 Hw2].
  destruct (swept_printed_quiet _ _ _ Hsw3) as [Hs3 Hw3].
  simpl in Hs2, Hw2.
  split; [|split; [|split; [|split]]].
  - rewrite Hs3, Hs2, spawned_app, Hsp. simpl. by rewrite app_nil_r.
  - rewrite Hw3, Hw2, written_app, Hwr. done.
  - destruct Hsw3 as (_ & _ & _ & evs3 & -> & _).
    destruct Hsw2 as (_ & _ & _ & evs2 & -> & _). simpl.
    apply elem_of_app. left. apply elem_of_app. left.
    apply elem_of_app. right. by constructor.
  - intros p Hp. apply (swept_still_gone _ _ _ _ _ Hsw3).
    apply (swept_still_gone _ _ _ _ _ Hsw2). simpl.
    destruct (Hgone p Hp) as [Hn|(e & He)]; [by left|].
    right. exists e. apply elem_of_app. by left.
  - apply (swept_still_gone _ _ _ _ _ Hsw3).
    destruct Hsw2 as (_ & _ & Hg & _). apply Hg.
    apply elem_of_cons. right. apply elem_of_cons. right.
    apply elem_of_cons. right. by constructor.
Qed.

Lemma C3_witness :
  create_video_task failing_env "7f3a" "uploads/t.json" "uploads/deck.pdf"
    "uploads/talk.mp4" (start_world uploads)
  = (inl (CalledProcessError 1
            (resize_video_cmd "uploads/speaker_01.mp4"
               "uploads/speaker_01_resized.mp4")),
     task_failed_world)
  /\ written (trace task_failed_world) = []
  /\ PrintedTaskFailed
       (CalledProcessError 1
          (resize_video_cmd "uploads/speaker_01.mp4"
             "uploads/speaker_01_resized.mp4")) ∈ trace task_failed_world
  /\ (fs task_failed_world !! task_output "7f3a" = None
      \/ exists e,
          PrintedRemoveError (task_output "7f3a") e ∈ trace task_failed_world).
Proof.
  assert (H : create_video_task failing_env "7f3a" "uploads/t.json"
                "uploads/deck.pdf" "uploads/talk.mp4" (start_world uploads)
              = (inl (CalledProcessError 1
                        (resize_video_cmd "uploads/speaker_01.mp4"
                           "uploads/speaker_01_resized.mp4")),
                 task_failed_world))
    by (vm_compute; reflexivity).
  split; [exact H|].
  destruct (C3_segment_failure_aborts_and_cleans failing_env "7f3a"
              "uploads/t.json" "uploads/deck.pdf" "uploads/talk.mp4" uploads
              1 _ task_failed_world H ltac:(discriminate))
    as (k & j & sd & s & e & _ & _ & _ & _ & _ & _ & _ & Hw & Hr & _ & Ho).
  split; [exact Hw|]. split; [exact Hr|exact Ho].
Defined.

(** C7, as stated, fails: when no file can be removed, the task that
    succeeded leaves its three inputs in place; when the narration was
    uploaded under the name of the output, the task that succeeded has removed
    its own result; and were the id to contain a separator, the result could
    be one of the tracked clips and be removed with them. *)
Lemma C7_counterexample :
  (fst task_ok_stuck
   = inr {| status := "SUCCESS"; result_path := task_output "7f3a";
            result_filename := "processed_video_7f3a.mp4" |}
   /\ ~ (forall p,
           p ∈ ["uploads/t.json"; "uploads/deck.pdf"; "uploads/talk.mp4"] ->
           fs (snd task_ok_stuck) !! p = None))
  /\ (fst task_ok_aliased
      = inr {| status := "SUCCESS"; result_path := task_output "7f3a";
               result_filename := "processed_video_7f3a.mp4" |}
      /\ fs (snd task_ok_aliased) !! task_output "7f3a" = None)
  /\ (fst task_ok_nested
      = inr {| status := "SUCCESS";
               result_path := task_output "x/combined_00";
               result_filename := "processed_video_x/combined_00.mp4" |}
      /\ fs (snd task_ok_nested) !! task_output "x/combined_00" = None).
Proof.
  split; [split; [vm_compute; reflexivity|]|].
  - intros H. specialize (H "uploads/talk.mp4" ltac:(repeat constructor)).
    vm_compute in H. discriminate H.
  - split; split; vm_compute; reflexivity.
Qed.

(** C7, amended.  When the task succeeds (for an id without a separator and
    inputs given as plain paths other than the output path), the result path it
    returns is the output path; the output file is there when the task ends
    and was never removed; each of the three inputs is gone unless
    [os.remove] raised for it, which a printed line records; and each page
    image, each clip and the manifest is gone unless [os.remove] raised for
    it, which the log records. *)
Theorem C7_success_keeps_only_the_result E request_id json_path pres_path
    video_path files res w' :
  create_video_task E request_id json_path pres_path video_path
    (start_world files) = (inr res, w') ->
  sep_free request_id = true ->
  (forall p, p ∈ [json_path; pres_path; video_path] -> plain p = true) ->
  task_output request_id ∉ [json_path; pres_path; video_path] ->
  result_path res = task_output request_id
  /\ fs w' !! task_output request_id = Some Binary
  /\ (task_output request_id ∉ removed (trace w'))
  /\ (forall p, p ∈ [json_path; pres_path; video_path] ->
        fs w' !! p = None \/ exists e, PrintedRemoveError p e ∈ trace w')
  /\ (forall p,
        p ∈ job_images E (task_output request_id)
            ++ (phase_out <$> job_phases E video_path (task_output request_id))
            ++ [inputs_txt_path] ->
        fs w' !! p = None \/ exists e, LogWarning p e ∈ trace w').
Proof.
  intros H Hid _ Hsrc. apply create_video_task_inv in H.
  destruct H as (rp & w1 & Hp & [(-> & Hres & Hsw)|(e & w2 & _ & ? & _)]);
    [|done].
  simplify_eq. apply process_video_inv in Hp. destruct Hp as (f & Hp & <-).
  apply process_video_frame_inv in Hp; [|done]. pose proof Hp as Hshape.
  destruct Hp as [e ? _|e pre m w3 ? _ _ _ _ _ _ _ _
                 |pre rc w3 _ _ Hpre _ Ht Hc Hsw1 Hr]; try done.
  destruct Hr as [(_ & -> & Hout)|(? & _)]; [|done].
  assert (Hnot : task_output request_id ∉ cycle_temp_files f).
  { intros Hin.
    destruct (tracked_planned _ _ _ _ _ _ _ (eq_refl : cycle_temp_files
                (new_frame _) = []) Hshape Hin) as (_ & [Heq|(i & Hi)]).
    - rewrite task_output_eq in Heq. discriminate Heq.
    - rewrite task_output_dirname in Hi by done.
      by apply task_output_not_planned in Hi. }
  split; [done|]. split; [|split; [|split]].
  - destruct Hsw as (Hsame & _). rewrite Hsame by done.
    destruct Hsw1 as (Hsame1 & _). by rewrite Hsame1.
  - intros Hin.
    apply (swept_removed PrintedRemoveError _ _ _ _ ltac:(done) Hsw) in Hin.
    destruct Hin as [Hin|Hin]; [|done].
    apply (swept_removed LogWarning _ _ _ _ ltac:(done) Hsw1) in Hin.
    destruct Hin as [Hin|Hin]; [|done].
    rewrite Ht in Hin. simpl in Hin. rewrite !removed_app in Hin.
    unfold removed at 1 2 3 in Hin.
    rewrite (omap_pre _ pre _ Hpre), omap_save_page in Hin by done.
    simpl in Hin.
    assert (Hrun : forall phs,
               omap (fun ev => match ev with Remove p => Some p | _ => None end)
                 (ok_run <$> phs) = []).
    { intros phs. induction phs as [|ph phs IH]; simpl; done. }
    rewrite Hrun in Hin. by apply not_elem_of_nil in Hin.
  - intros p Hp. destruct Hsw as (_ & _ & Hg & _). by apply Hg.
  - intros p Hp. apply (swept_still_gone _ _ _ _ _ Hsw).
    destruct Hsw1 as (_ & _ & Hg & _). apply Hg. by rewrite Hc.
Qed.

Lemma C7_witness :
  (create_video_task demo_env "7f3a" "uploads/t.json" "uploads/deck.pdf"
     "uploads/talk.mp4" (start_world uploads)
   = (inr {| status := "SUCCESS"; result_path := task_output "7f3a";
             result_filename := "processed_video_7f3a.mp4" |},
      task_ok_world)
   /\ sep_free "7f3a" = true
   /\ (forall p, p ∈ ["uploads/t.json"; "uploads/deck.pdf"; "uploads/talk.mp4"] ->
         plain p = true)
   /\ task_output "7f3a"
      ∉ ["uploads/t.json"; "uploads/deck.pdf"; "uploads/talk.mp4"])
  /\ fs task_ok_world !! task_output "7f3a" = Some Binary
  /\ task_output "7f3a" ∉ removed (trace task_ok_world).
Proof.
  assert (H : create_video_task demo_env "7f3a" "uploads/t.json"
                "uploads/deck.pdf" "uploads/talk.mp4" (start_world uploads)
              = (inr {| status := "SUCCESS"; result_path := task_output "7f3a";
                        result_filename := "processed_video_7f3a.mp4" |},
                 task_ok_world))
    by (vm_compute; reflexivity).
  assert (Hid : sep_free "7f3a" = true) by reflexivity.
  assert (Hsrc : task_output "7f3a"
                 ∉ ["uploads/t.json"; "uploads/deck.pdf"; "uploads/talk.mp4"]).
  { intros Hin. repeat (apply elem_of_cons in Hin as [Hin|Hin];
                        [discriminate Hin|]).
    by apply not_elem_of_nil in Hin. }
  assert (Hpl : forall p,
             p ∈ ["uploads/t.json"; "uploads/deck.pdf"; "uploads/talk.mp4"] ->
             plain p = true).
  { intros p Hin. rewrite !elem_of_cons, elem_of_nil in Hin.
    destruct Hin as [->|[->|[->|[]]]]; reflexivity. }
  split; [split; [exact H|split; [exact Hid|split; [exact Hpl|exact Hsrc]]]|].
  destruct (C7_success_keeps_only_the_result demo_env "7f3a" "uploads/t.json"
              "uploads/deck.pdf" "uploads/talk.mp4" uploads _ task_ok_world
              H Hid Hpl Hsrc) as (_ & Hkept & Hnot & _).
  split; [exact Hkept|exact Hnot].
Defined.

(** * Further properties *)

(** ** Names and paths *)

Lemma string_app_inv_head (d x y : string) : d +:+ x = d +:+ y -> x = y.
Proof. induction d as [|c d IH]; simpl; [done|]. intros [= H]. auto. Qed.

Lemma pretty_N_char_digit x : is_digit (pretty_N_char x) = true.
Proof. unfold pretty_N_char. by repeat case_match. Qed.

Lemma pretty_N_go_digits x s :
  digits s = true -> digits (pretty_N_go x s) = true.
Proof.
  revert s. induction (N.lt_wf_0 x) as [x _ IH]; intros s Hs.
  destruct (decide (x = 0)%N) as [->|Hx]; [by rewrite pretty_N_go_0|].
  rewrite pretty_N_go_step by lia. apply IH.
  - apply N.div_lt; lia.
  - simpl. by rewrite pretty_N_char_digit.
Qed.

Lemma pretty_nat_digits (n : nat) : digits (pretty n) = true.
Proof.
  unfold pretty, pretty_nat, pretty, pretty_N.
  case_decide; [done|]. by apply pretty_N_go_digits.
Qed.

Lemma pretty_N_go_head x s :
  (0 < x)%N ->
  exists c s', pretty_N_go x s = String c s' /\ c <> "0"%char.
Proof.
  revert s. induction (N.lt_wf_0 x) as [x _ IH]; intros s Hx.
  rewrite pretty_N_go_step by done.
  destruct (decide (x `div` 10 = 0)%N) as [Hd|Hd].
  - rewrite Hd, pretty_N_go_0. eexists _, _. split; [done|].
    apply N.div_small_iff in Hd; [|done].
    rewrite N.mod_small by done.
    assert (Hn : 0 < N.to_nat x < 10) by lia.
    rewrite <- (N2Nat.id x). revert Hn. generalize (N.to_nat x) as n.
    intros n Hn.
    do 10 (destruct n as [|n]; [try lia; done|]). lia.
  - apply IH; [apply N.div_lt; lia|by apply N.neq_0_lt_0].
Qed.

Lemma pretty_nat_head (n : nat) :
  0 < n -> exists c s', pretty n = String c s' /\ c <> "0"%char.
Proof.
  intros Hn. unfold pretty, pretty_nat, pretty, pretty_N.
  case_decide; [lia|]. apply pretty_N_go_head. lia.
Qed.

Lemma fmt02d_inj a b : fmt02d a = fmt02d b -> a = b.
Proof.
  unfold fmt02d. intros Heq.
  destruct (decide (a < 10)) as [Ha|Ha], (decide (b < 10)) as [Hb|Hb];
    rewrite ?(bool_decide_eq_true_2 _ Ha), ?(bool_decide_eq_false_2 _ Ha),
      ?(bool_decide_eq_true_2 _ Hb), ?(bool_decide_eq_false_2 _ Hb) in Heq;
    simpl in Heq.
  - injection Heq as Heq. simpl in Heq. exact (pretty_nat_inj _ _ Heq).
  - destruct (pretty_nat_head b ltac:(lia)) as (c & s' & Hpb & Hc).
    rewrite Hpb in Heq. injection Heq as Heq _. congruence.
  - destruct (pretty_nat_head a ltac:(lia)) as (c & s' & Hpa & Hc).
    rewrite Hpa in Heq. injection Heq as Heq _. congruence.
  - exact (pretty_nat_inj _ _ Heq).
Qed.

Lemma fmt02d_digits n : digits (fmt02d n) = true.
Proof.
  unfold fmt02d. case_bool_decide; simpl; apply pretty_nat_digits.
Qed.

Lemma digits_split d1 d2 c1 c2 r1 r2 :
  digits d1 = true -> digits d2 = true ->
  is_digit c1 = false -> is_digit c2 = false ->
  d1 +:+ String c1 r1 = d2 +:+ String c2 r2 ->
  d1 = d2 /\ c1 = c2 /\ r1 = r2.
Proof.
  revert d2. induction d1 as [|a d1 IH]; intros [|b d2]; simpl;
    intros H1 H2 Hc1 Hc2 [= Ha Hr]; subst.
  - done.
  - apply andb_prop in H2 as [? _]. congruence.
  - apply andb_prop in H1 as [? _]. congruence.
  - apply andb_prop in H1 as [_ H1]. apply andb_prop in H2 as [_ H2].
    destruct (IH _ H1 H2 Hc1 Hc2 Hr) as (-> & -> & ->). done.
Qed.

(** ** Joined names *)

Lemma join_inj d x y :
  posixpath.startswith_sep x = false -> posixpath.startswith_sep y = false ->
  posixpath.join d x = posixpath.join d y -> x = y.
Proof.
  unfold posixpath.join. intros -> ->.
  destruct (bool_decide (d = "") || posixpath.endswith_sep d); intros H.
  - by apply string_app_inv_head in H.
  - apply string_app_inv_head in H. by apply (string_app_inv_head "/") in H.
Qed.

Lemma digits_sep_free s : digits s = true -> sep_free s = true.
Proof.
  induction s as [|c s IH]; simpl; [done|].
  intros [Hc Hs]%andb_prop. rewrite (IH Hs), andb_true_r.
  unfold is_digit in Hc. apply bool_decide_eq_true in Hc.
  unfold posixpath.is_sep. apply negb_true_iff, bool_decide_eq_false.
  intros ->. vm_compute in Hc. lia.
Qed.

Lemma sep_free_append a b :
  sep_free (a +:+ b) = sep_free a && sep_free b.
Proof.
  induction a as [|c a IH]; [done|].
  change (sep_free (String c a +:+ b))
    with (negb (posixpath.is_sep c) && sep_free (a +:+ b)).
  rewrite IH. simpl. by rewrite andb_assoc.
Qed.

Lemma endswith_sep_not_free d :
  posixpath.endswith_sep d = true -> sep_free d = false.
Proof.
  induction d as [|c d IH]; [done|]. simpl.
  destruct d as [|c' d'].
  - intros ->. done.
  - intros H. rewrite (IH H). apply andb_false_r.
Qed.

(** A joined name is not the manifest unless the name itself is. *)
Lemma join_not_manifest d x :
  posixpath.startswith_sep x = false -> x ≠ inputs_txt_path ->
  posixpath.join d x ≠ inputs_txt_path.
Proof.
  unfold posixpath.join. intros -> Hx.
  destruct (bool_decide (d = "")) eqn:Hd; simpl.
  - apply bool_decide_eq_true in Hd. subst d. exact Hx.
  - destruct (posixpath.endswith_sep d) eqn:He; intros H;
      apply (f_equal sep_free) in H; rewrite !sep_free_append in H.
    + rewrite (endswith_sep_not_free _ He) in H. done.
    + change (sep_free "/") with false in H.
      rewrite andb_false_l, andb_false_r in H. done.
Qed.

(** ** The names of the intermediates *)

Ltac strip_name H :=
  apply join_inj in H; [|reflexivity..];
  repeat (first [discriminate H | injection H as H]).

Ltac split_name H :=
  strip_name H;
  apply digits_split in H;
  [|apply fmt02d_digits|apply fmt02d_digits|reflexivity|reflexivity].

Lemma image_path_inj d i j : image_path d i = image_path d j -> i = j.
Proof.
  unfold image_path. intros H. split_name H.
  destruct H as (H & _). apply fmt02d_inj in H. lia.
Qed.

Lemma speaker_cut_inj d i j : speaker_cut d i = speaker_cut d j -> i = j.
Proof.
  unfold speaker_cut. intros H. split_name H.
  destruct H as (H & _). by apply fmt02d_inj in H.
Qed.

Lemma image_not_clip d i k :
  image_path d i
  ∉ [speaker_cut d k; slide_vid d k; speaker_resized d k; combined d k].
Proof.
  unfold image_path, speaker_cut, slide_vid, speaker_resized, combined.
  rewrite !elem_of_cons, elem_of_nil. intros [H|[H|[H|[H|[]]]]].
  - strip_name H.
  - split_name H. by destruct H as (_ & _ & ?).
  - strip_name H.
  - strip_name H.
Qed.

Lemma segment_files_disjoint d k k' x :
  x ∈ segment_files d k -> x ∈ segment_files d k' -> k = k'.
Proof.
  unfold segment_files, speaker_cut, slide_vid, speaker_resized, combined.
  rewrite !elem_of_cons, !elem_of_nil.
  intros [->|[->|[->|[->|[]]]]] [H|[H|[H|[H|[]]]]];
    try (strip_name H; fail);
    split_name H; destruct H as (H & _ & Hr); try discriminate Hr;
    by apply fmt02d_inj in H.
Qed.

Lemma segment_files_NoDup d k : NoDup (segment_files d k).
Proof.
  unfold segment_files, speaker_cut, slide_vid, speaker_resized, combined.
  repeat (apply NoDup_cons; split);
    [..|apply NoDup_nil_2];
    rewrite ?elem_of_cons, elem_of_nil; intros H;
    repeat (destruct H as [H|H]); try done;
    try (strip_name H; fail);
    split_name H; by destruct H as (_ & _ & ?).
Qed.

Lemma manifest_not_planned d i :
  inputs_txt_path ∉ image_path d i :: segment_files d i.
Proof.
  unfold segment_files, image_path, speaker_cut, slide_vid, speaker_resized,
    combined.
  rewrite !elem_of_cons, elem_of_nil.
  intros H. repeat (destruct H as [H|H]); try done;
    symmetry in H; revert H; by apply join_not_manifest.
Qed.

Lemma elem_of_flat_map {A B} (f : A -> list B) (l : list A) (y : B) :
  y ∈ flat_map f l <-> exists x, x ∈ l /\ y ∈ f x.
Proof.
  rewrite list_elem_of_In, in_flat_map.
  by setoid_rewrite list_elem_of_In.
Qed.

Lemma segment_files_flat_NoDup d l :
  NoDup l -> NoDup (flat_map (segment_files d) l).
Proof.
  induction 1 as [|k l Hk _ IH]; cbn [flat_map]; [constructor|].
  apply NoDup_app. split; [apply segment_files_NoDup|]. split; [|done].
  intros x Hx (k' & Hk' & Hx')%elem_of_flat_map.
  by rewrite (segment_files_disjoint _ _ _ _ Hx Hx') in Hk.
Qed.

(** No two intermediates of a job share a path. *)
Lemma planned_NoDup d pages segments :
  NoDup ((image_path d <$> seq 0 pages)
         ++ flat_map (segment_files d) (seq 0 segments)
         ++ [inputs_txt_path]).
Proof.
  apply NoDup_app. split; [|split].
  - apply NoDup_fmap_2_strong; [|apply NoDup_seq].
    intros i j _ _. apply image_path_inj.
  - intros x (i & -> & _)%list_elem_of_fmap [H|H]%elem_of_app.
    + apply elem_of_flat_map in H as (k & _ & H).
      by apply image_not_clip in H.
    + apply list_elem_of_singleton in H.
      apply (manifest_not_planned d i). rewrite <- H. by left.
  - apply NoDup_app. split; [|split].
    + apply segment_files_flat_NoDup, NoDup_seq.
    + intros x (k & _ & H)%elem_of_flat_map ->%list_elem_of_singleton.
      apply (manifest_not_planned d k). by right.
    + apply NoDup_singleton.
Qed.

(** ** [dirname] of a joined path *)

Lemma rstrip_sep_snoc d :
  posixpath.rstrip_sep (d +:+ "/") = posixpath.rstrip_sep d.
Proof.
  induction d as [|c d IH]; [done|].
  change (String c d +:+ "/") with (String c (d +:+ "/")).
  cbn [posixpath.rstrip_sep]. by rewrite IH.
Qed.

Lemma rstrip_sep_fixed d :
  posixpath.endswith_sep d = false -> posixpath.rstrip_sep d = d.
Proof.
  induction d as [|c d IH]; [done|]. cbn [posixpath.rstrip_sep].
  destruct d as [|c' d'].
  - simpl. by intros ->.
  - intros H. by rewrite (IH H).
Qed.

Lemma endswith_rstrip_sep h :
  posixpath.endswith_sep (posixpath.rstrip_sep h) = false.
Proof.
  induction h as [|c h IH]; [done|]. cbn [posixpath.rstrip_sep].
  destruct (posixpath.rstrip_sep h) as [|c' r] eqn:Hr.
  - destruct (posixpath.is_sep c) eqn:Hc; simpl; [done|]. by rewrite Hc.
  - exact IH.
Qed.

Lemma rstrip_sep_empty h :
  posixpath.rstrip_sep h = "" -> posixpath.all_sep h = true.
Proof.
  induction h as [|c h IH]; [done|]. cbn [posixpath.rstrip_sep posixpath.all_sep].
  destruct (posixpath.rstrip_sep h) as [|c' r] eqn:Hr; [|done].
  destruct (posixpath.is_sep c); [|done]. intros _. by rewrite IH.
Qed.

Lemma all_sep_rstrip_sep h :
  posixpath.all_sep h = false ->
  posixpath.all_sep (posixpath.rstrip_sep h) = false.
Proof.
  induction h as [|c h IH]; [done|].
  cbn [posixpath.rstrip_sep posixpath.all_sep]. intros H.
  destruct (posixpath.rstrip_sep h) as [|c' r] eqn:Hr.
  - destruct (posixpath.is_sep c) eqn:Hc.
    + by rewrite (rstrip_sep_empty _ Hr) in H.
    + simpl. by rewrite Hc.
  - cbn [posixpath.all_sep]. destruct (posixpath.is_sep c); [|done].
    simpl in H. by apply IH.
Qed.

Lemma endswith_all_sep d :
  posixpath.all_sep d = true -> d ≠ "" -> posixpath.endswith_sep d = true.
Proof.
  induction d as [|c d IH]; [done|]. simpl.
  intros [Hc Hd]%andb_prop _. destruct d as [|c' d']; [done|].
  by apply IH.
Qed.

Lemma head_of_all_sep d name :
  posixpath.all_sep d = true -> sep_free name = true ->
  posixpath.head_of (d +:+ name) = d.
Proof.
  intros Hd Hn. induction d as [|c d IH].
  - by apply head_of_sep_free.
  - simpl in Hd. apply andb_prop in Hd as [Hc Hd].
    change (String c d +:+ name) with (String c (d +:+ name)).
    cbn [posixpath.head_of]. rewrite (IH Hd).
    destruct d; [by rewrite Hc|done].
Qed.

Lemma startswith_sep_free name :
  sep_free name = true -> posixpath.startswith_sep name = false.
Proof.
  destruct name as [|c name]; [done|]. simpl.
  by intros [?%negb_true_iff _]%andb_prop.
Qed.

Lemma all_sep_snoc d :
  posixpath.all_sep d = false -> posixpath.all_sep (d +:+ "/") = false.
Proof.
  induction d as [|c d IH]; [done|].
  change (String c d +:+ "/") with (String c (d +:+ "/")).
  simpl. destruct (posixpath.is_sep c); [|done]. exact IH.
Qed.

(** What [dirname] returns: nothing, slashes only, or a path that does not
    end with a slash. *)
Lemma dirname_shape p :
  posixpath.dirname p = ""
  \/ posixpath.all_sep (posixpath.dirname p) = true
  \/ (posixpath.all_sep (posixpath.dirname p) = false
      /\ posixpath.endswith_sep (posixpath.dirname p) = false).
Proof.
  unfold posixpath.dirname.
  destruct (bool_decide (posixpath.head_of p = "")) eqn:Hh; cbn [negb andb].
  { left. by apply bool_decide_eq_true in Hh. }
  destruct (posixpath.all_sep (posixpath.head_of p)) eqn:Ha; cbn [negb].
  - right. by left.
  - right. right. split; [by apply all_sep_rstrip_sep|apply endswith_rstrip_sep].
Qed.

Lemma dirname_join d name :
  sep_free name = true -> d ≠ "" ->
  posixpath.all_sep d = true
  \/ (posixpath.all_sep d = false /\ posixpath.endswith_sep d = false) ->
  posixpath.dirname (posixpath.join d name) = d.
Proof.
  intros Hn Hne Hd. unfold posixpath.join.
  rewrite (startswith_sep_free _ Hn), (bool_decide_eq_false_2 _ Hne).
  cbn [orb]. destruct Hd as [Ha|[Ha He]].
  - rewrite (endswith_all_sep _ Ha Hne). unfold posixpath.dirname.
    rewrite (head_of_all_sep _ _ Ha Hn), Ha. by rewrite andb_false_r.
  - rewrite He. unfold posixpath.dirname.
    change (d +:+ "/" +:+ name) with (d +:+ String "/" name).
    rewrite (head_of_app_sep _ _ Hn), (all_sep_snoc _ Ha), andb_true_r.
    assert (Hnz : bool_decide (d +:+ "/" = "") = false).
    { apply bool_decide_eq_false. by destruct d. }
    rewrite Hnz. cbn [negb]. rewrite rstrip_sep_snoc.
    by apply rstrip_sep_fixed.
Qed.

(** A name joined to the folder of [p] lies in the folder of [p]. *)
Lemma dirname_join_dirname p name :
  sep_free name = true -> posixpath.dirname p ≠ "" ->
  posixpath.dirname (posixpath.join (posixpath.dirname p) name)
  = posixpath.dirname p.
Proof.
  intros Hn Hne. apply dirname_join; [done..|].
  destruct (dirname_shape p) as [?|?]; [done|tauto].
Qed.

(** ** Relations between the world before and after *)

#[local] Instance follows_preorder : PreOrder follows.
Proof.
  split.
  - intros w. exists []. by rewrite app_nil_r.
  - intros w1 w2 w3 (e1 & Ht1 & Hf1) (e2 & Ht2 & Hf2). exists (e1 ++ e2).
    split; [by rewrite Ht2, Ht1, app_assoc|].
    intros q Hq. rewrite omap_app, elem_of_app in Hq.
    rewrite Hf2, Hf1; tauto.
Qed.

#[local] Instance grows_preorder : PreOrder grows.
Proof. split; [by intros w q|]. intros w1 w2 w3 H1 H2 q Hq. auto. Qed.

#[local] Instance leaves_output_preorder : PreOrder leaves_output.
Proof.
  split; [by left|]. intros w1 w2 w3 [->|H1] [->|H2]; unfold leaves_output; auto.
Qed.

Lemma follows_step w w' ev :
  trace w' = trace w ++ [ev] ->
  (forall q, touched ev ≠ Some q -> fs w' !! q = fs w !! q) ->
  follows w w'.
Proof.
  intros Ht Hf. exists [ev]. split; [done|]. intros q Hq. apply Hf.
  intros Hev. apply Hq. simpl. rewrite Hev. by left.
Qed.

Section keeps.
Context {St : Type} (R : relation world) `{!PreOrder R} (proj : St -> world).

Lemma keeps_ret {A} (a : A) : keeps R proj (ret a).
Proof. by intros s r s' [= _ <-]. Qed.

Lemma keeps_raise {A} e : keeps R proj (raise e : ST St A).
Proof. by intros s r s' [= _ <-]. Qed.

Lemma keeps_bind {A B} (m : ST St A) (k : A -> ST St B) :
  keeps R proj m -> (forall a, keeps R proj (k a)) -> keeps R proj (bind m k).
Proof.
  intros Hm Hk s r s' H. unfold bind in H.
  destruct (m s) as [[e|a] s1] eqn:Hms.
  - injection H as _ <-. by eapply Hm.
  - etrans; [by eapply Hm|by eapply Hk].
Qed.

Lemma keeps_try_except {A} (body : ST St A) handler :
  keeps R proj body -> (forall e, keeps R proj (handler e)) ->
  keeps R proj (try_except body handler).
Proof.
  intros Hm Hk s r s' H. unfold try_except in H.
  destruct (body s) as [[e|a] s1] eqn:Hms.
  - etrans; [by eapply Hm|by eapply Hk].
  - injection H as _ <-. by eapply Hm.
Qed.

Lemma keeps_try_finally {A} (body : ST St A) final :
  keeps R proj body -> keeps R proj final ->
  keeps R proj (try_finally body final).
Proof.
  intros Hm Hk s r s' H. unfold try_finally in H.
  destruct (body s) as [r1 s1] eqn:Hms.
  destruct (final s1) as [[e|[]] s2] eqn:Hfs; injection H as _ <-;
    (etrans; [by eapply Hm|by eapply Hk]).
Qed.

Lemma keeps_for_each {A} (l : list A) f :
  (forall x, keeps R proj (f x)) -> keeps R proj (for_each l f).
Proof.
  intros Hf. induction l as [|x l IH]; simpl.
  - apply keeps_ret.
  - apply keeps_bind; [apply Hf|by intros _].
Qed.

Lemma keeps_for_enumerate {A} i (l : list A) f :
  (forall i x, keeps R proj (f i x)) -> keeps R proj (for_enumerate i l f).
Proof.
  intros Hf. revert i. induction l as [|x l IH]; intros i; simpl.
  - apply keeps_ret.
  - apply keeps_bind; [apply Hf|by intros _].
Qed.

Lemma keeps_getitem key v : keeps R proj (getitem key v).
Proof. destruct v; [apply keeps_ret|apply keeps_raise]. Qed.

Lemma keeps_index l i : keeps R proj (index l i).
Proof. unfold index. destruct (l !! i); [apply keeps_ret|apply keeps_raise]. Qed.

End keeps.

Section keeps_frame.
Context (R : relation world) `{!PreOrder R}.

Lemma keeps_lift {A} (m : ST world A) :
  keeps R id m -> keeps R frame_world (lift m).
Proof.
  intros Hm f r f' H. apply lift_inv in H as (H & _). by apply (Hm _ _ _ H).
Qed.

Lemma keeps_frame_only {A} (m : ST frame A) :
  (forall f r f', m f = (r, f') -> frame_world f' = frame_world f) ->
  keeps R frame_world m.
Proof. intros Hm f r f' H. by rewrite (Hm _ _ _ H). Qed.

Lemma keeps_append_temp p : keeps R frame_world (append_temp p).
Proof. apply keeps_frame_only. by intros f r f' [= _ <-]. Qed.

Lemma keeps_append_fragment p : keeps R frame_world (append_fragment p).
Proof. apply keeps_frame_only. by intros f r f' [= _ <-]. Qed.

Lemma keeps_init_lists l : keeps R frame_world (init_lists l).
Proof. apply keeps_frame_only. by intros f r f' [= _ <-]. Qed.

Lemma keeps_path_exists p : keeps R id (path_exists p).
Proof. by intros w r w' [= _ <-]. Qed.

(** The code before the [finally] block keeps [R] when the primitives that
    change the world do. *)
Context (E : env).
Hypothesis keeps_emit : forall ev, touched ev = None -> keeps R id (emit ev).
Hypothesis keeps_makedirs : forall p ok, keeps R id (makedirs p ok).
Hypothesis keeps_save_page : forall p, keeps R id (save_page p).
Hypothesis keeps_write_text : forall p t, keeps R id (write_text p t).
Hypothesis keeps_subprocess_run : forall cmd, keeps R id (subprocess_run E cmd).

Lemma keeps_save_slides folder pages acc :
  keeps R id (save_slides folder pages acc).
Proof.
  revert acc. induction pages as [|i pages IH]; intros acc; simpl.
  - by apply keeps_ret.
  - apply keeps_bind; [done|apply keeps_save_page|by intros _].
Qed.

Lemma keeps_convert_pdf_to_images pdf folder :
  keeps R id (convert_pdf_to_images E pdf folder).
Proof.
  unfold convert_pdf_to_images.
  apply keeps_bind; [done|apply keeps_path_exists|].
  intros present.
  apply keeps_bind; [done| |intros _; apply keeps_save_slides].
  destruct present; simpl; [by apply keeps_ret|apply keeps_makedirs].
Qed.

Lemma keeps_setup pres out : keeps R frame_world (setup E pres out).
Proof.
  unfold setup. case_bool_decide.
  - apply keeps_bind; [done| |intros _; by apply keeps_raise].
    by apply keeps_lift, keeps_emit.
  - apply keeps_bind; [done|apply keeps_lift, keeps_makedirs|]. intros _.
    apply keeps_bind; [done|apply keeps_lift, keeps_convert_pdf_to_images|].
    intros imgs.
    apply keeps_bind; [done|apply keeps_init_lists|intros _; by apply keeps_ret].
Qed.

Lemma keeps_run_phase ph : keeps R frame_world (run_phase E ph).
Proof.
  unfold run_phase.
  apply keeps_bind; [done|apply keeps_lift, keeps_subprocess_run|]. intros _.
  apply keeps_bind; [done| |intros _; apply keeps_append_temp].
  destruct (phase_frag ph); [apply keeps_append_fragment|by apply keeps_ret].
Qed.

Lemma keeps_loop_body video d imgs i sd :
  keeps R frame_world (loop_body E video d imgs i sd).
Proof.
  intros f r f'. rewrite loop_body_eq. revert f r f'.
  unfold loop_body_upto.
  apply keeps_bind; [done|by apply keeps_getitem|]. intros s.
  apply keeps_bind; [done|by apply keeps_getitem|]. intros e.
  apply keeps_bind; [done|by apply keeps_index|]. intros img.
  apply keeps_for_each; [done|]. intros ph. apply keeps_run_phase.
Qed.

Lemma keeps_try_block video out imgs :
  keeps R frame_world (try_block E video out imgs).
Proof.
  unfold try_block, segment_loop. apply keeps_bind; [done| |].
  - apply keeps_for_enumerate; [done|]. intros. apply keeps_loop_body.
  - intros _ f r f' H. revert H. apply keeps_lift. unfold concat_videos.
    apply keeps_bind; [done|apply keeps_write_text|].
    intros _. apply keeps_subprocess_run.
Qed.

(** With the removals, the whole function and the task keep [R]. *)
Hypothesis keeps_os_remove : forall p, keeps R id (os_remove E p).

Lemma keeps_guarded_remove report p :
  (forall q e, touched (report q e) = None) ->
  keeps R id (guarded_remove E report p).
Proof.
  intros Hrep. unfold guarded_remove.
  apply keeps_bind; [done|apply keeps_path_exists|].
  intros []; [|by apply keeps_ret].
  apply keeps_try_except; [done|apply keeps_os_remove|].
  intros e. destruct (is_OSError e); [by apply keeps_emit|by apply keeps_raise].
Qed.

Lemma keeps_finally_block : keeps R frame_world (finally_block E).
Proof.
  unfold finally_block.
  apply keeps_bind; [done|apply keeps_lift, keeps_path_exists|].
  intros present. apply keeps_bind; [done| |].
  - destruct present; [apply keeps_append_temp|by apply keeps_ret].
  - intros _ f r f' H. revert H. apply keeps_lift, keeps_for_each; [done|].
    intros p. by apply (keeps_guarded_remove LogWarning).
Qed.

Lemma keeps_process_video_frame json pres video out :
  keeps R frame_world (process_video_frame E json pres video out).
Proof.
  unfold process_video_frame. apply keeps_bind; [done|apply keeps_setup|].
  intros imgs. apply keeps_try_finally; [done|apply keeps_try_block|].
  apply keeps_finally_block.
Qed.

Lemma keeps_process_video json pres video out :
  keeps R id (process_video_with_presentation E json pres video out).
Proof.
  intros w r w' H. apply process_video_inv in H as (f & H & <-).
  by apply keeps_process_video_frame in H.
Qed.

Lemma keeps_cleanup_files paths : keeps R id (cleanup_files E paths).
Proof.
  apply keeps_for_each; [done|]. intros p.
  by apply (keeps_guarded_remove PrintedRemoveError).
Qed.

Lemma keeps_create_video_task request_id json pres video :
  keeps R id (create_video_task E request_id json pres video).
Proof.
  unfold create_video_task.
  apply keeps_try_finally; [done| |apply keeps_cleanup_files].
  apply keeps_try_except; [done| |].
  - apply keeps_bind; [done|by apply keeps_emit|]. intros _.
    apply keeps_bind; [done|apply keeps_process_video|].
    intros _. by apply keeps_ret.
  - intros e. apply keeps_bind; [done|by apply keeps_emit|]. intros _.
    apply keeps_bind; [done|apply keeps_cleanup_files|].
    intros _. by apply keeps_raise.
Qed.

End keeps_frame.

(** *** The primitives, relation by relation *)

Lemma follows_emit ev : touched ev = None -> keeps follows id (emit ev).
Proof. intros Hev w r w' [= _ <-]. by eapply follows_step. Qed.

Lemma follows_makedirs p ok : keeps follows id (makedirs p ok).
Proof.
  intros w r w' H. unfold makedirs in H.
  destruct (bool_decide (p = "")); [by injection H as _ <-|].
  destruct (fs w !! p) as [c|] eqn:Hp.
  - assert (w' = w) as -> by (destruct c, ok; by injection H). done.
  - injection H as _ <-. eapply follows_step; [done|].
    intros q Hq. simpl in *. apply lookup_insert_ne. congruence.
Qed.

Lemma follows_save_page p : keeps follows id (save_page p).
Proof.
  intros w r w' [= _ <-]. eapply follows_step; [done|].
  intros q Hq. simpl in *. apply lookup_insert_ne. congruence.
Qed.

Lemma follows_write_text p t : keeps follows id (write_text p t).
Proof.
  intros w r w' [= _ <-]. eapply follows_step; [done|].
  intros q Hq. simpl in *. apply lookup_insert_ne. congruence.
Qed.

(** The world after [subprocess.run(cmd)]. *)
Lemma subprocess_run_world E cmd w r w' :
  subprocess_run E cmd w = (r, w') ->
  w' = {| fs := match last cmd with
                | Some out =>
                    if bool_decide (ffmpeg E w cmd = 0%Z) || ffmpeg_partial E w cmd
                    then <[out := Binary]> (fs w) else fs w
                | None => fs w
                end;
          trace := trace w ++ [Run cmd (ffmpeg E w cmd)] |}.
Proof.
  unfold subprocess_run. by destruct (bool_decide (ffmpeg E w cmd = 0%Z));
    intros [= _ <-].
Qed.

Lemma follows_subprocess_run E cmd : keeps follows id (subprocess_run E cmd).
Proof.
  intros w r w' ->%subprocess_run_world. eapply follows_step; [done|].
  intros q Hq. simpl in *. destruct (last cmd) as [out|]; [|done].
  destruct (_ || _); [|done]. apply lookup_insert_ne. congruence.
Qed.

Lemma follows_os_remove E p : keeps follows id (os_remove E p).
Proof.
  intros w r w' H. unfold os_remove in H.
  destruct (fs w !! p) as [c|]; [|by injection H as _ <-].
  assert (w' = w \/ w' = {| fs := delete p (fs w);
                            trace := trace w ++ [Remove p] |}) as [->| ->].
  { destruct c, (remove_raises E w p); injection H as _ <-; auto. }
  - done.
  - eapply follows_step; [done|].
    intros q Hq. simpl in *. apply lookup_delete_ne. congruence.
Qed.

Lemma grows_insert (m : gmap string content) p c q :
  is_Some (m !! q) -> is_Some (<[p := c]> m !! q).
Proof. rewrite lookup_insert_is_Some'. auto. Qed.

Lemma grows_emit ev : keeps grows id (emit ev).
Proof. intros w r w' [= _ <-] q Hq. exact Hq. Qed.

Lemma grows_makedirs p ok : keeps grows id (makedirs p ok).
Proof.
  intros w r w' H. unfold makedirs in H.
  destruct (bool_decide (p = "")); [by injection H as _ <-|].
  destruct (fs w !! p) as [c|] eqn:Hp.
  - assert (w' = w) as -> by (destruct c, ok; by injection H). done.
  - injection H as _ <-. intros q. apply grows_insert.
Qed.

Lemma grows_save_page p : keeps grows id (save_page p).
Proof. intros w r w' [= _ <-] q. apply grows_insert. Qed.

Lemma grows_write_text p t : keeps grows id (write_text p t).
Proof. intros w r w' [= _ <-] q. apply grows_insert. Qed.

Lemma grows_subprocess_run E cmd : keeps grows id (subprocess_run E cmd).
Proof.
  intros w r w' ->%subprocess_run_world q. simpl.
  destruct (last cmd) as [out|]; [|done].
  destruct (_ || _); [|done]. apply grows_insert.
Qed.

(** ** What a run touches *)

Lemma follows_process_video E json pres video out :
  keeps follows id (process_video_with_presentation E json pres video out).
Proof.
  apply keeps_process_video;
    eauto using follows_emit, follows_makedirs, follows_save_page,
      follows_write_text, follows_subprocess_run, follows_os_remove
      with typeclass_instances.
Qed.

Lemma follows_process_video_frame E json pres video out :
  keeps follows frame_world (process_video_frame E json pres video out).
Proof.
  apply keeps_process_video_frame;
    eauto using follows_emit, follows_makedirs, follows_save_page,
      follows_write_text, follows_subprocess_run, follows_os_remove
      with typeclass_instances.
Qed.

Lemma follows_create_video_task E request_id json pres video :
  keeps follows id (create_video_task E request_id json pres video).
Proof.
  apply keeps_create_video_task;
    eauto using follows_emit, follows_makedirs, follows_save_page,
      follows_write_text, follows_subprocess_run, follows_os_remove
      with typeclass_instances.
Qed.

Lemma touched_pre pre d q :
  pre = [] \/ pre = [Makedirs d] -> q ∈ omap touched pre -> q = d.
Proof.
  intros [-> | ->]; simpl; [by intros ?%elem_of_nil|].
  by intros ?%list_elem_of_singleton.
Qed.

Lemma touched_save_page (l : list string) q :
  q ∈ omap touched (SavePage <$> l) -> q ∈ l.
Proof.
  intros (ev & (p & -> & Hp)%list_elem_of_fmap & Hev)%list_elem_of_omap.
  simpl in Hev. by simplify_eq.
Qed.

Lemma touched_ok_run phs q :
  Forall well_formed phs -> q ∈ omap touched (ok_run <$> phs) ->
  q ∈ phase_out <$> phs.
Proof.
  intros Hwf (ev & (ph & -> & Hph)%list_elem_of_fmap & Hev)%list_elem_of_omap.
  rewrite Forall_forall in Hwf. specialize (Hwf _ Hph).
  unfold well_formed in Hwf. simpl in Hev. rewrite Hwf in Hev.
  simplify_eq. by apply list_elem_of_fmap_2.
Qed.

Lemma touched_removal report l evs q :
  (forall p e, touched (report p e) = None) ->
  Forall (removal_of report l) evs -> q ∈ omap touched evs -> q ∈ l.
Proof.
  intros Hrep Hev (ev & Hin & Ht)%list_elem_of_omap.
  rewrite Forall_forall in Hev.
  destruct (Hev _ Hin) as (p & Hp & [-> | (e & ->)]).
  - simpl in Ht. by simplify_eq.
  - by rewrite Hrep in Ht.
Qed.

Lemma touched_failed {A} phs m (r : exn + A) imgs i l q :
  Forall well_formed phs -> loop_outcome phs m r imgs i l ->
  q ∈ omap touched (failed_events r) -> q ∈ phase_out <$> phs.
Proof.
  intros Hwf Hout Hq. destruct r as [e|a]; [|by apply elem_of_nil in Hq].
  destruct e; try by apply elem_of_nil in Hq.
  destruct Hout as (_ & ph & Hph & <-).
  apply list_elem_of_lookup_2 in Hph.
  rewrite Forall_forall in Hwf. specialize (Hwf _ Hph).
  simpl in Hq. unfold well_formed in Hwf. rewrite Hwf in Hq.
  apply list_elem_of_singleton in Hq as ->. by apply list_elem_of_fmap_2.
Qed.

Lemma job_images_planned E out q :
  q ∈ job_images E out -> planned (posixpath.dirname out) q.
Proof.
  intros (i & -> & _)%list_elem_of_fmap. exists i. by left.
Qed.

Lemma job_phases_planned E video out q :
  q ∈ phase_out <$> job_phases E video out ->
  planned (posixpath.dirname out) q.
Proof.
  unfold job_phases. rewrite loop_phases_out.
  intros (k & _ & Hq)%elem_of_flat_map. exists k. by right.
Qed.

Lemma elem_of_take_fmap {A B} (f : A -> B) m (l : list A) q :
  q ∈ f <$> take m l -> q ∈ f <$> l.
Proof.
  intros (x & -> & (i & Hi & _)%elem_of_take)%list_elem_of_fmap.
  apply list_elem_of_fmap_2. by eapply list_elem_of_lookup_2.
Qed.

(** Every path a run touches is its folder, its output, the manifest or a
    path it derives in its folder. *)
Lemma run_touched E video out f0 r f evs q :
  cycle_temp_files f0 = [] ->
  run_shape E video out f0 r f ->
  trace (frame_world f) = trace (frame_world f0) ++ evs ->
  q ∈ omap touched evs ->
  q = posixpath.dirname out \/ q = out \/ q = inputs_txt_path
  \/ planned (posixpath.dirname out) q.
Proof.
  intros H0 Hrun Hevs Hq.
  assert (Htr : forall p, p ∈ cycle_temp_files f ->
            p = inputs_txt_path \/ planned (posixpath.dirname out) p).
  { intros p Hp. by destruct (tracked_planned _ _ _ _ _ _ _ H0 Hrun Hp). }
  destruct Hrun as [e _ Hset|e pre m w3 Hr _ _ Hpre _ Hout Ht _ Hsw _
                   |pre rc w3 _ _ Hpre Hout Ht _ Hsw Hr].
  - destruct Hset as (_ & _ & [(_ & _ & Ht)|(_ & _ & Ht)]); rewrite Ht in Hevs.
    + apply app_inv_head in Hevs as <-. by apply elem_of_nil in Hq.
    + rewrite <- (app_nil_r (trace (frame_world f0))) in Hevs at 1.
      apply app_inv_head in Hevs as <-. by apply elem_of_nil in Hq.
  - destruct Hsw as (_ & _ & _ & evs' & Htf & Hev).
    rewrite Htf, Ht, <- !app_assoc in Hevs. apply app_inv_head in Hevs as <-.
    rewrite !omap_app, !elem_of_app in Hq.
    pose proof (loop_phases_wf video (posixpath.dirname out)
                  (job_images E out) 0 (slides_json E)) as Hwf.
    destruct Hq as [Hq|[Hq|[Hq|[Hq|Hq]]]].
    + left. by eapply touched_pre.
    + do 3 right. by apply (job_images_planned E), touched_save_page.
    + do 3 right. apply (job_phases_planned E video).
      apply touched_ok_run in Hq; [|by apply Forall_take].
      by eapply elem_of_take_fmap.
    + do 3 right. apply (job_phases_planned E video).
      by eapply touched_failed.
    + right. right. apply Htr. by eapply (touched_removal LogWarning).
  - destruct Hsw as (_ & _ & _ & evs' & Htf & Hev).
    rewrite Htf, Ht, <- !app_assoc in Hevs. apply app_inv_head in Hevs as <-.
    rewrite !omap_app, !elem_of_app in Hq.
    pose proof (loop_phases_wf video (posixpath.dirname out)
                  (job_images E out) 0 (slides_json E)) as Hwf.
    destruct Hq as [Hq|[Hq|[Hq|[Hq|Hq]]]].
    + left. by eapply touched_pre.
    + do 3 right. by apply (job_images_planned E), touched_save_page.
    + do 3 right. apply (job_phases_planned E video).
      by apply touched_ok_run in Hq.
    + simpl in Hq. rewrite !elem_of_cons, elem_of_nil in Hq.
      destruct Hq as [->|[->|[]]]; auto.
    + right. right. apply Htr. by eapply (touched_removal LogWarning).
Qed.

Lemma process_video_frame_split E json pres video out f0 r f :
  process_video_frame E json pres video out f0 = (r, f) ->
  (exists e, setup E pres out f0 = (inl e, f) /\ r = inl e)
  \/ (exists imgs f1 f3,
        setup E pres out f0 = (inr imgs, f1)
        /\ try_block E video out imgs f1 = (r, f3)
        /\ finally_block E f3 = (inr tt, f)).
Proof.
  unfold process_video_frame. intros H.
  apply bind_inv in H as [(e & Hs & ->)|(imgs & f1 & Hs & H)]; [left; eauto|].
  right. unfold try_finally in H.
  destruct (try_block E video out imgs f1) as [r1 f3] eqn:Htry.
  destruct (finally_block E f3) as [rf f4] eqn:Hfin.
  pose proof (finally_block_inv _ _ _ _ Hfin) as (-> & _).
  injection H as <- <-. eauto 10.
Qed.

Lemma omap_ok_run {B} (g : event -> option B) phs :
  (forall cmd rc, g (Run cmd rc) = None) -> omap g (ok_run <$> phs) = [].
Proof.
  intros Hg. induction phs as [|ph phs IH]; simpl; [done|].
  unfold ok_run at 1. by rewrite Hg.
Qed.

Lemma omap_failed {A B} (g : event -> option B) (r : exn + A) :
  (forall cmd rc, g (Run cmd rc) = None) -> omap g (failed_events r) = [].
Proof. intros Hg. destruct r as [[]|]; simpl; by rewrite ?Hg. Qed.

(** The files a run removes are files of its cleanup list. *)
Lemma run_removed E video out f0 r f p :
  run_shape E video out f0 r f ->
  p ∈ removed (trace (frame_world f)) ->
  p ∈ removed (trace (frame_world f0)) \/ p ∈ cycle_temp_files f.
Proof.
  intros Hrun Hp.
  destruct Hrun as [e _ Hset|e pre m w3 Hr _ _ Hpre _ Hout Ht _ Hsw _
                   |pre rc w3 _ _ Hpre Hout Ht _ Hsw Hr].
  - left. destruct Hset as (_ & _ & [(_ & _ & Ht)|(_ & _ & Ht)]);
      rewrite Ht in Hp; [|done].
    rewrite removed_app in Hp. simpl in Hp. by rewrite app_nil_r in Hp.
  - apply (swept_removed LogWarning _ _ _ _ (fun _ _ => eq_refl) Hsw) in Hp
      as [Hp|Hp]; [|auto].
    left. rewrite Ht, !removed_app in Hp. unfold removed in Hp at 2 3 4 5.
    rewrite (omap_pre _ _ _ Hpre), omap_save_page, omap_ok_run, omap_failed
      in Hp by done.
    by rewrite !app_nil_r in Hp.
  - apply (swept_removed LogWarning _ _ _ _ (fun _ _ => eq_refl) Hsw) in Hp
      as [Hp|Hp]; [|auto].
    left. rewrite Ht, !removed_app in Hp. unfold removed in Hp at 2 3 4 5.
    rewrite (omap_pre _ _ _ Hpre), omap_save_page, omap_ok_run in Hp by done.
    simpl in Hp. by rewrite !app_nil_r in Hp.
Qed.

Lemma process_video_unchanged E json pres video out w r w' q :
  process_video_with_presentation E json pres video out w = (r, w') ->
  q ≠ posixpath.dirname out -> q ≠ out -> q ≠ inputs_txt_path ->
  ~ planned (posixpath.dirname out) q ->
  fs w' !! q = fs w !! q.
Proof.
  intros H Hd Ho Hm Hpl.
  destruct (follows_process_video _ _ _ _ _ _ _ _ H) as (evs & Ht & Hf).
  apply process_video_inv in H as (f & H & <-).
  apply process_video_frame_inv in H; [|done].
  apply Hf. intros Hq.
  by destruct (run_touched _ _ _ (new_frame w) _ _ _ _ eq_refl H Ht Hq)
    as [?|[?|[?|?]]].
Qed.



(** ** The output of a command that failed *)

Lemma output_left_other w ev :
  (forall cmd rc, ev = Run cmd rc -> last cmd = None) ->
  output_left {| fs := fs w; trace := trace w ++ [ev] |}.
Proof.
  intros Hev t cmd rc p Ht Hp. simpl in Ht.
  apply app_inj_tail in Ht as [_ ->]. by rewrite (Hev _ _ eq_refl) in Hp.
Qed.

Lemma leaves_output_emit ev :
  touched ev = None -> keeps leaves_output id (emit ev).
Proof.
  intros Hev w r w' [= _ <-]. right. apply output_left_other.
  by intros cmd rc ->.
Qed.

Lemma leaves_output_step (w : world) fs' ev :
  (forall cmd rc, ev ≠ Run cmd rc) ->
  leaves_output w {| fs := fs'; trace := trace w ++ [ev] |}.
Proof.
  intros Hev. right. intros t cmd rc p Ht _. simpl in Ht.
  apply app_inj_tail in Ht as [_ ->]. by destruct (Hev cmd rc).
Qed.

Lemma leaves_output_makedirs p ok : keeps leaves_output id (makedirs p ok).
Proof.
  intros w r w' H. unfold makedirs in H.
  destruct (bool_decide (p = "")); [by injection H as _ <-|].
  destruct (fs w !! p) as [c|] eqn:Hp.
  - assert (w' = w) as -> by (destruct c, ok; by injection H). done.
  - injection H as _ <-. by apply leaves_output_step.
Qed.

Lemma leaves_output_save_page p : keeps leaves_output id (save_page p).
Proof. intros w r w' [= _ <-]. by apply leaves_output_step. Qed.

Lemma leaves_output_write_text p t : keeps leaves_output id (write_text p t).
Proof. intros w r w' [= _ <-]. by apply leaves_output_step. Qed.

Lemma leaves_output_subprocess_run E cmd :
  (forall w c, ffmpeg_partial E w c = true) ->
  keeps leaves_output id (subprocess_run E cmd).
Proof.
  intros Hpartial w r w' ->%subprocess_run_world. right.
  intros t cmd' rc p Ht Hp. simpl in *.
  apply app_inj_tail in Ht as [_ [= <- _]].
  rewrite Hp, Hpartial, orb_true_r. apply lookup_insert_eq.
Qed.

Lemma leaves_output_try_block E video out imgs :
  (forall w c, ffmpeg_partial E w c = true) ->
  keeps leaves_output frame_world (try_block E video out imgs).
Proof.
  intros Hpartial. apply keeps_try_block;
    eauto using leaves_output_write_text, leaves_output_subprocess_run
      with typeclass_instances.
Qed.

(** A path at position [m] of the middle list is not in what comes before
    it, and not in the outer lists. *)
Lemma NoDup_lookup_middle {A} (a b c c' : list A) m p :
  NoDup (a ++ b ++ c) -> b !! m = Some p -> c' ⊆ c ->
  p ∉ a ++ take m b ++ c'.
Proof.
  intros (Ha & Hab & (Hb & Hbc & Hc)%NoDup_app)%NoDup_app Hm Hsub.
  apply list_elem_of_lookup_2 in Hm as Hin.
  rewrite !elem_of_app. intros [Hp|[Hp|Hp]].
  - apply (Hab _ Hp). apply elem_of_app. by left.
  - apply elem_of_take in Hp as (i & Hi & Hlt).
    pose proof (NoDup_lookup _ _ _ _ Hb Hi Hm). lia.
  - apply (Hbc _ Hin). by apply Hsub.
Qed.

(** X2.  The file of the command that failed is not on the cleanup list, since
    the path is appended only after the command returns: when the tool leaves
    what it wrote, the file is still there at the end of the run. *)
Theorem output_of_a_failed_command_is_left_behind E json_path presentation_path
    video_path output_path w rc cmd f :
  process_video_frame E json_path presentation_path video_path output_path
    (new_frame w) = (inl (CalledProcessError rc cmd), f) ->
  cmd ≠ concat_videos_cmd output_path ->
  (forall w0 c, ffmpeg_partial E w0 c = true) ->
  exists p,
    last cmd = Some p
    /\ (p ∉ cycle_temp_files f)
    /\ fs (frame_world f) !! p = Some Binary.
Proof.
  intros H Hcmd Hpartial.
  apply process_video_frame_split in H
    as [(e & Hs & [= <-])|(imgs & f1 & f3 & Hs & Htry & Hfin)].
  { apply setup_inv in Hs. by destruct Hs as (_ & _ & [(_ & ? & _)|(_ & ? & _)]). }
  apply setup_inv in Hs as (_ & _ & -> & Hc1 & _).
  pose proof (leaves_output_try_block _ _ _ _ Hpartial _ _ _ Htry) as Hleft.
  apply try_block_inv in Htry as [(m & e & [= <-] & Hadv & Hout & _)|Hcat];
    cycle 1.
  { by destruct Hcat as (_ & _ & _ & _ & _ & _ & _ & [(? & _)|([= _ ?] & _)]). }
  destruct Hout as (Hrc & ph & Hph & <-).
  destruct Hadv as (Hm & Hc3 & _ & Ht3). simpl in Ht3.
  pose proof (loop_phases_wf video_path (posixpath.dirname output_path)
                (image_path (posixpath.dirname output_path)
                   <$> seq 0 (rendered_pages E)) 0 (slides_json E)) as Hwf.
  rewrite Forall_forall in Hwf.
  pose proof (Hwf _ (list_elem_of_lookup_2 _ _ _ Hph)) as Hlast.
  exists (phase_out ph). split; [done|].
  apply finally_block_inv in Hfin as (_ & Hc & Hsw).
  assert (Hnot : phase_out ph ∉ cycle_temp_files f).
  { rewrite Hc, Hc3, Hc1, <- app_assoc, fmap_take.
    apply NoDup_lookup_middle with (c := [inputs_txt_path]).
    - rewrite loop_phases_out. apply planned_NoDup.
    - by rewrite list_lookup_fmap, Hph.
    - case_bool_decide; [done|]. apply list_subseteq_nil. }
  split; [done|].
  destruct Hsw as (Hframe & _). rewrite (Hframe _ Hnot).
  destruct Hleft as [Heq|Hleft].
  - rewrite Heq in Ht3.
    rewrite <- (app_nil_r (trace (frame_world f1))) in Ht3 at 1.
    apply app_inv_head in Ht3. by destruct (take m _).
  - eapply Hleft; [|done]. by rewrite Ht3, app_assoc.
Qed.

Lemma output_of_a_failed_command_is_left_behind_witness :
  process_video_frame leaky_env "uploads/t.json" "uploads/deck.pdf"
    "uploads/talk.mp4" "uploads/out.mp4" (new_frame (start_world ∅))
  = (inl (CalledProcessError 1
            (resize_video_cmd "uploads/speaker_01.mp4"
               "uploads/speaker_01_resized.mp4")),
     leaky_frame)
  /\ exists p,
      last (resize_video_cmd "uploads/speaker_01.mp4"
              "uploads/speaker_01_resized.mp4") = Some p
      /\ (p ∉ cycle_temp_files leaky_frame)
      /\ fs (frame_world leaky_frame) !! p = Some Binary.
Proof.
  assert (H : process_video_frame leaky_env "uploads/t.json"
                "uploads/deck.pdf" "uploads/talk.mp4" "uploads/out.mp4"
                (new_frame (start_world ∅))
              = (inl (CalledProcessError 1
                        (resize_video_cmd "uploads/speaker_01.mp4"
                           "uploads/speaker_01_resized.mp4")),
                 leaky_frame))
    by (vm_compute; reflexivity).
  split; [exact H|].
  apply (output_of_a_failed_command_is_left_behind leaky_env _ _ _ _ _ _ _ _ H).
  - discriminate.
  - reflexivity.
Defined.

(** ** A manifest that was there before the run *)

Lemma grows_setup E pres out : keeps grows frame_world (setup E pres out).
Proof.
  apply keeps_setup;
    eauto using grows_emit, grows_makedirs, grows_save_page
      with typeclass_instances.
Qed.

Lemma grows_try_block E video out imgs :
  keeps grows frame_world (try_block E video out imgs).
Proof.
  apply keeps_try_block;
    eauto using grows_write_text, grows_subprocess_run
      with typeclass_instances.
Qed.

(** A run that fails in the loop writes no text file. *)
Lemma loop_failure_writes_nothing E video out f0 r f :
  run_shape E video out f0 r f ->
  r ≠ inr tt -> (forall rc, r ≠ inl (CalledProcessError rc (concat_videos_cmd out))) ->
  written (trace (frame_world f)) = written (trace (frame_world f0)).
Proof.
  intros Hrun Hr Hcat. destruct (run_written _ _ _ _ _ _ Hrun) as [[? _]|Hw];
    [done|].
  destruct Hrun as [e He Hset|e pre m w3 He _ _ Hpre _ _ Ht _ Hsw _
                   |pre rc w3 _ _ _ _ _ _ _ [(? & _)|(? & _)]].
  - destruct Hset as (_ & _ & [(_ & _ & ->)|(_ & _ & ->)]); [|done].
    rewrite written_app. simpl. by rewrite app_nil_r.
  - destruct Hsw as (_ & _ & _ & evs & -> & Hev).
    destruct (written_quiet _ _ _ _ LogWarning Hpre ltac:(done) Hev)
      as [Hq1 Hq2].
    rewrite Ht, !written_app, Hq1, Hq2, written_save_page, written_ok_run,
      written_failed. by rewrite !app_nil_r.
  - done.
  - by destruct (Hcat rc).
Qed.

(** X3.  A file at [inputs.txt] before a run that gets past the validation
    and the making of the folder is put on the cleanup list, whether the run
    writes a manifest or not: at the end it is gone, or a warning was logged
    for it; and a run that fails in the loop has written no manifest. *)
Theorem stale_manifest_is_removed E json_path presentation_path video_path
    output_path w r f c :
  process_video_frame E json_path presentation_path video_path output_path
    (new_frame w) = (r, f) ->
  fs w !! "inputs.txt" = Some c ->
  length (slides_json E) = pdf_pages E ->
  (forall e, r = inl e -> is_OSError e = false) ->
  "inputs.txt" ∈ cycle_temp_files f
  /\ (fs (frame_world f) !! "inputs.txt" = None
      \/ exists e, LogWarning "inputs.txt" e ∈ trace (frame_world f))
  /\ (r ≠ inr tt ->
      (forall rc, r ≠ inl (CalledProcessError rc (concat_videos_cmd output_path))) ->
      written (trace (frame_world f)) = written (trace w)).
Proof.
  intros H Hc Hlen Hr.
  pose proof (process_video_frame_inv _ _ _ _ _ (new_frame w) _ _ eq_refl H)
    as Hrun.
  apply process_video_frame_split in H
    as [(e & Hs & ->)|(imgs & f1 & f3 & Hs & Htry & Hfin)].
  { apply setup_inv in Hs. destruct Hs as (_ & _ & [(? & _)|(_ & Hos & _)]);
      [done|]. by rewrite (Hr _ eq_refl) in Hos. }
  assert (Hthere : is_Some (fs (frame_world f3) !! "inputs.txt")).
  { apply (grows_try_block _ _ _ _ _ _ _ Htry).
    apply (grows_setup _ _ _ _ _ _ Hs). simpl. by rewrite Hc. }
  apply finally_block_inv in Hfin as (_ & Hcyc & Hsw).
  assert (Hin : "inputs.txt" ∈ cycle_temp_files f).
  { rewrite Hcyc, (bool_decide_eq_true_2 _ Hthere). apply elem_of_app.
    right. by left. }
  split; [done|]. split.
  - destruct Hsw as (_ & _ & Hgone & _). by apply Hgone.
  - intros Hne Hcat. by apply (loop_failure_writes_nothing _ _ _ _ _ _ Hrun).
Qed.

Lemma stale_manifest_is_removed_witness :
  process_video_frame failing_env "uploads/t.json" "uploads/deck.pdf"
    "uploads/talk.mp4" "uploads/out.mp4" (new_frame stale_world)
  = (inl (CalledProcessError 1
            (resize_video_cmd "uploads/speaker_01.mp4"
               "uploads/speaker_01_resized.mp4")),
     stale_frame)
  /\ "inputs.txt" ∈ cycle_temp_files stale_frame
  /\ written (trace (frame_world stale_frame)) = [].
Proof.
  assert (H : process_video_frame failing_env "uploads/t.json"
                "uploads/deck.pdf" "uploads/talk.mp4" "uploads/out.mp4"
                (new_frame stale_world)
              = (inl (CalledProcessError 1
                        (resize_video_cmd "uploads/speaker_01.mp4"
                           "uploads/speaker_01_resized.mp4")),
                 stale_frame))
    by (vm_compute; reflexivity).
  split; [exact H|].
  destruct (stale_manifest_is_removed failing_env _ _ _ _ stale_world _ _
              (Text "file 'old/combined_00.mp4'") H eq_refl eq_refl)
    as (Hin & _ & Hw).
  { by intros e [= <-]. }
  split; [exact Hin|]. apply Hw; [discriminate|]. intros rc. discriminate.
Defined.

(** ** A timeline without segments *)

(** X4.  With no segment and no page the loop does nothing and the
    concatenation is spawned on an empty manifest, unless the folder cannot
    be made.  (The output path is plain, and [inputs.txt] is not a folder:
    it is none before the run, and it is not the folder of the output or a
    folder above it.) *)
Theorem empty_timeline_is_concatenated E json_path presentation_path video_path
    output_path w r w' :
  slides_json E = [] -> pdf_pages E = 0 -> rendered_pages E = 0 ->
  plain output_path = true ->
  "inputs.txt" ∉ ancestors output_path ->
  fs w !! "inputs.txt" ≠ Some Directory ->
  process_video_with_presentation E json_path presentation_path video_path
    output_path w = (r, w') ->
  (exists e, r = inl e /\ is_OSError e = true /\ w' = w)
  \/ (exists rc,
        spawned (trace w')
        = spawned (trace w) ++ [(concat_videos_cmd output_path, rc)]
        /\ written (trace w') = written (trace w) ++ [("inputs.txt", "")]
        /\ (r = inr tt <-> rc = 0%Z)).
Proof.
  intros Hnil Hpages _ _ _ _ H.
  apply process_video_inv in H as (f & H & <-).
  apply process_video_frame_inv in H; [|done].
  destruct H as [e He Hset|e pre m w3 He _ _ _ Hm Hout _ _ _ _
                |pre rc w3 _ _ Hpre _ Ht _ Hsw Hr].
  - left. exists e. split; [done|].
    destruct Hset as (_ & Hfs & [(Hne & _)|(_ & Hos & Htr)]).
    { by rewrite Hnil, Hpages in Hne. }
    split; [done|]. simpl in *. destruct w, (frame_world f). simpl in *.
    by subst.
  - exfalso. subst r. unfold job_phases in *. rewrite Hnil in *. simpl in *.
    destruct e; try done.
    + destruct Hout as (sd & Hx & _). by apply elem_of_nil in Hx.
    + destruct Hout as (k & Hx & _). lia.
    + destruct Hout as (_ & ph & Hx & _). by destruct m.
  - right. exists rc. destruct Hsw as (_ & _ & _ & evs & -> & Hev).
    destruct (written_quiet _ _ _ _ LogWarning Hpre ltac:(done) Hev)
      as [Hq1 Hq2].
    destruct (spawned_quiet _ _ _ _ LogWarning Hpre ltac:(done) Hev)
      as [Hs1 Hs2].
    rewrite Ht. unfold job_phases. rewrite Hnil. simpl.
    rewrite !spawned_app, !written_app, Hq1, Hq2, Hs1, Hs2, spawned_save_page,
      written_save_page. simpl. rewrite !app_nil_r.
    split; [done|]. split; [done|].
    destruct Hr as [(-> & -> & _)|(-> & Hrc)]; split; done.
Qed.

Lemma empty_timeline_is_concatenated_witness :
  process_video_with_presentation empty_env "uploads/t.json" "uploads/deck.pdf"
    "uploads/talk.mp4" "uploads/out.mp4" (start_world ∅) = (inr tt, empty_world)
  /\ spawned (trace empty_world) = [(concat_videos_cmd "uploads/out.mp4", 0%Z)]
  /\ written (trace empty_world) = [("inputs.txt", "")].
Proof.
  assert (H : process_video_with_presentation empty_env "uploads/t.json"
                "uploads/deck.pdf" "uploads/talk.mp4" "uploads/out.mp4"
                (start_world ∅) = (inr tt, empty_world))
    by (vm_compute; reflexivity).
  split; [exact H|].
  assert (Hm : "inputs.txt" ∉ ancestors "uploads/out.mp4").
  { change (ancestors "uploads/out.mp4") with ["uploads"].
    intros Hin%list_elem_of_singleton. discriminate Hin. }
  assert (Hf : fs (start_world ∅) !! "inputs.txt" ≠ Some Directory).
  { simpl. by rewrite lookup_empty. }
  destruct (empty_timeline_is_concatenated empty_env _ _ _ "uploads/out.mp4"
              (start_world ∅) _ _ eq_refl eq_refl eq_refl eq_refl Hm Hf H)
    as [(e & He & _)|(rc & Hsp & Hw & Hrc)].
  { discriminate He. }
  destruct Hrc as [Hrc _]. rewrite (Hrc eq_refl) in Hsp.
  split; [exact Hsp|exact Hw].
Defined.

(** ** The folder of the output *)

Lemma dirname_sep_free p : sep_free p = true -> posixpath.dirname p = "".
Proof. intros Hp. unfold posixpath.dirname. by rewrite (head_of_sep_free _ Hp). Qed.



Lemma segment_name_sep_free pre i suf :
  sep_free pre = true -> sep_free suf = true ->
  sep_free (pre +:+ fmt02d i +:+ suf) = true.
Proof.
  intros Hp Hs.
  by rewrite !sep_free_append, Hp, Hs, (digits_sep_free _ (fmt02d_digits i)).
Qed.

Lemma planned_dirname out q :
  posixpath.dirname out ≠ "" -> planned (posixpath.dirname out) q ->
  posixpath.dirname q = posixpath.dirname out.
Proof.
  intros Hd (i & Hq).
  unfold segment_files, image_path, speaker_cut, slide_vid, speaker_resized,
    combined in Hq.
  rewrite !elem_of_cons, elem_of_nil in Hq.
  destruct Hq as [->|[->|[->|[->|[->|[]]]]]];
    (apply dirname_join_dirname; [by apply segment_name_sep_free|done]).
Qed.

(** X6.  Every file on the cleanup list, the manifest apart, is in the folder
    of the output: [dirname] undoes the [join] with the folder. *)
Theorem intermediates_are_in_the_folder_of_the_output E json_path
    presentation_path video_path output_path w r f p :
  process_video_frame E json_path presentation_path video_path output_path
    (new_frame w) = (r, f) ->
  p ∈ cycle_temp_files f -> p ≠ "inputs.txt" ->
  posixpath.dirname p = posixpath.dirname output_path.
Proof.
  intros H Hp Hne. apply process_video_frame_inv in H; [|done].
  destruct (tracked_planned _ _ _ (new_frame w) _ _ _ eq_refl H Hp)
    as (Hd & [?|Hpl]); [done|].
  by apply planned_dirname.
Qed.

Lemma intermediates_are_in_the_folder_of_the_output_witness :
  process_video_frame demo_env "uploads/t.json" "uploads/deck.pdf"
    "uploads/talk.mp4" "uploads/out.mp4" (new_frame (start_world ∅))
  = (inr tt, demo_frame)
  /\ posixpath.dirname "uploads/combined_02.mp4"
     = posixpath.dirname "uploads/out.mp4".
Proof.
  assert (H : process_video_frame demo_env "uploads/t.json" "uploads/deck.pdf"
                "uploads/talk.mp4" "uploads/out.mp4"
                (new_frame (start_world ∅)) = (inr tt, demo_frame))
    by (vm_compute; reflexivity).
  split; [exact H|].
  apply (intermediates_are_in_the_folder_of_the_output demo_env _ _ _ _ _ _ _ _
           H).
  - vm_compute. repeat constructor.
  - discriminate.
Defined.

(** X7.  The cleanup list never names a path twice: no two pages, clips or
    steps of a job share a file. *)
Theorem cleanup_list_has_no_duplicates E json_path presentation_path video_path
    output_path w r f :
  process_video_frame E json_path presentation_path video_path output_path
    (new_frame w) = (r, f) ->
  NoDup (cycle_temp_files f).
Proof.
  intros H. apply process_video_frame_inv in H; [|done].
  pose proof (planned_NoDup (posixpath.dirname output_path) (rendered_pages E)
                (length (slides_json E))) as Hnd.
  destruct H as [e _ Hset|e pre m w3 _ _ _ _ _ _ _ Hc _ _
                |pre rc w3 _ _ _ _ _ Hc _ _].
  - destruct Hset as (-> & _). constructor.
  - rewrite Hc. unfold job_images, job_phases.
    eapply sublist_NoDup; [exact Hnd|].
    apply sublist_app; [done|]. apply sublist_app.
    + rewrite fmap_take, loop_phases_out. apply sublist_take.
    + case_bool_decide; [done|apply sublist_nil_l].
  - rewrite Hc. unfold job_images, job_phases. by rewrite loop_phases_out.
Qed.

Lemma cleanup_list_has_no_duplicates_witness :
  process_video_frame demo_env "uploads/t.json" "uploads/deck.pdf"
    "uploads/talk.mp4" "uploads/out.mp4" (new_frame (start_world ∅))
  = (inr tt, demo_frame)
  /\ NoDup (cycle_temp_files demo_frame).
Proof.
  assert (H : process_video_frame demo_env "uploads/t.json" "uploads/deck.pdf"
                "uploads/talk.mp4" "uploads/out.mp4"
                (new_frame (start_world ∅)) = (inr tt, demo_frame))
    by (vm_compute; reflexivity).
  split; [exact H|].
  exact (cleanup_list_has_no_duplicates demo_env _ _ _ _ _ _ _ H).
Defined.

(** ** A segment that cannot be read *)

Lemma loop_read_error E video d imgs i l f e f' :
  for_enumerate i l (loop_body E video d imgs) f = (inl e, f') ->
  (forall rc cmd, e ≠ CalledProcessError rc cmd) ->
  exists k sd,
    l !! k = Some sd
    /\ read_error imgs (i + k) sd e
    /\ (forall k' sd', k' < k -> l !! k' = Some sd' ->
          is_Some (start sd') /\ is_Some (end_ sd')
          /\ is_Some (imgs !! (i + k')))
    /\ advanced (loop_phases video d imgs i l) (4 * k)
         (inl e : exn + unit) f f'.
Proof.
  intros H He. revert i f H. induction l as [|sd l IH]; intros i f H.
  { by injection H. }
  simpl in H. apply bind_inv in H as [(e' & Hb & [= <-])|([] & f1 & Hb & Hl)].
  - exists 0, sd. split; [done|]. rewrite Nat.add_0_r.
    assert (Hread : read_error imgs i sd e /\ f' = f).
    { revert Hb. rewrite loop_body_eq. unfold loop_body_upto, read_error.
      destruct (start sd) as [s|]; simpl; [|intros [= <- <-]; auto].
      destruct (end_ sd) as [t|]; simpl; [|intros [= <- <-]; eauto 10].
      unfold index. destruct (imgs !! i) as [img|] eqn:Himg; simpl;
        [|intros [= <- <-]; eauto 10].
      intros Hb. apply run_phases_inv in Hb as (m & _ & ph & rc & _ & _ & ->).
      by destruct (He rc (phase_cmd ph)). }
    destruct Hread as [Hread ->]. split; [done|]. split; [lia|].
    change (4 * 0) with 0. apply advanced_nil.
    destruct e as [| | |rc cmd| | |]; try done. by destruct (He rc cmd).
  - apply loop_body_inv in Hb as (m & Hadv & (-> & Hdata) & _).
    apply IH in Hl as (k & sd' & Hk & Hread & Hbefore & Hadv').
    exists (S k), sd'. split; [done|]. split.
    { by rewrite Nat.add_succ_r. }
    split.
    + intros [|k'] sd'' Hlt Hk'.
      * injection Hk' as <-. rewrite Nat.add_0_r.
        destruct (Hdata 0 sd eq_refl) as (? & ? & Himg).
        by rewrite Nat.add_0_r in Himg.
      * rewrite Nat.add_succ_r. apply Hbefore; [lia|done].
    + cbn [loop_phases]. replace (4 * S k) with (4 + 4 * k) by lia.
      rewrite <- (phases_of_length video d imgs i sd) at 1.
      by eapply advanced_app.
Qed.

(** A run that ends with an exception raised by the reads of a segment. *)
Lemma run_read_error E json pres video out w e f :
  process_video_frame E json pres video out (new_frame w) = (inl e, f) ->
  (forall rc cmd, e ≠ CalledProcessError rc cmd) ->
  (forall msg, e ≠ ValueError msg) -> is_OSError e = false ->
  exists k sd,
    slides_json E !! k = Some sd
    /\ read_error (job_images E out) k sd e
    /\ (forall k' sd', k' < k -> slides_json E !! k' = Some sd' ->
          is_Some (start sd') /\ is_Some (end_ sd')
          /\ is_Some (job_images E out !! k'))
    /\ spawned (trace (frame_world f))
       = spawned (trace w)
         ++ ((fun ph => (phase_cmd ph, 0%Z))
               <$> take (4 * k) (job_phases E video out))
    /\ written (trace (frame_world f)) = written (trace w).
Proof.
  intros H Hcpe Hval Hos.
  apply process_video_frame_split in H
    as [(e' & Hs & [= <-])|(imgs & f1 & f3 & Hs & Htry & Hfin)].
  { apply setup_inv in Hs.
    destruct Hs as (_ & _ & [(_ & -> & _)|(_ & Hos' & _)]);
      [by destruct (Hval _ eq_refl)|congruence]. }
  apply setup_inv in Hs as (_ & _ & -> & _ & _ & pre & Ht1 & Hpre).
  unfold try_block in Htry.
  apply bind_inv in Htry as [(e' & Hloop & [= <-])|([] & f2 & _ & Hcat)];
    cycle 1.
  { apply lift_inv in Hcat as (Hcat & _).
    apply concat_videos_inv in Hcat as (rc & _ & _ & [(? & _)|(? & _)]);
      simplify_eq. by destruct (Hcpe rc (concat_videos_cmd out)). }
  apply loop_read_error in Hloop as (k & sd & Hk & Hread & Hbefore & Hadv);
    [|done].
  exists k, sd. split; [done|]. split; [done|]. split; [done|].
  destruct Hadv as (_ & _ & _ & Ht3).
  apply finally_block_inv in Hfin as (_ & _ & (_ & _ & _ & evs & Ht & Hev)).
  destruct (written_quiet _ _ _ _ LogWarning Hpre ltac:(done) Hev)
    as [Hq1 Hq2].
  destruct (spawned_quiet _ _ _ _ LogWarning Hpre ltac:(done) Hev)
    as [Hs1 Hs2].
  rewrite Ht, Ht3, Ht1. simpl.
  rewrite !spawned_app, !written_app, Hq1, Hq2, Hs1, Hs2, spawned_save_page,
    written_save_page, spawned_ok_run, written_ok_run, ?app_nil_r.
  assert (failed_run e = []) as ->.
  { destruct e as [| | |rc cmd| | |]; try done. by destruct (Hcpe rc cmd). }
  simpl. by rewrite !app_nil_r.
Qed.

(** X8.  The first segment that lacks [start] or [end] stops the run: the run
    never returns; when it raises [KeyError], the key is ["start"] if that is
    missing and ["end"] otherwise, the commands of the segments before it
    were all spawned and exited with status 0, nothing of the segment itself
    was spawned, and no manifest was written. *)
Theorem missing_key_raises_KeyError E json_path presentation_path video_path
    output_path w r f k sd :
  process_video_frame E json_path presentation_path video_path output_path
    (new_frame w) = (r, f) ->
  slides_json E !! k = Some sd ->
  start sd = None \/ end_ sd = None ->
  (forall k' sd', k' < k -> slides_json E !! k' = Some sd' ->
     is_Some (start sd') /\ is_Some (end_ sd')) ->
  r ≠ inr tt
  /\ (forall key, r = inl (KeyError key) ->
        key = match start sd with None => "start" | Some _ => "end" end
        /\ spawned (trace (frame_world f))
           = spawned (trace w)
             ++ ((fun ph => (phase_cmd ph, 0%Z))
                   <$> take (4 * k) (job_phases E video_path output_path))
        /\ written (trace (frame_world f)) = written (trace w)).
Proof.
  intros H Hk Hmiss Hfirst. split.
  - intros ->. apply process_video_frame_inv in H; [|done].
    destruct H as [? [=]|? ? ? ? [=]|pre rc w3 _ _ _ Hout _ _ _ _].
    destruct Hout as (_ & Hdata).
    destruct (Hdata _ _ Hk) as ([? ?] & [? ?] & _).
    destruct Hmiss; congruence.
  - intros key ->.
    apply run_read_error in H as (k0 & sd0 & Hk0 & Hread & Hbefore & Hsp & Hw);
      [|done..].
    assert (k0 = k) as ->.
    { destruct (Nat.lt_trichotomy k0 k) as [Hlt|[?|Hlt]]; [|done|].
      - destruct (Hfirst _ _ Hlt Hk0) as ([? ?] & [? ?]).
        destruct Hread as [(_ & ?)|[(_ & _ & ?)|([=] & _)]]; congruence.
      - destruct (Hbefore _ _ Hlt Hk) as ([? ?] & [? ?] & _).
        destruct Hmiss; congruence. }
    simplify_eq. split; [|done].
    destruct Hread as [([= ->] & ->)|[([= ->] & [? ->] & _)|([=] & _)]]; done.
Qed.

Lemma missing_key_raises_KeyError_witness :
  process_video_frame open_ended_env "uploads/t.json" "uploads/deck.pdf"
    "uploads/talk.mp4" "uploads/out.mp4" (new_frame (start_world ∅))
  = (inl (KeyError "end"), open_ended_frame)
  /\ spawned (trace (frame_world open_ended_frame))
     = spawned []
       ++ ((fun ph => (phase_cmd ph, 0%Z))
             <$> take (4 * 1)
                   (job_phases open_ended_env "uploads/talk.mp4"
                      "uploads/out.mp4"))
  /\ written (trace (frame_world open_ended_frame)) = written [].
Proof.
  assert (H : process_video_frame open_ended_env "uploads/t.json"
                "uploads/deck.pdf" "uploads/talk.mp4" "uploads/out.mp4"
                (new_frame (start_world ∅))
              = (inl (KeyError "end"), open_ended_frame))
    by (vm_compute; reflexivity).
  split; [exact H|].
  destruct (missing_key_raises_KeyError open_ended_env _ _ _ _ _ _ _ 1
              open_ended H eq_refl (or_intror eq_refl)) as (_ & Hkey).
  { intros [|k'] sd' Hlt Hsd; [|lia]. injection Hsd as <-.
    split; eexists; reflexivity. }
  destruct (Hkey "end" eq_refl) as (_ & Hsp & Hw). split; [exact Hsp|exact Hw].
Defined.

(** X9.  When the rasterizer yields fewer images than there are segments, the
    run never returns; when it raises [IndexError], it does so at the first
    segment without an image, after the commands of all the segments before
    it were spawned and exited with status 0. *)
Theorem missing_page_image_raises_IndexError E json_path presentation_path
    video_path output_path w r f :
  process_video_frame E json_path presentation_path video_path output_path
    (new_frame w) = (r, f) ->
  rendered_pages E < length (slides_json E) ->
  r ≠ inr tt
  /\ (r = inl IndexError ->
      spawned (trace (frame_world f))
      = spawned (trace w)
        ++ ((fun ph => (phase_cmd ph, 0%Z))
              <$> take (4 * rendered_pages E)
                    (job_phases E video_path output_path))
      /\ written (trace (frame_world f)) = written (trace w)).
Proof.
  intros H Hfew.
  assert (Hlen : length (job_images E output_path) = rendered_pages E).
  { unfold job_images. by rewrite length_fmap, length_seq. }
  destruct (lookup_lt_is_Some_2 (slides_json E) _ Hfew) as [sd Hsd].
  split.
  - intros ->. apply process_video_frame_inv in H; [|done].
    destruct H as [? [=]|? ? ? ? [=]|pre rc w3 _ _ _ Hout _ _ _ _].
    destruct Hout as (_ & Hdata).
    destruct (Hdata _ _ Hsd) as (_ & _ & Himg).
    apply lookup_lt_is_Some_1 in Himg. simpl in Himg. lia.
  - intros ->.
    apply run_read_error in H as (k & sd0 & Hk & Hread & Hbefore & Hsp & Hw);
      [|done..].
    assert (k = rendered_pages E) as ->; [|done].
    destruct Hread as [([=] & _)|[([=] & _)|(_ & _ & _ & Hnone)]].
    apply lookup_ge_None in Hnone.
    destruct (decide (rendered_pages E < k)) as [Hlt|]; [|lia].
    destruct (Hbefore _ _ Hlt Hsd) as (_ & _ & Himg).
    apply lookup_lt_is_Some_1 in Himg. lia.
Qed.

Lemma missing_page_image_raises_IndexError_witness :
  process_video_frame short_env "uploads/t.json" "uploads/deck.pdf"
    "uploads/talk.mp4" "uploads/out.mp4" (new_frame (start_world ∅))
  = (inl IndexError, short_frame)
  /\ spawned (trace (frame_world short_frame))
     = spawned []
       ++ ((fun ph => (phase_cmd ph, 0%Z))
             <$> take (4 * 2)
                   (job_phases short_env "uploads/talk.mp4" "uploads/out.mp4")).
Proof.
  assert (H : process_video_frame short_env "uploads/t.json" "uploads/deck.pdf"
                "uploads/talk.mp4" "uploads/out.mp4"
                (new_frame (start_world ∅)) = (inl IndexError, short_frame))
    by (vm_compute; reflexivity).
  split; [exact H|].
  destruct (missing_page_image_raises_IndexError short_env _ _ _ _ _ _ _ H)
    as (_ & Hi).
  { simpl. lia. }
  by destruct (Hi eq_refl).
Defined.

(** ** The manifest *)

Lemma newline_free_append a b :
  newline_free (a +:+ b) = newline_free a && newline_free b.
Proof.
  induction a as [|c a IH]; [done|].
  change (newline_free (String c a +:+ b))
    with (negb (bool_decide (c = "010"%char)) && newline_free (a +:+ b)).
  rewrite IH. simpl. by rewrite andb_assoc.
Qed.

Lemma string_append_assoc (a b c : string) : (a +:+ b) +:+ c = a +:+ b +:+ c.
Proof.
  induction a as [|x a IH]; [done|].
  change (String x (a +:+ b) +:+ c = String x (a +:+ b +:+ c)).
  change (String x ((a +:+ b) +:+ c) = String x (a +:+ b +:+ c)).
  by rewrite IH.
Qed.

Lemma split_at_newline a b r1 r2 :
  newline_free a = true -> newline_free b = true ->
  a +:+ String "010" r1 = b +:+ String "010" r2 -> a = b /\ r1 = r2.
Proof.
  revert b. induction a as [|x a IH]; intros [|y b] Ha Hb H.
  - by injection H.
  - injection H as <- _. done.
  - injection H as -> _. done.
  - injection H as -> H. simpl in Ha, Hb.
    apply andb_prop in Ha as [_ Ha]. apply andb_prop in Hb as [_ Hb].
    by destruct (IH _ Ha Hb H) as [-> ->].
Qed.

(** X10.  The manifest determines the list of fragments, as long as no path
    has a line break in it. *)
Theorem manifest_determines_the_fragments video_list1 video_list2 :
  Forall (fun v => newline_free v = true) video_list1 ->
  Forall (fun v => newline_free v = true) video_list2 ->
  manifest_text video_list1 = manifest_text video_list2 ->
  video_list1 = video_list2.
Proof.
  intros H1. revert video_list2.
  induction H1 as [|v1 l1 Hv1 _ IH]; intros l2 H2 Heq.
  - destruct l2 as [|v2 l2]; [done|]. discriminate Heq.
  - destruct H2 as [|v2 l2 Hv2 H2]; [discriminate Heq|].
    cbn [manifest_text] in Heq. unfold manifest_line in Heq.
    rewrite !string_append_assoc in Heq.
    apply (string_app_inv_head "file '") in Heq.
    rewrite <- !(string_append_assoc _ "'") in Heq.
    apply split_at_newline in Heq as [Hv Hl];
      [|by rewrite newline_free_append, ?Hv1, ?Hv2..].
    apply append_inv_tail in Hv as ->. f_equal. by apply IH.
Qed.

Lemma manifest_determines_the_fragments_witness :
  manifest_text ["uploads/combined_00.mp4"; "uploads/combined_01.mp4"]
  = "file 'uploads/combined_00.mp4'" +:+ String "010" ""
    +:+ "file 'uploads/combined_01.mp4'" +:+ String "010" ""
  /\ forall l,
      Forall (fun v => newline_free v = true) l ->
      manifest_text l
      = manifest_text ["uploads/combined_00.mp4"; "uploads/combined_01.mp4"] ->
      l = ["uploads/combined_00.mp4"; "uploads/combined_01.mp4"].
Proof.
  split; [reflexivity|]. intros l Hl Heq.
  apply (manifest_determines_the_fragments l
           ["uploads/combined_00.mp4"; "uploads/combined_01.mp4"] Hl);
    [|exact Heq].
  repeat constructor.
Defined.

(** ** The page images *)

(** A name joined to a folder is not the folder. *)
Lemma join_longer d name :
  posixpath.startswith_sep name = false -> name ≠ "" ->
  d ≠ posixpath.join d name.
Proof.
  unfold posixpath.join. intros -> Hname H.
  apply (f_equal String.length) in H.
  destruct (bool_decide (d = "") || posixpath.endswith_sep d);
    rewrite ?append_length in H; simpl in H; [|lia].
  destruct name; [done|]. simpl in H. lia.
Qed.

Lemma lookup_foldl_insert (m : gmap string content) (l : list string) q :
  foldl (fun m p => <[p := Binary]> m) m l !! q
  = if bool_decide (q ∈ l) then Some Binary else m !! q.
Proof.
  revert m. induction l as [|p l IH]; intros m; simpl; [done|].
  rewrite IH. destruct (decide (q ∈ l)) as [Hl|Hl].
  - rewrite !bool_decide_eq_true_2; [done|by right|done].
  - rewrite (bool_decide_eq_false_2 _ Hl).
    destruct (decide (q = p)) as [->|Hne].
    + rewrite bool_decide_eq_true_2 by (by left). apply lookup_insert_eq.
    + rewrite bool_decide_eq_false_2 by (by intros [?|?]%elem_of_cons).
      by apply lookup_insert_ne.
Qed.



(** ** The task *)

Lemma swept_unchanged report l w w' q :
  swept report l w w' -> q ∉ l -> fs w' !! q = fs w !! q.
Proof. intros (H & _). apply H. Qed.





(** ** [cleanup_files] of [main.py] *)

Lemma os_remove_inv E p w r w' :
  os_remove E p w = (r, w') ->
  (r = inr tt /\ fs w' = delete p (fs w))
  \/ (exists e, r = inl e /\ is_OSError e = true /\ w' = w).
Proof.
  unfold os_remove. intros H.
  destruct (fs w !! p) as [c|]; [|injection H as <- <-; eauto].
  destruct c, (remove_raises E w p); injection H as <- <-; eauto.
Qed.



(** ** Tools that work *)

Section no_failed_command.
Context {St : Type}.

Lemma nfc_ret {A} (a : A) : no_failed_command (ret a : ST St A).
Proof. by intros s rc cmd s'. Qed.

Lemma nfc_raise {A} e :
  (forall rc cmd, e ≠ CalledProcessError rc cmd) ->
  no_failed_command (raise e : ST St A).
Proof. intros He s rc cmd s' [= -> _]. by destruct (He rc cmd). Qed.

Lemma nfc_bind {A B} (m : ST St A) (k : A -> ST St B) :
  no_failed_command m -> (forall a, no_failed_command (k a)) ->
  no_failed_command (bind m k).
Proof.
  intros Hm Hk s rc cmd s' H.
  apply bind_inv in H as [(e & H & [= <-])|(a & s1 & _ & H)].
  - by apply Hm in H.
  - by apply Hk in H.
Qed.

Lemma nfc_for_each {A} (l : list A) (f : A -> ST St unit) :
  (forall x, no_failed_command (f x)) -> no_failed_command (for_each l f).
Proof.
  intros Hf. induction l as [|x l IH]; simpl; [apply nfc_ret|].
  apply nfc_bind; [apply Hf|by intros _].
Qed.

Lemma nfc_for_enumerate {A} i (l : list A) (f : nat -> A -> ST St unit) :
  (forall i x, no_failed_command (f i x)) ->
  no_failed_command (for_enumerate i l f).
Proof.
  intros Hf. revert i. induction l as [|x l IH]; intros i; simpl;
    [apply nfc_ret|].
  apply nfc_bind; [apply Hf|by intros _].
Qed.

Lemma nfc_getitem key v : no_failed_command (getitem key v : ST St Z).
Proof. destruct v; [apply nfc_ret|by apply nfc_raise]. Qed.

Lemma nfc_index l i : no_failed_command (index l i : ST St string).
Proof. unfold index. destruct (l !! i); [apply nfc_ret|by apply nfc_raise]. Qed.

End no_failed_command.

Lemma nfc_lift {A} (m : ST world A) :
  no_failed_command m -> no_failed_command (lift m).
Proof. intros Hm f rc cmd f' H. apply lift_inv in H as (H & _). by apply Hm in H. Qed.

Lemma nfc_subprocess_run E cmd :
  (forall w c, ffmpeg E w c = 0%Z) -> no_failed_command (subprocess_run E cmd).
Proof.
  intros Hok w rc cmd' w' H. unfold subprocess_run in H.
  rewrite Hok in H. by rewrite bool_decide_eq_true_2 in H.
Qed.

Lemma nfc_try_block E video out imgs :
  (forall w c, ffmpeg E w c = 0%Z) ->
  no_failed_command (try_block E video out imgs).
Proof.
  intros Hok. unfold try_block, segment_loop. apply nfc_bind.
  - apply nfc_for_enumerate. intros i sd f rc cmd f'.
    rewrite loop_body_eq. revert f rc cmd f'. unfold loop_body_upto.
    apply nfc_bind; [apply nfc_getitem|]. intros s.
    apply nfc_bind; [apply nfc_getitem|]. intros e.
    apply nfc_bind; [apply nfc_index|]. intros img.
    apply nfc_for_each. intros ph. unfold run_phase.
    apply nfc_bind; [by apply nfc_lift, nfc_subprocess_run|]. intros _.
    apply nfc_bind; [|by intros _ f rc cmd f'].
    by destruct (phase_frag ph); intros f rc cmd f'.
  - intros _ f rc cmd f' H. revert H. apply nfc_lift. unfold concat_videos.
    apply nfc_bind; [by intros w rc' cmd' w'|].
    intros _. by apply nfc_subprocess_run.
Qed.

Lemma makedirs_returns p ok w w' :
  makedirs p ok w = (inr tt, w') -> is_Some (fs w' !! p).
Proof.
  unfold makedirs. destruct (bool_decide (p = "")); [done|].
  destruct (fs w !! p) as [c|] eqn:Hp.
  - destruct c, ok; intros [= <-]; by rewrite Hp.
  - intros [= <-]. simpl. by rewrite lookup_insert_eq.
Qed.

(** [setup] returns when the counts agree and the folder is there or can
    be made. *)
Lemma setup_returns E pres out f :
  length (slides_json E) = pdf_pages E ->
  posixpath.dirname out ≠ "" ->
  fs (frame_world f) !! posixpath.dirname out = None
  \/ fs (frame_world f) !! posixpath.dirname out = Some Directory ->
  exists imgs f1, setup E pres out f = (inr imgs, f1).
Proof.
  intros Hlen Hd Hdir.
  destruct (setup E pres out f) as [[e|imgs] f1] eqn:Hs; [exfalso|eauto].
  unfold setup in Hs. rewrite bool_decide_eq_false_2 in Hs by (by intros ?).
  apply bind_inv in Hs as [(e' & Hm & _)|([] & f2 & Hm & Hk)].
  - apply lift_inv in Hm as (Hm & _). unfold makedirs in Hm.
    rewrite (bool_decide_eq_false_2 _ Hd) in Hm.
    by destruct Hdir as [Hl|Hl]; rewrite Hl in Hm.
  - apply lift_inv in Hm as (Hm & _). apply makedirs_returns in Hm.
    apply bind_inv in Hk as [(e' & Hc & _)|(? & ? & _ & Hk)].
    + apply lift_inv in Hc as (Hc & _). unfold convert_pdf_to_images in Hc.
      apply bind_inv in Hc as [(? & [=] & _)|(present & w0 & [= <- <-] & Hc)].
      rewrite (bool_decide_eq_true_2 _ Hm) in Hc. simpl in Hc.
      unfold bind, ret in Hc. by rewrite save_slides_eq in Hc.
    + by apply bind_inv in Hk as [(? & [=] & _)|(? & ? & _ & [=])].
Qed.

(** X15.  When every command exits with status 0, the counts agree, every
    segment has its [start], its [end] and its page image, and the folder of
    the output is there or can be made, the run returns; and the output file
    is there at the end unless its path is the manifest's or a derived
    name.  (The output path is plain, the folders above its folder are
    there, and no path the run writes to is a folder: [inputs.txt] is none
    before the run and is not the folder of the output or above it, and no
    page path is one.) *)
Theorem working_tools_give_the_output E json_path presentation_path video_path
    output_path w :
  (forall w0 cmd, ffmpeg E w0 cmd = 0%Z) ->
  length (slides_json E) = pdf_pages E ->
  length (slides_json E) <= rendered_pages E ->
  (forall sd, sd ∈ slides_json E -> is_Some (start sd) /\ is_Some (end_ sd)) ->
  posixpath.dirname output_path ≠ "" ->
  fs w !! posixpath.dirname output_path = None
  \/ fs w !! posixpath.dirname output_path = Some Directory ->
  plain output_path = true ->
  (forall a, a ∈ ancestors (posixpath.dirname output_path) ->
     fs w !! a = Some Directory) ->
  "inputs.txt" ∉ ancestors output_path ->
  fs w !! "inputs.txt" ≠ Some Directory ->
  (forall i, i < rendered_pages E ->
     fs w !! image_path (posixpath.dirname output_path) i ≠ Some Directory) ->
  exists w',
    process_video_with_presentation E json_path presentation_path video_path
      output_path w = (inr tt, w')
    /\ (output_path ≠ "inputs.txt" ->
        (forall i, output_path
                   ∉ image_path (posixpath.dirname output_path) i
                     :: segment_files (posixpath.dirname output_path) i) ->
        fs w' !! output_path = Some Binary).
Proof.
  intros Hok Hlen Hpages Hdata Hd Hdir _ _ _ _ _.
  destruct (process_video_with_presentation E json_path presentation_path
              video_path output_path w) as [r w'] eqn:H.
  exists w'. apply process_video_inv in H as (f & H & <-).
  pose proof (process_video_frame_inv _ _ _ _ _ (new_frame w) _ _ eq_refl H)
    as Hrun.
  assert (r = inr tt) as ->.
  { apply process_video_frame_split in H
      as [(e & Hs & _)|(imgs & f1 & f3 & Hs & Htry & _)].
    { destruct (setup_returns E presentation_path output_path (new_frame w)
                  Hlen Hd Hdir) as (? & ? & Hs'). congruence. }
    apply setup_inv in Hs as (_ & _ & -> & _).
    pose proof (nfc_try_block E video_path output_path
                  (image_path (posixpath.dirname output_path)
                     <$> seq 0 (rendered_pages E)) Hok f1) as Hnfc.
    apply try_block_inv in Htry as Hinv.
    destruct Hinv as [(m & e & -> & _ & Hout & _)|Hcat].
    - exfalso. destruct e as [| | |rc cmd| | |]; try done.
      + destruct Hout as (sd & Hin & [Hm|Hm]);
          destruct (Hdata _ Hin) as [[? ?] [? ?]]; congruence.
      + destruct Hout as (k & Hk & Hnone). apply lookup_ge_None in Hnone.
        rewrite length_fmap, length_seq in Hnone. simpl in Hnone. lia.
      + by apply Hnfc in Htry.
    - destruct Hcat as (_ & rc & _ & _ & _ & _ & _ & [(-> & _)|(-> & _)]);
        [done|]. by apply Hnfc in Htry. }
  split; [done|]. intros Hm Hpl.
  pose proof (tracked_planned _ _ _ (new_frame w) _ _ output_path eq_refl Hrun)
    as Htr.
  destruct Hrun as [? [=]|? ? ? ? [=]|pre rc w3 _ _ _ _ _ _ Hsw Hr].
  destruct Hr as [(_ & _ & Hfile)|([=] & _)].
  rewrite (swept_unchanged _ _ _ _ _ Hsw); [done|].
  intros Hin. destruct (Htr Hin) as (_ & [?|(i & Hi)]); [done|].
  by apply (Hpl i).
Qed.

Lemma working_tools_give_the_output_witness :
  exists w',
    process_video_with_presentation demo_env "uploads/t.json" "uploads/deck.pdf"
      "uploads/talk.mp4" "uploads/out.mp4" (start_world ∅) = (inr tt, w')
    /\ fs w' !! "uploads/out.mp4" = Some Binary.
Proof.
  destruct (working_tools_give_the_output demo_env "uploads/t.json"
              "uploads/deck.pdf" "uploads/talk.mp4" "uploads/out.mp4"
              (start_world ∅)) as (w' & H & Hout).
  - reflexivity.
  - reflexivity.
  - simpl. lia.
  - intros sd Hin. repeat (apply elem_of_cons in Hin as [->|Hin];
                           [split; eexists; reflexivity|]).
    by apply elem_of_nil in Hin.
  - discriminate.
  - left. reflexivity.
  - reflexivity.
  - intros a Hin.
    change (ancestors (posixpath.dirname "uploads/out.mp4")) with (@nil string)
      in Hin.
    destruct (not_elem_of_nil _ Hin).
  - change (ancestors "uploads/out.mp4") with ["uploads"].
    intros Hin%list_elem_of_singleton. discriminate Hin.
  - simpl. by rewrite lookup_empty.
  - intros i _. simpl. by rewrite lookup_empty.
  - exists w'. split; [exact H|]. apply Hout; [discriminate|].
    intros i Hin.
    change (posixpath.dirname "uploads/out.mp4") with "uploads" in Hin.
    apply planned_in_uploads in Hin. destruct Hin as (rest & [Hin|Hin]);
      discriminate Hin.
Defined.

(** ** The uploads of a request *)

Lemma startswith_sep_prefix task_id f1 f2 :
  posixpath.startswith_sep (task_id +:+ "_" +:+ f1)
  = posixpath.startswith_sep (task_id +:+ "_" +:+ f2).
Proof. by destruct task_id. Qed.

(** X16.  Two uploads of one request are stored under the same path exactly
    when they have the same file name. *)
Theorem uploads_collide_on_equal_filenames task_id filename1 filename2 :
  main.upload_path task_id filename1 = main.upload_path task_id filename2
  <-> filename1 = filename2.
Proof.
  split; [|by intros ->]. unfold main.upload_path, posixpath.join.
  rewrite (startswith_sep_prefix task_id filename1 filename2).
  destruct (posixpath.startswith_sep _); simpl; intros H.
  - apply string_app_inv_head in H. by apply (string_app_inv_head "_") in H.
  - apply (string_app_inv_head "uploads/") in H.
    apply string_app_inv_head in H. by apply (string_app_inv_head "_") in H.
Qed.

Lemma planned_in_uploads_prefix i p :
  p ∈ image_path "uploads" i :: segment_files "uploads" i ->
  exists rest, p = "uploads/s" +:+ rest \/ p = "uploads/co" +:+ rest.
Proof.
  intros H.
  repeat (apply elem_of_cons in H as [-> | H]);
    [..|by apply not_elem_of_nil in H];
    eexists; [left|left|left|left|right]; reflexivity.
Qed.

Lemma upload_path_uuid task_id filename :
  starts_like_uuid task_id = true ->
  exists a b rest,
    hex_digit a = true /\ hex_digit b = true
    /\ main.upload_path task_id filename
       = "uploads/" +:+ String a (String b rest).
Proof.
  destruct task_id as [|a [|b rest]]; [done..|]. simpl.
  intros [Ha Hb]%andb_prop. exists a, b, (rest +:+ "_" +:+ filename).
  split; [done|]. split; [done|].
  unfold main.upload_path, posixpath.join.
  assert (posixpath.startswith_sep (String a (String b rest) +:+ "_" +:+ filename)
          = false) as ->; [|done].
  simpl. unfold posixpath.is_sep. apply bool_decide_eq_false. intros ->.
  by vm_compute in Ha.
Qed.

(** X17.  The uploads of a request are left to the task: the pipeline changes
    none of them, and none of them is the output path of a task. *)
Theorem uploads_are_left_to_the_task E request_id task_id json_filename
    presentation_filename video_filename w r w' p :
  starts_like_uuid task_id = true ->
  sep_free request_id = true ->
  process_video_with_presentation E
    (main.upload_path task_id json_filename)
    (main.upload_path task_id presentation_filename)
    (main.upload_path task_id video_filename)
    (task_output request_id) w = (r, w') ->
  p ∈ [main.upload_path task_id json_filename;
       main.upload_path task_id presentation_filename;
       main.upload_path task_id video_filename] ->
  p ≠ task_output request_id /\ fs w' !! p = fs w !! p.
Proof.
  intros Huuid Hid H Hp.
  assert (Hshape : exists a b rest,
             hex_digit a = true /\ hex_digit b = true
             /\ p = "uploads/" +:+ String a (String b rest)).
  { repeat (apply elem_of_cons in Hp as [->|Hp]);
      [by apply upload_path_uuid..|by apply elem_of_nil in Hp]. }
  destruct Hshape as (a & b & rest & Ha & Hb & ->).
  assert (Hout : "uploads/" +:+ String a (String b rest)
                 ≠ task_output request_id).
  { rewrite task_output_eq. intros [= -> _]. by vm_compute in Ha. }
  split; [done|].
  apply (process_video_unchanged _ _ _ _ _ _ _ _ _ H); [|done|done|].
  - by rewrite task_output_dirname.
  - rewrite task_output_dirname by done. intros (i & Hi).
    apply planned_in_uploads_prefix in Hi as (rest' & [Hi|Hi]).
    + injection Hi as -> _. by vm_compute in Ha.
    + injection Hi as _ -> _. by vm_compute in Hb.
Qed.

Lemma uploads_are_left_to_the_task_witness :
  process_video_with_presentation demo_env
    (main.upload_path "7c9e6679" "t.json") (main.upload_path "7c9e6679" "d.pdf")
    (main.upload_path "7c9e6679" "talk.mp4") (task_output "7f3a")
    (start_world request_files)
  = (inr tt, request_world)
  /\ "uploads/7c9e6679_talk.mp4" ≠ task_output "7f3a"
  /\ fs request_world !! "uploads/7c9e6679_talk.mp4" = Some Binary.
Proof.
  assert (H : process_video_with_presentation demo_env
                (main.upload_path "7c9e6679" "t.json")
                (main.upload_path "7c9e6679" "d.pdf")
                (main.upload_path "7c9e6679" "talk.mp4") (task_output "7f3a")
                (start_world request_files)
              = (inr tt, request_world))
    by (vm_compute; reflexivity).
  split; [exact H|].
  destruct (uploads_are_left_to_the_task demo_env "7f3a" "7c9e6679" "t.json"
              "d.pdf" "talk.mp4" _ _ _ "uploads/7c9e6679_talk.mp4" eq_refl
              eq_refl H) as (Hne & Hsame).
  { vm_compute. repeat constructor. }
  split; [exact Hne|]. rewrite Hsame. reflexivity.
Defined.

(** ** Removals that work *)

#[local] Instance quiet_preorder : PreOrder quiet.
Proof.
  split; [by split|]. intros w1 w2 w3 [H1 K1] [H2 K2]. split; auto.
Qed.

Lemma quiet_step w w' ev :
  (forall p, fs w' !! p = Some Directory -> fs w !! p = Some Directory) ->
  trace w' = trace w ++ [ev] -> (forall p e, ev ≠ LogWarning p e) ->
  quiet w w'.
Proof.
  intros Hfs Ht Hev. split; [done|]. intros p e. rewrite Ht.
  intros [H|H]%elem_of_app; [done|].
  apply list_elem_of_singleton in H. by destruct (Hev p e).
Qed.

Lemma insert_file_folder (m : gmap string content) p c q :
  c ≠ Directory -> <[p := c]> m !! q = Some Directory -> m !! q = Some Directory.
Proof.
  intros Hc. destruct (decide (q = p)) as [->|Hne].
  - rewrite lookup_insert_eq. congruence.
  - by rewrite lookup_insert_ne.
Qed.

Lemma quiet_write_text p t : keeps quiet id (write_text p t).
Proof.
  intros w r w' [= _ <-]. eapply quiet_step; [|done..].
  intros q. by apply insert_file_folder.
Qed.

Lemma quiet_subprocess_run E cmd : keeps quiet id (subprocess_run E cmd).
Proof.
  intros w r w' ->%subprocess_run_world. eapply quiet_step; [|done..].
  intros q. simpl. destruct (last cmd) as [out|]; [|done].
  destruct (_ || _); [|done]. by apply insert_file_folder.
Qed.

(** The folder [setup] makes is the folder of the output. *)
Lemma setup_folders E pres out f imgs f1 :
  setup E pres out f = (inr imgs, f1) ->
  forall p, fs (frame_world f1) !! p = Some Directory ->
    p = posixpath.dirname out \/ fs (frame_world f) !! p = Some Directory.
Proof.
  unfold setup. case_bool_decide as Hlen.
  { unfold bind, lift, emit, raise. simpl. intros H. simplify_eq. }
  unfold bind, lift, makedirs, convert_pdf_to_images, bind, path_exists,
    init_lists, ret.
  case_bool_decide as Hdir; simpl; [intros H; simplify_eq|].
  destruct (fs (frame_world f) !! posixpath.dirname out) as [[]|] eqn:Hfs;
    simpl; try (intros H; simplify_eq; fail).
  - rewrite Hfs. rewrite bool_decide_eq_true_2 by eauto. simpl.
    rewrite save_slides_eq. simpl. intros H. simplify_eq. simpl.
    intros p. rewrite lookup_foldl_insert. case_bool_decide; [done|auto].
  - rewrite lookup_insert_eq. rewrite bool_decide_eq_true_2 by eauto. simpl.
    rewrite save_slides_eq. simpl. intros H. simplify_eq. simpl.
    intros p. rewrite lookup_foldl_insert. case_bool_decide; [done|].
    destruct (decide (p = posixpath.dirname out)) as [->|Hne]; [auto|].
    rewrite lookup_insert_ne by done. auto.
Qed.

(** On entry to the [finally] block. *)
Lemma entry_quiet E pres video out f0 imgs f1 r f3 :
  setup E pres out f0 = (inr imgs, f1) ->
  try_block E video out imgs f1 = (r, f3) ->
  (forall p, fs (frame_world f3) !! p = Some Directory ->
     p = posixpath.dirname out \/ fs (frame_world f0) !! p = Some Directory)
  /\ (forall p e, LogWarning p e ∈ trace (frame_world f3) ->
        LogWarning p e ∈ trace (frame_world f0)).
Proof.
  intros Hs Ht.
  destruct (keeps_try_block quiet E quiet_write_text (quiet_subprocess_run E)
              _ _ _ _ _ _ Ht) as [Hfs Hlog].
  split.
  - intros p Hp. by apply (setup_folders _ _ _ _ _ _ Hs), Hfs.
  - intros p e Hp. apply Hlog in Hp.
    apply setup_inv in Hs as (_ & _ & _ & _ & _ & pre & Htr & Hpre).
    rewrite Htr in Hp. rewrite !elem_of_app in Hp.
    destruct Hp as [Hp|[Hp|Hp]]; [done| |].
    + destruct Hpre as [-> | ->]; [by apply elem_of_nil in Hp|].
      by apply list_elem_of_singleton in Hp.
    + by apply list_elem_of_fmap in Hp as (q & ? & _).
Qed.

Lemma planned_not_folder d p : planned d p -> p ≠ d.
Proof.
  intros (i & Hp) ->.
  unfold segment_files, image_path, speaker_cut, slide_vid, speaker_resized,
    combined in Hp.
  rewrite !elem_of_cons, elem_of_nil in Hp.
  destruct Hp as [H|[H|[H|[H|[H|[]]]]]];
    by apply join_longer in H.
Qed.

(** The world after the pipeline holds no folder that was not there, the
    folder of the output apart. *)
Lemma process_video_folders E json pres video out w r w' p :
  process_video_with_presentation E json pres video out w = (r, w') ->
  fs w' !! p = Some Directory ->
  p = posixpath.dirname out \/ fs w !! p = Some Directory.
Proof.
  intros H Hp. apply process_video_inv in H as (f & H & <-).
  apply process_video_frame_split in H
    as [(e & Hs & _)|(imgs & f1 & f3 & Hs & Ht & Hf)].
  - apply setup_inv in Hs as (_ & Hfs & _). rewrite Hfs in Hp. by right.
  - apply finally_block_inv in Hf as (_ & _ & _ & Hsw & _).
    destruct (entry_quiet _ _ _ _ _ _ _ _ _ Hs Ht) as [Hfs _].
    apply (Hfs p). destruct (Hsw p) as [Heq|Heq]; congruence.
Qed.

Lemma guarded_remove_clean E report p w r w' :
  (forall w0 q, remove_raises E w0 q = None) ->
  fs w !! p ≠ Some Directory ->
  guarded_remove E report p w = (r, w') ->
  (fs w !! p = None /\ w' = w)
  \/ (fs w' = delete p (fs w) /\ trace w' = trace w ++ [Remove p]).
Proof.
  intros Hrm Hdir.
  unfold guarded_remove, bind, path_exists, try_except, os_remove, emit,
    raise, ret. cbv beta.
  destruct (fs w !! p) as [c|] eqn:Hp; cycle 1.
  { rewrite bool_decide_eq_false_2 by (by intros [? ?]).
    intros H. simplify_eq. eauto. }
  rewrite bool_decide_eq_true_2 by eauto. cbv beta iota. rewrite Hp, Hrm.
  destruct c; [| |done]; intros H; simplify_eq; simpl; eauto.
Qed.

(** A removal loop in which no removal raises removes every file listed and
    reports nothing. *)
Lemma sweep_clean E report l w r w' :
  (forall w0 q, remove_raises E w0 q = None) ->
  (forall p, p ∈ l -> fs w !! p ≠ Some Directory) ->
  for_each l (guarded_remove E report) w = (r, w') ->
  (forall p, p ∈ l -> fs w' !! p = None)
  /\ exists ps, trace w' = trace w ++ (Remove <$> ps).
Proof.
  intros Hrm. revert w. induction l as [|x l IH]; intros w Hdir H; simpl in H.
  - unfold ret in H. simplify_eq. split.
    + intros p Hp. by apply elem_of_nil in Hp.
    + exists []. by rewrite app_nil_r.
  - apply bind_inv in H as [(e & H & ->)|([] & w1 & H & K)].
    { by apply guarded_remove_inv in H as (? & _). }
    apply (guarded_remove_clean _ _ _ _ _ _ Hrm) in H;
      [|apply Hdir; by left].
    assert (Hx : fs w1 !! x = None).
    { destruct H as [[Hx ->]|[-> _]]; [done|apply lookup_delete_eq]. }
    assert (Hfs1 : forall q, fs w1 !! q = Some Directory ->
                             fs w !! q = Some Directory).
    { intros q. destruct H as [[_ ->]|[-> _]]; [done|].
      destruct (decide (q = x)) as [->|Hne];
        [by rewrite lookup_delete_eq|by rewrite lookup_delete_ne]. }
    pose proof (sweep_inv E report _ _ _ _ K) as (_ & _ & Hless & _).
    apply IH in K as (Hgone & ps & Ht).
    2:{ intros p Hp Hq. apply (Hdir p); [by right|by apply Hfs1]. }
    split.
    + intros p [->|Hp]%elem_of_cons; [|by apply Hgone].
      destruct (Hless x) as [Heq|Heq]; congruence.
    + destruct H as [[_ ->]|[_ Ht1]]; [by exists ps|].
      exists (x :: ps). rewrite Ht, Ht1. by rewrite <- app_assoc.
Qed.

(** The removal loop of the [finally] block. *)
Lemma finally_block_sweep E f r f' :
  finally_block E f = (r, f') ->
  for_each (cycle_temp_files f') (guarded_remove E LogWarning) (frame_world f)
  = (inr tt, frame_world f').
Proof.
  intros H. pose proof (finally_block_inv _ _ _ _ H) as (-> & _).
  unfold finally_block in H.
  apply bind_inv in H as [(e & H & _)|(present & f1 & H & K)];
    apply lift_inv in H as (H & Hc1 & _);
    unfold path_exists in H; [done|injection H as _ Hw1].
  apply bind_inv in K as [(e & K & [=])|([] & f2 & K & L)].
  assert (Hw2 : frame_world f2 = frame_world f).
  { destruct present; unfold append_temp, ret in K; simplify_eq; by simpl. }
  apply lift_inv in L as (L & Hc3 & _).
  rewrite Hc3, <- Hw2. exact L.
Qed.

Lemma dirname_in_ancestors p :
  posixpath.dirname p ≠ "" -> posixpath.dirname p ≠ p ->
  posixpath.dirname p ∈ ancestors p.
Proof.
  intros Hd Hp. unfold ancestors. destruct p as [|c p]; [by destruct Hd|].
  cbn [String.length ancestors_upto].
  rewrite bool_decide_eq_false_2 by tauto. by left.
Qed.

(** The manifest is not the folder of the output when it is not among the
    folders above the output. *)
Lemma manifest_not_above output_path :
  "inputs.txt" ∉ ancestors output_path ->
  posixpath.dirname output_path ≠ "inputs.txt".
Proof.
  intros Hanc Hd. apply Hanc. rewrite <- Hd.
  apply dirname_in_ancestors; rewrite Hd; [done|].
  intros <-. discriminate Hd.
Qed.

(** X18.  When [os.remove] never fails, the output path is plain, the
    folders above its folder are there, [inputs.txt] is neither its folder
    nor above it, and no path of the cleanup list held a folder before the
    run, then after the run, however it ended, no path of the cleanup list
    is there and the run has logged no warning. *)
Theorem working_removals_leave_no_intermediate E json_path presentation_path
    video_path output_path w r f :
  process_video_frame E json_path presentation_path video_path output_path
    (new_frame w) = (r, f) ->
  (forall w0 p, remove_raises E w0 p = None) ->
  plain output_path = true ->
  (forall a, a ∈ ancestors (posixpath.dirname output_path) ->
     fs w !! a = Some Directory) ->
  "inputs.txt" ∉ ancestors output_path ->
  (forall p, p ∈ cycle_temp_files f -> fs w !! p ≠ Some Directory) ->
  (forall p, p ∈ cycle_temp_files f -> fs (frame_world f) !! p = None)
  /\ (forall p e, LogWarning p e ∈ trace (frame_world f) ->
        LogWarning p e ∈ trace w).
Proof.
  intros H Hrm _ _ Hd%manifest_not_above Hdir.
  pose proof (process_video_frame_inv _ _ _ _ _ (new_frame w) _ _ eq_refl H)
    as Hrun.
  pose proof (fun p => tracked_planned _ _ _ (new_frame w) _ _ p eq_refl Hrun)
    as Htr.
  apply process_video_frame_split in H
    as [(e & Hs & _)|(imgs & f1 & f3 & Hs & Ht & Hf)].
  - apply setup_inv in Hs as (Hc & Hfs & Hlog). simpl in Hc, Hfs, Hlog.
    split.
    + intros p Hp. rewrite Hc in Hp. by apply elem_of_nil in Hp.
    + intros p e'. destruct Hlog as [(_ & _ & ->)|(_ & _ & ->)]; [|done].
      intros [Hp|Hp]%elem_of_app; [done|].
      by apply list_elem_of_singleton in Hp.
  - destruct (entry_quiet _ _ _ _ _ _ _ _ _ Hs Ht) as [Hfs Hlog].
    simpl in Hfs, Hlog.
    pose proof (finally_block_inv _ _ _ _ Hf) as (_ & Hc & _ & Hless & _).
    apply finally_block_sweep in Hf.
    apply (sweep_clean _ _ _ _ _ _ Hrm) in Hf as (Hgone & ps & Htrace).
    2:{ intros p Hp Hq. apply Hfs in Hq as [->|Hq]; [|by apply (Hdir p)].
        destruct (Htr _ Hp) as (_ & [Heq|(i & Hi)]); [done|].
        apply (planned_not_folder (posixpath.dirname output_path)
                 (posixpath.dirname output_path)); [|done].
        exists i. unfold segment_files. exact Hi. }
    split; [done|].
    intros p e. rewrite Htrace. intros [Hp|Hp]%elem_of_app; [auto|].
    by apply list_elem_of_fmap in Hp as (q & ? & _).
Qed.

Lemma working_removals_leave_no_intermediate_witness :
  fs (frame_world leaky_frame) !! "uploads/slide_02.png" = None
  /\ fs (frame_world leaky_frame) !! "uploads/speaker_00_resized.mp4" = None.
Proof.
  assert (H : process_video_frame leaky_env "uploads/t.json" "uploads/deck.pdf"
                "uploads/talk.mp4" "uploads/out.mp4" (new_frame (start_world ∅))
              = (inl (CalledProcessError 1
                        (resize_video_cmd "uploads/speaker_01.mp4"
                           "uploads/speaker_01_resized.mp4")), leaky_frame))
    by (vm_compute; reflexivity).
  destruct (working_removals_leave_no_intermediate leaky_env _ _ _ _ _ _ _ H)
    as (Hgone & _).
  - intros w0 p. reflexivity.
  - reflexivity.
  - intros a Hin.
    change (ancestors (posixpath.dirname "uploads/out.mp4")) with (@nil string)
      in Hin.
    destruct (not_elem_of_nil _ Hin).
  - change (ancestors "uploads/out.mp4") with ["uploads"].
    intros Hin%list_elem_of_singleton. discriminate Hin.
  - intros p _. simpl. by rewrite lookup_empty.
  - split; apply Hgone; vm_compute; repeat constructor.
Defined.

(** ** The task, when removals work *)

Lemma head_of_length p :
  posixpath.endswith_sep p = false -> p ≠ "" ->
  String.length (posixpath.head_of p) < String.length p.
Proof.
  induction p as [|c p IH]; [done|]. intros He _.
  cbn [posixpath.head_of].
  destruct (posixpath.head_of p) as [|c' h] eqn:Hh.
  - destruct p as [|c2 p2]; [simpl in He; rewrite He; simpl; lia|].
    destruct (posixpath.is_sep c); simpl; lia.
  - destruct p as [|c2 p2]; [done|].
    specialize (IH He ltac:(done)). simpl in *. lia.
Qed.

Lemma rstrip_sep_length h :
  String.length (posixpath.rstrip_sep h) <= String.length h.
Proof.
  induction h as [|c h IH]; [done|]. cbn [posixpath.rstrip_sep].
  destruct (posixpath.rstrip_sep h) as [|c' r].
  - destruct (posixpath.is_sep c); simpl; lia.
  - simpl in *. lia.
Qed.

(** The folder of a path that names a file is shorter than the path. *)
Lemma dirname_shorter p :
  posixpath.endswith_sep p = false -> p ≠ "" ->
  String.length (posixpath.dirname p) < String.length p.
Proof.
  intros He Hp. pose proof (head_of_length p He Hp) as Hlen.
  unfold posixpath.dirname. destruct (_ && _); [|done].
  pose proof (rstrip_sep_length (posixpath.head_of p)). lia.
Qed.

Lemma endswith_sep_app a b :
  b ≠ "" -> posixpath.endswith_sep (a +:+ b) = posixpath.endswith_sep b.
Proof.
  intros Hb. induction a as [|c a IH]; [done|].
  change (String c a +:+ b) with (String c (a +:+ b)).
  cbn [posixpath.endswith_sep]. destruct (a +:+ b) eqn:Hab; [|done].
  by destruct a, b.
Qed.

Lemma task_output_not_its_folder request_id :
  task_output request_id ≠ posixpath.dirname (task_output request_id).
Proof.
  intros H. apply (f_equal String.length) in H.
  assert (String.length (posixpath.dirname (task_output request_id))
          < String.length (task_output request_id)); [|lia].
  apply dirname_shorter; [|done].
  rewrite task_output_eq.
  rewrite (endswith_sep_app "uploads/processed_video_") by (by destruct request_id).
  by rewrite endswith_sep_app.
Qed.

(** The task is the pipeline, then its removal loops. *)
Lemma create_video_task_split E request_id json_path pres_path video_path w r
    w' :
  create_video_task E request_id json_path pres_path video_path w = (r, w') ->
  exists rp w1,
    process_video_with_presentation E json_path pres_path video_path
      (task_output request_id)
      {| fs := fs w; trace := trace w ++ [UpdateState "PROGRESS"] |}
    = (rp, w1)
    /\ ((rp = inr tt
         /\ r = inr {| status := "SUCCESS";
                       result_path := task_output request_id;
                       result_filename :=
                         "processed_video_" +:+ request_id +:+ ".mp4" |}
         /\ cleanup_files E [json_path; pres_path; video_path] w1
            = (inr tt, w'))
        \/ (exists e w2,
              rp = inl e /\ r = inl e
              /\ cleanup_files E
                   [json_path; pres_path; video_path; task_output request_id]
                   {| fs := fs w1; trace := trace w1 ++ [PrintedTaskFailed e] |}
                 = (inr tt, w2)
              /\ cleanup_files E [json_path; pres_path; video_path] w2
                 = (inr tt, w'))).
Proof.
  unfold create_video_task. fold (task_output request_id).
  unfold try_finally, try_except, bind, emit, ret, raise. cbv beta.
  destruct (process_video_with_presentation _ _ _ _ _ _) as [[e|[]] w1] eqn:Hp.
  - destruct (cleanup_files E [_; _; _; _] _) as [r2 w2] eqn:Hc2.
    pose proof (cleanup_files_inv _ _ _ _ _ Hc2) as [-> _].
    destruct (cleanup_files E [_; _; _] w2) as [r3 w3] eqn:Hc3.
    pose proof (cleanup_files_inv _ _ _ _ _ Hc3) as [-> _].
    intros H. simplify_eq. exists (inl e), w1. split; [done|].
    right. by exists e, w2.
  - destruct (cleanup_files E [_; _; _] w1) as [r3 w3] eqn:Hc3.
    pose proof (cleanup_files_inv _ _ _ _ _ Hc3) as [-> _].
    intros H. simplify_eq. exists (inr tt), w1. split; [done|].
    left. done.
Qed.

(** X19.  When [os.remove] never fails, the id has no separator, the three
    inputs are plain paths, and none of them and the output path held a
    folder before the task or is the folder of the output, then after the
    task the three inputs are gone, and when the task has failed the output
    path holds nothing either. *)
Theorem task_with_working_removals_removes_the_inputs E request_id json_path
    pres_path video_path w r w' :
  create_video_task E request_id json_path pres_path video_path w = (r, w') ->
  (forall w0 p, remove_raises E w0 p = None) ->
  sep_free request_id = true ->
  (forall p, p ∈ [json_path; pres_path; video_path] -> plain p = true) ->
  (forall p, p ∈ [json_path; pres_path; video_path; task_output request_id] ->
     fs w !! p ≠ Some Directory) ->
  (forall p, p ∈ [json_path; pres_path; video_path] ->
     p ≠ posixpath.dirname (task_output request_id)) ->
  (forall p, p ∈ [json_path; pres_path; video_path] -> fs w' !! p = None)
  /\ (forall e, r = inl e -> fs w' !! task_output request_id = None).
Proof.
  intros H Hrm _ _ Hdir Hd.
  apply create_video_task_split in H as (rp & w1 & Hp & H).
  assert (Hdir1 : forall p,
            p ∈ [json_path; pres_path; video_path; task_output request_id] ->
            fs w1 !! p ≠ Some Directory).
  { intros p Hin Hq.
    apply (process_video_folders _ _ _ _ _ _ _ _ _ Hp) in Hq as [->|Hq];
      [|by apply (Hdir p)].
    rewrite !elem_of_cons, elem_of_nil in Hin.
    destruct Hin as [Hin|[Hin|[Hin|[Hin|[]]]]];
      try (by apply (task_output_not_its_folder request_id));
      (apply (Hd (posixpath.dirname (task_output request_id))); [|done]);
      rewrite !elem_of_cons; rewrite <- Hin; auto. }
  destruct H as [(-> & -> & Hc)|(e & w2 & -> & -> & Hc4 & Hc3)].
  - unfold cleanup_files in Hc.
    apply (sweep_clean _ _ _ _ _ _ Hrm) in Hc as (Hgone & _).
    + split; [done|]. by intros e.
    + intros p Hin. apply Hdir1. rewrite !elem_of_cons in *. tauto.
  - pose proof (cleanup_files_inv _ _ _ _ _ Hc3) as (_ & _ & Hless & _).
    unfold cleanup_files in Hc4, Hc3.
    apply (sweep_clean _ _ _ _ _ _ Hrm) in Hc4 as (Hgone4 & _); [|done].
    split.
    + apply (sweep_clean _ _ _ _ _ _ Hrm) in Hc3 as (Hgone & _); [done|].
      intros p Hin. rewrite Hgone4; [done|].
      rewrite !elem_of_cons in *. tauto.
    + intros _ _. destruct (Hless (task_output request_id)) as [Heq|Heq];
        [|done].
      rewrite Heq. apply Hgone4. rewrite !elem_of_cons. auto.
Qed.

Lemma task_with_working_removals_removes_the_inputs_witness :
  fs task_kept_world !! "uploads/t.json" = None
  /\ fs task_kept_world !! "uploads/deck.pdf" = None
  /\ fs task_kept_world !! "uploads/talk.mp4" = None.
Proof.
  assert (H : create_video_task demo_env "7f3a" "uploads/t.json"
                "uploads/deck.pdf" "uploads/talk.mp4"
                (start_world uploads_and_more)
              = (inr {| status := "SUCCESS";
                        result_path := "uploads/processed_video_7f3a.mp4";
                        result_filename := "processed_video_7f3a.mp4" |},
                 task_kept_world))
    by (vm_compute; reflexivity).
  destruct (task_with_working_removals_removes_the_inputs demo_env _ _ _ _ _ _
              _ H) as (Hgone & _).
  - intros w0 p. reflexivity.
  - reflexivity.
  - intros p Hin. rewrite !elem_of_cons, elem_of_nil in Hin.
    destruct Hin as [->|[->|[->|[]]]]; reflexivity.
  - intros p Hin. rewrite !elem_of_cons, elem_of_nil in Hin.
    destruct Hin as [->|[->|[->|[->|[]]]]]; vm_compute; discriminate.
  - intros p Hin. rewrite !elem_of_cons, elem_of_nil in Hin.
    destruct Hin as [->|[->|[->|[]]]]; vm_compute; discriminate.
  - repeat split; apply Hgone; rewrite !elem_of_cons; auto.
Defined.

(** ** The order of the effects *)

(** X20.  In every run, what the run does splits into its work and its
    cleanup: nothing is removed before the last page is saved, the last
    command spawned and the manifest written, and from the first removal on
    the run only removes files of its cleanup list or logs that it could
    not. *)
Theorem removals_come_last E json_path presentation_path video_path
    output_path w r f :
  process_video_frame E json_path presentation_path video_path output_path
    (new_frame w) = (r, f) ->
  exists work sweep,
    trace (frame_world f) = trace w ++ work ++ sweep
    /\ removed work = []
    /\ Forall (removal_of LogWarning (cycle_temp_files f)) sweep.
Proof.
  intros H. apply process_video_frame_inv in H; [|done].
  destruct H as [e _ Hset|e pre m w3 Hr _ _ Hpre _ Hout Ht _ Hsw _
                |pre rc w3 _ _ Hpre Hout Ht _ Hsw Hr].
  - destruct Hset as (_ & _ & [(_ & _ & Ht)|(_ & _ & Ht)]); simpl in Ht.
    + exists [LogError (error_message (length (slides_json E)) (pdf_pages E))],
        [].
      rewrite app_nil_r. by split.
    + exists [], []. rewrite !app_nil_r. by split.
  - destruct Hsw as (_ & _ & _ & evs & Htf & Hev). simpl in Ht.
    exists (pre ++ (SavePage <$> job_images E output_path)
            ++ (ok_run <$> take m (job_phases E video_path output_path))
            ++ failed_events r), evs.
    split; [by rewrite Htf, Ht, <- !app_assoc|].
    split; [|done]. rewrite !removed_app. unfold removed.
    by rewrite (omap_pre _ _ _ Hpre), omap_save_page, omap_ok_run, omap_failed.
  - destruct Hsw as (_ & _ & _ & evs & Htf & Hev). simpl in Ht.
    exists (pre ++ (SavePage <$> job_images E output_path)
            ++ (ok_run <$> job_phases E video_path output_path)
            ++ [WriteText inputs_txt_path
                  (manifest_text (combined (posixpath.dirname output_path)
                                    <$> seq 0 (length (slides_json E))));
                Run (concat_videos_cmd output_path) rc]), evs.
    split; [by rewrite Htf, Ht, <- !app_assoc|].
    split; [|done]. rewrite !removed_app. unfold removed.
    by rewrite (omap_pre _ _ _ Hpre), omap_save_page, omap_ok_run.
Qed.

Lemma removals_come_last_witness :
  exists work sweep,
    trace (frame_world leaky_frame) = work ++ sweep
    /\ removed work = []
    /\ Forall (removal_of LogWarning (cycle_temp_files leaky_frame)) sweep.
Proof.
  assert (H : process_video_frame leaky_env "uploads/t.json" "uploads/deck.pdf"
                "uploads/talk.mp4" "uploads/out.mp4" (new_frame (start_world ∅))
              = (inl (CalledProcessError 1
                        (resize_video_cmd "uploads/speaker_01.mp4"
                           "uploads/speaker_01_resized.mp4")), leaky_frame))
    by (vm_compute; reflexivity).
  exact (removals_come_last leaky_env _ _ _ _ _ _ _ H).
Defined.

(** ** The net effect of a run that returns *)

(** The file system when [setup] has returned. *)
Lemma setup_fs E pres out f imgs f1 q :
  setup E pres out f = (inr imgs, f1) ->
  fs (frame_world f1) !! q
  = if bool_decide (q ∈ imgs) then Some Binary
    else if bool_decide (q = posixpath.dirname out) then Some Directory
    else fs (frame_world f) !! q.
Proof.
  unfold setup. case_bool_decide as Hlen.
  { unfold bind, lift, emit, raise. simpl. intros H. simplify_eq. }
  unfold bind, lift, makedirs, convert_pdf_to_images, bind, path_exists,
    init_lists, ret.
  case_bool_decide as Hdir; simpl; [intros H; simplify_eq|].
  destruct (fs (frame_world f) !! posixpath.dirname out) as [[]|] eqn:Hfs;
    simpl; try (intros H; simplify_eq; fail).
  - rewrite Hfs. rewrite bool_decide_eq_true_2 by eauto. simpl.
    rewrite save_slides_eq. simpl. intros H. simplify_eq. simpl.
    rewrite lookup_foldl_insert. case_bool_decide; [done|].
    case_bool_decide; by simplify_eq.
  - rewrite lookup_insert_eq. rewrite bool_decide_eq_true_2 by eauto. simpl.
    rewrite save_slides_eq. simpl. intros H. simplify_eq. simpl.
    rewrite lookup_foldl_insert. case_bool_decide; [done|].
    case_bool_decide; simplify_eq; [apply lookup_insert_eq|].
    by apply lookup_insert_ne.
Qed.

Lemma job_temps_phases E video out :
  job_images E out ++ (phase_out <$> job_phases E video out) ++ [inputs_txt_path]
  = job_temps E out.
Proof. unfold job_temps, job_phases. by rewrite loop_phases_out. Qed.


